(** * HALbridge sandbox core (modules/code.py): a shallow embedding

    The development follows modules/code.py top to bottom: Python text and
    the two regular expressions of the preflight scanner, the JSON-like
    configuration and its deep merge, profile and policy resolution, the
    wrapper program, the process runner, and the two entry points
    [run_snippet] and [run_file].  The fallback runner of gpt_chat_v3.py
    ([run_python_script]) is embedded as far as its child-process call goes.

    Python values are modelled as follows.
    - A [str] is a list of Unicode code points ([list N]); string literals
      of the source are ASCII and written with [u].
    - A JSON document is the inductive [json]; a [dict] is an association
      list in insertion order (JSON floats are not modelled).
    - Code that may raise returns an [outcome]; code with effects on the
      file system, the event log, the bus or child processes runs in the
      state monad [M] over [World]. *)

From Stdlib Require Import ZArith NArith List Bool Ascii String Lia.
From stdpp Require Import gmap strings list.
Import ListNotations.

Set Warnings "-register-all".

Local Open Scope N_scope.

(** ** Python text *)

Abbreviation pystr := (list N).

(** An ASCII literal of the source as a Python [str]. *)
Fixpoint u (s : string) : pystr :=
  match s with
  | EmptyString => []
  | String a s' => N_of_ascii a :: u s'
  end.

(** [str(n)] for a non-negative integer. *)
Fixpoint digits (d : Decimal.uint) : pystr :=
  match d with
  | Decimal.Nil => []
  | Decimal.D0 d' => 48 :: digits d'
  | Decimal.D1 d' => 49 :: digits d'
  | Decimal.D2 d' => 50 :: digits d'
  | Decimal.D3 d' => 51 :: digits d'
  | Decimal.D4 d' => 52 :: digits d'
  | Decimal.D5 d' => 53 :: digits d'
  | Decimal.D6 d' => 54 :: digits d'
  | Decimal.D7 d' => 55 :: digits d'
  | Decimal.D8 d' => 56 :: digits d'
  | Decimal.D9 d' => 57 :: digits d'
  end.

Definition str_of_N (n : N) : pystr := digits (N.to_uint n).

Definition str_of_nat (n : nat) : pystr := str_of_N (N.of_nat n).

(** [str(z)] for an [int]. *)
Definition str_of_Z (z : Z) : pystr :=
  match z with
  | Z0 => u "0"
  | Zpos p => str_of_N (Npos p)
  | Zneg p => u "-" ++ str_of_N (Npos p)
  end.

(** [sep.join(parts)]. *)
Fixpoint join (sep : pystr) (parts : list pystr) : pystr :=
  match parts with
  | [] => []
  | [p] => p
  | p :: rest => p ++ sep ++ join sep rest
  end.

(** [needle in hay], as a proposition. *)
Definition contains (hay needle : pystr) : Prop :=
  exists pre post, hay = pre ++ needle ++ post.

(** [s.startswith(p)], returning what follows the prefix. *)
Fixpoint strip_prefix (p s : pystr) : option pystr :=
  match p, s with
  | [], _ => Some s
  | a :: p', b :: s' => if N.eqb a b then strip_prefix p' s' else None
  | _ :: _, [] => None
  end.

(** The line boundaries of [str.splitlines]. *)
Definition is_linebreak (c : N) : bool :=
  (c =? 10) || (c =? 11) || (c =? 12) || (c =? 13) || (c =? 28) || (c =? 29)
  || (c =? 30) || (c =? 133) || (c =? 8232) || (c =? 8233).

(** [str.splitlines()]: the text is cut at every line boundary, CR LF counts
    as one boundary, and a boundary at the very end opens no further line.
    [cur] holds the current line in reverse. *)
Fixpoint splitlines_from (cur : pystr) (s : pystr) : list pystr :=
  match s with
  | [] => match cur with [] => [] | _ => [rev cur] end
  | c :: s' =>
      if is_linebreak c then
        rev cur ::
          match s' with
          | d :: s'' =>
              if (c =? 13) && (d =? 10) then splitlines_from [] s''
              else splitlines_from [] s'
          | [] => []
          end
      else splitlines_from (c :: cur) s'
  end.

Definition splitlines (s : pystr) : list pystr := splitlines_from [] s.

(** [name.split('.', 1)[0]]. *)
Fixpoint split_root (s : pystr) : pystr :=
  match s with
  | [] => []
  | c :: s' => if c =? 46 then [] else c :: split_root s'
  end.

(** [\s] of the [re] module on [str] patterns: [str.isspace]. *)
Definition is_space (c : N) : bool :=
  ((9 <=? c) && (c <=? 13)) || ((28 <=? c) && (c <=? 32))
  || (c =? 133) || (c =? 160) || (c =? 5760)
  || ((8192 <=? c) && (c <=? 8202))
  || (c =? 8232) || (c =? 8233) || (c =? 8239) || (c =? 8287) || (c =? 12288).

Definition ascii_alnum (c : N) : bool :=
  ((48 <=? c) && (c <=? 57)) || ((65 <=? c) && (c <=? 90))
  || ((97 <=? c) && (c <=? 122)).

(** ** Python values, exceptions and the world *)

(** What [json.loads] yields (and what the code handles dynamically):
    [None], [bool], [int], [str], [list] and [dict]. *)
Inductive json :=
  | JNull
  | JBool (b : bool)
  | JInt (z : Z)
  | JStr (s : pystr)
  | JArr (l : list json)
  | JObj (m : list (pystr * json)).

Abbreviation dict := (list (pystr * json)).

(** The exception classes the code tells apart. *)
Inductive exc_class :=
  | ImportErrorClass      (* ImportError and its subclasses *)
  | TimeoutExpiredClass   (* subprocess.TimeoutExpired *)
  | OtherExceptionClass.  (* any other class derived from Exception *)

Record pyexc := PyExc {
  exc_class_of : exc_class;
  exc_name : pystr;       (* the class name, as a traceback prints it *)
  exc_msg : pystr         (* str(e) *)
}.

Inductive outcome (A : Type) :=
  | Ret (a : A)
  | Raise (e : pyexc).
Arguments Ret {A} a.
Arguments Raise {A} e.

Definition TypeError (msg : string) : pyexc :=
  PyExc OtherExceptionClass (u "TypeError") (u msg).
Definition AttributeError (msg : string) : pyexc :=
  PyExc OtherExceptionClass (u "AttributeError") (u msg).
Definition ValueError (msg : string) : pyexc :=
  PyExc OtherExceptionClass (u "ValueError") (u msg).
Definition NameError (msg : string) : pyexc :=
  PyExc OtherExceptionClass (u "NameError") (u msg).
Definition UnicodeEncodeError : pyexc :=
  PyExc OtherExceptionClass (u "UnicodeEncodeError")
    (u "'utf-8' codec can't encode character: surrogates not allowed").
Definition JSONDecodeError : pyexc :=
  PyExc OtherExceptionClass (u "JSONDecodeError") (u "Expecting value").

(** [SecurityPolicy]: the two lists hold whatever [list(...)] made of the
    configuration entries. *)
Record SecurityPolicy := mkPolicy {
  blocked_imports : list json;
  blocked_calls : list json
}.

(** The program that [_wrapper_source] synthesises, by the three values its
    template is instantiated with. *)
Record wrapper := mkWrapper {
  w_blocked : list json;   (* BLOCKED = set(...) *)
  w_calls : list json;     (* CALLS = set(...) *)
  w_target : pystr         (* the path given to runpy.run_path *)
}.

(** What a file holds: text, the wrapper program rendered for [w], or the
    serialisation [json.dumps(j)] of a JSON value. *)
Inductive file :=
  | FText (s : pystr)
  | FWrapper (w : wrapper)
  | FJson (j : json).

(** Per-process resource ceilings (soft = hard); [None] is "not set by us". *)
Record rlimits := mkLimits {
  rl_as : option Z;    (* RLIMIT_AS, bytes *)
  rl_cpu : option Z    (* RLIMIT_CPU, seconds *)
}.

Definition no_limits : rlimits := mkLimits None None.

(** The arguments of one [subprocess.run] / [subprocess.Popen] call. *)
Record spawn := mkSpawn {
  sp_argv : list pystr;
  sp_env : option (gmap pystr pystr);   (* None: inherit os.environ *)
  sp_timeout : option Z;                (* seconds to wait for the child *)
  sp_capture : bool;                    (* stdout/stderr = PIPE *)
  sp_preexec : option (rlimits -> rlimits)
}.

(** The limits in force in the child when the program starts. *)
Definition child_limits (sp : spawn) : rlimits :=
  match sp_preexec sp with
  | Some f => f no_limits
  | None => no_limits
  end.

(** How a Python program run in a child ends.  A program shares the
    interpreter with whatever runs it: in [TReturned], [TRaised] and
    [TExited] it has left [sys.exit], [sys.stderr], the traceback module and
    the built-in exception classes as they were; a program that replaced any
    of them ends as [TSubverted], with the exit status the process then
    has (nothing that is written around the program acts as written any
    more). *)
Inductive target_end :=
  | TReturned                          (* ran to its end *)
  | TRaised (e : pyexc) (tb : pystr)   (* an exception derived from Exception escaped;
                                          [tb] are the traceback frames *)
  | TExited (code : Z)                 (* sys.exit(code) *)
  | TKilled (signal : Z)               (* ended by a signal *)
  | TSubverted (status : Z).           (* changed the interpreter; the process ends with [status] *)

Record target_run := mkRun {
  t_end : target_end;
  t_out : pystr;          (* what it wrote to stdout *)
  t_err : pystr;          (* what it wrote to stderr *)
  t_ms : option Z         (* running time; None: it never ends *)
}.

Record EnvironmentDescriptor := mkEnv {
  env_os : pystr;
  env_os_release : pystr;
  env_python : pystr;
  env_is_ssh : bool;
  env_display : pystr;
  env_has_gui : bool;
  env_is_tty : bool;
  env_user : pystr;
  env_hostname : pystr
}.

(** The dict that [run_snippet] and [run_file] return. *)
Record result := mkResult {
  r_ok : bool;
  r_stdout : pystr;
  r_stderr : pystr;
  r_returncode : Z;
  r_env : EnvironmentDescriptor;
  r_profile : json;
  r_duration_ms : Z;
  r_valid : option json;
  r_suggestion : option json
}.

(** The dict that [run_python_script] of gpt_chat_v3.py returns in capture
    mode (without the job bookkeeping fields). *)
Record script_result := mkScript {
  s_ok : bool;
  s_msg : pystr;
  s_stdout : pystr;
  s_stderr : pystr
}.

(** modules/intelligence.py, as far as code.py calls it. *)
Record Intelligence := mkIntelligence {
  analyze_prompt : pystr -> outcome json;
  validate_result : result -> outcome json;
  suggest_fix : pystr -> outcome json
}.

(** Calls into the other optional collaborators. *)
Inductive collab_call :=
  | IntegrationRoute (meta : json) (code : pystr)
  | RegistrySaveArtifact (code : pystr) (project : json)
  | RegistryRegisterPath (path : pystr) (project : json)
  | AutoHealRecordFailure (src : pystr) (path : pystr) (stderr : pystr).

Record log_record := mkLog {
  lg_src : pystr;
  lg_path : option pystr;
  lg_profile : json;
  lg_returncode : Z;
  lg_stderr_len : nat;
  lg_stdout_len : nat;
  lg_duration_ms : Z
}.

(** Everything the code reads from its host: the interpreter's libraries,
    the process environment, the optional modules that were importable, and
    the behaviour of the programs it runs. *)
Record Host := mkHost {
  (* library functions *)
  py_isalnum : N -> bool;                    (* str.isalnum beyond ASCII *)
  py_json_loads : pystr -> option json;      (* None: JSONDecodeError *)
  py_json_dumps : json -> pystr;
  py_int_of_str : pystr -> option Z;         (* int(s); None: ValueError *)
  py_resolve : pystr -> outcome pystr;       (* str(Path(p).expanduser().resolve()) *)
  py_wrapper_text : wrapper -> pystr;        (* the rendered template *)
  py_wrapper_frames : pystr -> wrapper -> pystr;
                                             (* the frame lines of the traceback when a
                                                top-level statement of the wrapper,
                                                rendered into the file of that path,
                                                raises *)
  py_stat_error : pystr -> option pyexc;     (* for a path that names no file: the OSError
                                                of os.stat that Path.exists does not turn
                                                into False (a name too long, a directory
                                                that may not be searched) *)
  py_uuid4_hex : nat -> pystr;               (* the n-th uuid.uuid4().hex *)
  (* the process *)
  h_home : pystr;
  h_executable : pystr;                      (* sys.executable *)
  h_environ : gmap pystr pystr;              (* os.environ *)
  h_isatty : option bool;                    (* sys.stdout.isatty(); None: raises *)
  h_system : pystr;
  h_release : pystr;
  h_python_version : pystr;
  h_user : pystr;
  h_hostname : pystr;
  h_log_writable : bool;
  h_cfg_write_error : option (pyexc * option file);
                                             (* writing CFG_PATH fails: the OSError, and
                                                the file that is left behind, if any *)
  (* optional modules *)
  h_bus : bool;
  h_intelligence : option Intelligence;
  h_integration : bool;
  h_code_registry : bool;
  h_auto_heal : bool;
  h_collab : collab_call -> option pyexc;    (* Some e: the call raises e *)
  (* child processes *)
  h_spawn_error : spawn -> option pyexc;     (* the call itself fails *)
  h_program : list pystr -> list json -> list json -> rlimits ->
              gmap pystr file -> target_run  (* argv, BLOCKED, CALLS, limits, files *)
}.

(** What the code acts on.  [fs] holds the files that the sandbox reads and
    writes by itself: the configuration, the copy of a snippet, the wrapper,
    the scripts.  What is appended to code_exec.log is kept in [log], what is
    published (and appended to bus.log) in [bus], and the calls into the
    collaborators, which keep files of their own (the registry's copies,
    auto_patch.log), in [collab]; files that a child process writes are not
    followed. *)
Record World := mkWorld {
  fs : gmap pystr file;
  spawned : list spawn;              (* child processes started, oldest first *)
  log : list log_record;             (* code_exec.log *)
  bus : list (pystr * json);         (* BUS history *)
  collab : list collab_call;         (* collaborator calls that were made *)
  uuids : nat;                       (* uuid4 values drawn so far *)
  clock : Z                          (* time.time(), in milliseconds *)
}.

Definition with_fs (f : gmap pystr file -> gmap pystr file) (w : World) : World :=
  mkWorld (f (fs w)) (spawned w) (log w) (bus w) (collab w) (uuids w) (clock w).

(** ** The monad of effectful code *)

Definition M (A : Type) : Type := World -> outcome A * World.

#[export] Instance M_ret : MRet M := fun A a w => (Ret a, w).

#[export] Instance M_bind : MBind M := fun A B k m w =>
  match m w with
  | (Ret a, w') => k a w'
  | (Raise e, w') => (Raise e, w')
  end.

Definition raise {A} (e : pyexc) : M A := fun w => (Raise e, w).

Definition lift {A} (o : outcome A) : M A := fun w => (o, w).

(** [try: body except Exception: handler]. Every modelled exception derives
    from Exception. *)
Definition try_except {A} (body : M A) (handler : pyexc -> M A) : M A :=
  fun w => match body w with
           | (Ret a, w') => (Ret a, w')
           | (Raise e, w') => handler e w'
           end.

(** [try: body except subprocess.TimeoutExpired: handler]. *)
Definition try_except_timeout {A} (body : M A) (handler : M A) : M A :=
  fun w => match body w with
           | (Raise e, w') =>
               match exc_class_of e with
               | TimeoutExpiredClass => handler w'
               | _ => (Raise e, w')
               end
           | r => r
           end.

(** [try: body finally: cleanup]; an exception out of [cleanup] replaces
    the outcome of [body]. *)
Definition try_finally {A} (body : M A) (cleanup : M unit) : M A :=
  fun w => match body w with
           | (o, w') =>
               match cleanup w' with
               | (Ret _, w'') => (o, w'')
               | (Raise e, w'') => (Raise e, w'')
               end
           end.

(** [try: body except Exception: pass]. *)
Definition swallow (body : M unit) : M unit :=
  try_except body (fun _ => mret tt).

Definition when (b : bool) (m : M unit) : M unit :=
  if b then m else mret tt.

#[export] Instance outcome_ret : MRet outcome := fun A a => Ret a.

#[export] Instance outcome_bind : MBind outcome := fun A B k o =>
  match o with
  | Ret a => k a
  | Raise e => Raise e
  end.

(** ** Dynamic operations on Python values *)

(** [bool(v)]. *)
Definition truthy (v : json) : bool :=
  match v with
  | JNull => false
  | JBool b => b
  | JInt z => negb (Z.eqb z 0)
  | JStr s => match s with [] => false | _ => true end
  | JArr l => match l with [] => false | _ => true end
  | JObj m => match m with [] => false | _ => true end
  end.

(** [a or b]. *)
Definition py_or (a b : json) : json := if truthy a then a else b.

(** [d.get(k)] on a [dict] with a [str] key. *)
Fixpoint dict_get (d : dict) (k : pystr) : option json :=
  match d with
  | [] => None
  | (k', v) :: d' => if decide (k' = k) then Some v else dict_get d' k
  end.

(** [d[k] = v]: an existing key keeps its place, a new key goes last. *)
Fixpoint dict_set (d : dict) (k : pystr) (v : json) : dict :=
  match d with
  | [] => [(k, v)]
  | (k', v') :: d' =>
      if decide (k' = k) then (k, v) :: d' else (k', v') :: dict_set d' k v
  end.

(** [obj.get(key, dflt)] on an arbitrary value: only a dict has [get], and a
    list or dict cannot be a key. *)
Definition py_get (obj key dflt : json) : outcome json :=
  match obj with
  | JObj m =>
      match key with
      | JStr k => Ret (default dflt (dict_get m k))
      | JArr _ | JObj _ => Raise (TypeError "unhashable type")
      | JNull | JBool _ | JInt _ => Ret dflt
      end
  | _ => Raise (AttributeError "object has no attribute 'get'")
  end.

(** [list(v)]. *)
Definition py_list (v : json) : outcome (list json) :=
  match v with
  | JArr l => Ret l
  | JStr s => Ret (map (fun c => JStr [c]) s)
  | JObj m => Ret (map (fun kv => JStr (fst kv)) m)
  | JNull | JBool _ | JInt _ => Raise (TypeError "object is not iterable")
  end.

(** [x in {...}] for a [str] x and a set built from JSON values. *)
Definition str_in (x : pystr) (s : list json) : bool :=
  existsb (fun v => match v with JStr y => bool_decide (x = y) | _ => false end) s.

(** [isinstance(v, str)]. *)
Definition is_str (v : json) : bool :=
  match v with
  | JStr _ => true
  | _ => false
  end.

(** The text of a [str] value. *)
Definition as_str (v : json) : pystr :=
  match v with
  | JStr s => s
  | _ => []
  end.

(** Lists and dicts cannot be members of a [set]. *)
Definition hashable (v : json) : bool :=
  match v with
  | JArr _ | JObj _ => false
  | _ => true
  end.

(** ** Configuration (lines 64-115) *)

Definition jstrs (l : list string) : json := JArr (map (fun s => JStr (u s)) l).

Definition DEFAULT_CFG : dict :=
  [ (u "exec_timeout_sec", JInt 8);
    (u "gen_timeout_sec", JInt 20);
    (u "token_budget", JInt 2000);
    (u "profile", JStr (u "headless"));
    (u "policy_overrides", JObj
      [ (u "headless", JObj
          [ (u "blocked_imports",
              jstrs ["matplotlib"; "tkinter"; "pygame"; "requests"; "socket"]%string);
            (u "blocked_calls", jstrs ["os.system"]%string) ]);
        (u "iot", JObj
          [ (u "blocked_imports",
              jstrs ["matplotlib"; "tkinter"; "pygame"; "requests"; "socket"]%string);
            (u "blocked_calls", jstrs ["os.system"]%string) ]);
        (u "analysis", JObj
          [ (u "blocked_imports", jstrs ["tkinter"; "pygame"; "socket"]%string);
            (u "blocked_calls", jstrs ["os.system"]%string) ]) ]) ].

(** [deep_merge(dst, src)] of [_load_cfg], with [src] given as the JSON
    object it is; the result is [dst] after the in-place update. *)
Fixpoint deep_merge_obj (src : json) (dst : dict) {struct src} : dict :=
  match src with
  | JObj m =>
      (fix items (m : dict) (dst : dict) {struct m} : dict :=
         match m with
         | [] => dst
         | (k, v) :: m' =>
             items m'
               match v, dict_get dst k with
               | JObj _, Some (JObj d) => dict_set dst k (JObj (deep_merge_obj v d))
               | _, _ => dict_set dst k v
               end
         end) m dst
  | _ => dst
  end.

Definition deep_merge (dst src : dict) : dict := deep_merge_obj (JObj src) dst.

(** [deep_merge(merged, data or {})]: a value without [items] raises. *)
Definition deep_merge_py (dst : dict) (src : json) : outcome dict :=
  match src with
  | JObj m => Ret (deep_merge dst m)
  | _ => Raise (AttributeError "object has no attribute 'items'")
  end.

(** [get_profile] (lines 140-141). *)
Definition get_profile (env : EnvironmentDescriptor) (override : json) (cfg : dict) : json :=
  py_or override (default (JStr (u "headless")) (dict_get cfg (u "profile"))).

(** [_policy_for_profile] (lines 151-156). *)
Definition _policy_for_profile (profile : json) (cfg : dict) : outcome SecurityPolicy :=
  p ← py_get (default (JObj []) (dict_get cfg (u "policy_overrides"))) profile (JObj []);
  bi ← py_get p (JStr (u "blocked_imports")) (JArr []);
  imports ← py_list bi;
  bc ← py_get p (JStr (u "blocked_calls")) (JArr []);
  calls ← py_list bc;
  mret (mkPolicy imports calls).

(** Dotted lookup through nested dicts, for stating what a merge keeps. *)
Fixpoint get_path (d : dict) (path : list pystr) : option json :=
  match path with
  | [] => Some (JObj d)
  | k :: rest =>
      match rest, dict_get d k with
      | [], r => r
      | _ :: _, Some (JObj d') => get_path d' rest
      | _ :: _, _ => None
      end
  end.

(** ** The wrapper program (lines 181-205) *)

(** The template pastes [json.dumps(...)] into Python source.  JSON text
    read as Python: [null], [true] and [false] are names that nothing
    defines; a string literal stands for the same string, except that
    [json.dumps] writes a character beyond U+FFFF as the escapes of its two
    surrogates, which Python reads as two characters. *)
Definition surrogate_pair (c : N) : pystr :=
  if 65536 <=? c
  then [55296 + (c - 65536) / 1024; 56320 + (c - 65536) mod 1024]
  else [c].

Fixpoint py_literal (v : json) : json :=
  match v with
  | JStr s => JStr (concat (map surrogate_pair s))
  | JArr l => JArr (map py_literal l)
  | JObj m => JObj (map (fun kv => (concat (map surrogate_pair (fst kv)), py_literal (snd kv))) m)
  | _ => v
  end.

(** [_wrapper_source]: the program text is kept as the values that fill its
    template, as Python reads them; what the program does is given by
    [wrapper_setup], [find_spec], [os_system_replaced] and [wrapper_main]
    below. *)
Definition _wrapper_source (user_code_path : pystr) (policy : SecurityPolicy) : wrapper :=
  mkWrapper (map py_literal (blocked_imports policy))
            (map py_literal (blocked_calls policy)) user_code_path.

(** The first of the names [null], [true], [false] met when the values are
    evaluated from left to right. *)
Fixpoint undefined_name (v : json) : option string :=
  match v with
  | JNull => Some "null"%string
  | JBool true => Some "true"%string
  | JBool false => Some "false"%string
  | JInt _ | JStr _ => None
  | JArr l =>
      (fix first (l : list json) : option string :=
         match l with
         | [] => None
         | x :: l' =>
             match undefined_name x with
             | Some n => Some n
             | None => first l'
             end
         end) l
  | JObj m =>
      (fix first (m : dict) : option string :=
         match m with
         | [] => None
         | (_, x) :: m' =>
             match undefined_name x with
             | Some n => Some n
             | None => first m'
             end
         end) m
  end.

Definition NameError_undefined (n : string) : pyexc :=
  PyExc OtherExceptionClass (u "NameError") (u "name '" ++ u n ++ u "' is not defined").

Definition TypeError_unhashable (v : json) : pyexc :=
  PyExc OtherExceptionClass (u "TypeError")
    (u "unhashable type: '" ++
     match v with
     | JObj _ => u "dict"
     | _ => u "list"
     end ++ u "'").

(** [set([...])] of one line of the wrapper (lines 186-187): the list is
    evaluated first, then its members are hashed in order. *)
Definition py_set (l : list json) : outcome unit :=
  match undefined_name (JArr l) with
  | Some n => Raise (NameError_undefined n)
  | None =>
      match List.find (fun v => negb (hashable v)) l with
      | Some v => Raise (TypeError_unhashable v)
      | None => Ret tt
      end
  end.

(** The top of the wrapper, before the target is started: the two sets. *)
Definition wrapper_setup (w : wrapper) : outcome unit :=
  py_set (w_blocked w);;
  py_set (w_calls w).

Definition blocked_import_error (root : pystr) : pyexc :=
  PyExc ImportErrorClass (u "ImportError")
    (u "SandboxViolation: blocked import '" ++ root ++ u "'").

(** [BlockedFinder.find_spec]: raises for a blocked root, else returns None. *)
Definition find_spec (w : wrapper) (fullname : pystr) : outcome unit :=
  let root := split_root fullname in
  if str_in root (w_blocked w) then Raise (blocked_import_error root) else Ret tt.

(** Whether the wrapper replaces [os.system] by the raising stand-in. *)
Definition os_system_replaced (w : wrapper) : bool :=
  str_in (u "os.system") (w_calls w).

(** [traceback.print_exc()]. *)
Definition print_exc (e : pyexc) (tb : pystr) : pystr :=
  u "Traceback (most recent call last):" ++ [10] ++ tb ++ exc_name e ++
  match exc_msg e with
  | [] => []
  | msg => u ": " ++ msg
  end ++ [10].

(** What the child process reports: exit status, stdout, stderr. *)
Record exit_report := mkExit {
  x_rc : Z;
  x_out : pystr;
  x_err : pystr
}.

(** A plain [python script.py]: the interpreter's handling of how the
    program ends. *)
Definition python_main (t : target_run) : exit_report :=
  match t_end t with
  | TReturned => mkExit 0 (t_out t) (t_err t)
  | TRaised e tb => mkExit 1 (t_out t) (t_err t ++ print_exc e tb)
  | TExited code => mkExit (code mod 256) (t_out t) (t_err t)
  | TKilled sig => mkExit (- sig) (t_out t) (t_err t)
  | TSubverted status => mkExit status (t_out t) (t_err t)
  end.

(** The guarded call at the end of the wrapper (lines 199-204):
    [try: runpy.run_path(...) except ImportError as e: ... sys.exit(2)
     except Exception: traceback.print_exc(); sys.exit(1)].
    [sys.exit] inside the target and death by a signal are not intercepted.
    The handlers look up [sys.stderr], [sys.exit] and the traceback module
    when they run, so they act as written only on a target that left these
    alone; after a [TSubverted] target the process ends as that target
    made it end. *)
Definition guarded_run (t : target_run) : exit_report :=
  match t_end t with
  | TReturned => mkExit 0 (t_out t) (t_err t)
  | TRaised e tb =>
      match exc_class_of e with
      | ImportErrorClass => mkExit 2 (t_out t) (t_err t ++ exc_msg e ++ [10])
      | _ => mkExit 1 (t_out t) (t_err t ++ print_exc e tb)
      end
  | TExited code => mkExit (code mod 256) (t_out t) (t_err t)
  | TKilled sig => mkExit (- sig) (t_out t) (t_err t)
  | TSubverted status => mkExit status (t_out t) (t_err t)
  end.

(** The whole wrapper: when one of the two sets cannot be built, the
    interpreter prints the traceback ([frames] are its frame lines) and
    exits with 1 before the target is started. *)
Definition wrapper_main (frames : pystr) (w : wrapper) (t : target_run) : exit_report :=
  match wrapper_setup w with
  | Ret _ => guarded_run t
  | Raise e => mkExit 1 [] (print_exc e frames)
  end.

(** ** gpt_chat_v3.py: the fallback runner's resource ceilings *)

Definition PY_TIMEOUT_SEC : Z := 60.
Definition PY_STDOUT_MAX : Z := 200000.
Definition PY_RAM_LIMIT_MB : Z := 256.
Definition PY_CPU_SECS : Z := 30.

(** [_preexec_resource_limits] (gpt_chat_v3.py lines 163-167). *)
Definition _preexec_resource_limits (l : rlimits) : rlimits :=
  mkLimits (Some (PY_RAM_LIMIT_MB * 1024 * 1024)%Z) (Some PY_CPU_SECS).

Section Sandbox.

Variable h : Host.

(** ** The preflight scanner (lines 160-170) *)

(** [\w] on [str] patterns: alphanumeric or underscore. *)
Definition is_word (c : N) : bool :=
  if c <? 128 then ascii_alnum c || (c =? 95) else py_isalnum h c.

Definition word_before (prev : option N) : bool :=
  match prev with
  | Some c => is_word c
  | None => false
  end.

Definition word_after (s : pystr) : bool :=
  match s with
  | c :: _ => is_word c
  | [] => false
  end.

(** [\b] between the character [prev] and the text [s]. *)
Definition at_boundary (prev : option N) (s : pystr) : bool :=
  xorb (word_before prev) (word_after s).

(** The character before the position reached after reading [m]. *)
Definition last_after (prev : option N) (m : pystr) : option N :=
  fold_left (fun _ c => Some c) m prev.

(** The literal [m], then [\b]. *)
Definition literal_then_boundary (m : pystr) (prev : option N) (s : pystr) : bool :=
  match strip_prefix m s with
  | Some post => at_boundary (last_after prev m) post
  | None => false
  end.

(** [\s+], then the literal [m], then [\b]: some non-empty run of leading
    white space is followed by [m]. *)
Fixpoint spaces_then_literal (m : pystr) (s : pystr) : bool :=
  match s with
  | c :: s' =>
      is_space c && (literal_then_boundary m (Some c) s' || spaces_then_literal m s')
  | [] => false
  end.

Definition keyword_then (kw m s : pystr) : bool :=
  match strip_prefix kw s with
  | Some rest => spaces_then_literal m rest
  | None => false
  end.

(** [\b(import|from)\s+m\b] matched at one position. *)
Definition import_at (m : pystr) (prev : option N) (s : pystr) : bool :=
  at_boundary prev s && (keyword_then (u "import") m s || keyword_then (u "from") m s).

(** [\s*\(]. *)
Fixpoint spaces_then_paren (s : pystr) : bool :=
  match s with
  | c :: s' => (c =? 40) || (is_space c && spaces_then_paren s')
  | [] => false
  end.

(** [c\s*\(] matched at one position. *)
Definition call_at (c : pystr) (prev : option N) (s : pystr) : bool :=
  match strip_prefix c s with
  | Some rest => spaces_then_paren rest
  | None => false
  end.

(** [re.search]: the pattern is tried at every position of the line. *)
Fixpoint search_from (pat : option N -> pystr -> bool) (prev : option N) (s : pystr) : bool :=
  pat prev s ||
  match s with
  | c :: s' => search_from pat (Some c) s'
  | [] => false
  end.

Definition re_search (pat : option N -> pystr -> bool) (L : pystr) : bool :=
  search_from pat None L.

(** [re.escape(m)] accepts a [str] only (the JSON values are never bytes);
    the escaped pattern matches [m] literally. *)
Definition re_escape (m : json) : outcome pystr :=
  match m with
  | JStr s => Ret s
  | _ => Raise (TypeError "decoding to str: need a bytes-like object")
  end.

Definition import_violation (m : pystr) (i : nat) : pystr :=
  u "SandboxViolation: blocked import '" ++ m ++ u "' (line " ++ str_of_nat i ++ u ")".

Definition call_violation (c : pystr) (i : nat) : pystr :=
  u "SandboxViolation: blocked call '" ++ c ++ u "' (line " ++ str_of_nat i ++ u ")".

(** The loop over [policy.blocked_imports] on line [i]. *)
Fixpoint scan_imports (L : pystr) (i : nat) (ms : list json) : outcome (list pystr) :=
  match ms with
  | [] => Ret []
  | m :: ms' =>
      lit ← re_escape m;
      rest ← scan_imports L i ms';
      mret (if re_search (import_at lit) L then import_violation lit i :: rest else rest)
  end.

(** The loop over [policy.blocked_calls] on line [i]. *)
Fixpoint scan_calls (L : pystr) (i : nat) (cs : list json) : outcome (list pystr) :=
  match cs with
  | [] => Ret []
  | c :: cs' =>
      lit ← re_escape c;
      rest ← scan_calls L i cs';
      mret (if re_search (call_at lit) L then call_violation lit i :: rest else rest)
  end.

(** The loop over [enumerate(lines, i)]. *)
Fixpoint scan_lines (lines : list pystr) (i : nat) (policy : SecurityPolicy)
  : outcome (list pystr) :=
  match lines with
  | [] => Ret []
  | L :: rest =>
      a ← scan_imports L i (blocked_imports policy);
      b ← scan_calls L i (blocked_calls policy);
      c ← scan_lines rest (S i) policy;
      mret (a ++ b ++ c)
  end.

Definition preflight_check (code_str : pystr) (policy : SecurityPolicy)
  : outcome (list pystr) :=
  scan_lines (splitlines code_str) 1 policy.

End Sandbox.

Section Runner.

Variable h : Host.

(** ** Paths, environment, primitive effects *)

Definition DATA_DIR : pystr := h_home h ++ u "/.local/share/halbridge".
Definition TMP_DIR : pystr := DATA_DIR ++ u "/tmp".
Definition CFG_PATH : pystr := h_home h ++ u "/.config/halbridge/code_config.json".

Definition environ_get (k : string) : json :=
  match h_environ h !! u k with
  | Some v => JStr v
  | None => JNull
  end.

(** [detect_environment] (lines 119-137). *)
Definition detect_environment : EnvironmentDescriptor :=
  let display := py_or (environ_get "DISPLAY") (environ_get "WAYLAND_DISPLAY") in
  let is_ssh := truthy (py_or (environ_get "SSH_CONNECTION") (environ_get "SSH_CLIENT")) in
  let is_tty := default false (h_isatty h) in
  mkEnv (h_system h) (h_release h) (h_python_version h) is_ssh
        (as_str (py_or display (JStr []))) (truthy display) is_tty
        (h_user h) (h_hostname h).

(** [_minimal_env] (lines 174-177). *)
Definition _minimal_env : gmap pystr pystr :=
  <[ u "PYTHONUNBUFFERED" := u "1" ]>
    (filter (fun kv => fst kv = u "PATH" \/ fst kv = u "HOME" \/ fst kv = u "LANG"
                       \/ is_Some (strip_prefix (u "LC_") (fst kv)))
            (h_environ h)).

(** [Path.exists()]: [True] for a file that is there; where [stat] finds
    none, its failure is answered with [False] when it says that no such
    file or directory exists, and raised otherwise ([py_stat_error]: for a
    name that is too long, or below a directory that may not be searched). *)
Definition path_exists (p : pystr) : M bool :=
  fun w =>
    match fs w !! p with
    | Some _ => (Ret true, w)
    | None =>
        match py_stat_error h p with
        | Some e => (Raise e, w)
        | None => (Ret false, w)
        end
    end.

(** [os.path.exists]: every failure of [stat] is answered with [False]. *)
Definition os_path_exists (p : pystr) : M bool :=
  fun w => (Ret (bool_decide (is_Some (fs w !! p))), w).

(** Text that UTF-8 can encode: no surrogate code points. *)
Definition utf8_encodable (s : pystr) : bool :=
  forallb (fun c => negb ((55296 <=? c) && (c <=? 57343))) s.

(** [Path.write_text(s, encoding="utf-8")]: the file is opened for writing,
    which creates or empties it, and then the text is encoded and written. *)
Definition write_text (p : pystr) (s : pystr) : M unit :=
  fun w =>
    if utf8_encodable s
    then (Ret tt, with_fs (insert p (FText s)) w)
    else (Raise UnicodeEncodeError, with_fs (insert p (FText [])) w).

(** [open(p, "w", encoding="utf-8", errors="replace")] and [f.write(s)]:
    what cannot be encoded is written as a question mark. *)
Definition write_text_replace (p : pystr) (s : pystr) : M unit :=
  fun w =>
    (Ret tt,
     with_fs (insert p (FText (map (fun c => if (55296 <=? c) && (c <=? 57343)
                                             then 63 else c) s))) w).

(** [wp.write_text(wrap)]: the rendered wrapper is always encodable. *)
Definition write_wrapper (p : pystr) (wr : wrapper) : M unit :=
  fun w => (Ret tt, with_fs (insert p (FWrapper wr)) w).

(** [CFG_PATH.write_text(json.dumps(DEFAULT_CFG, ...))]: the text of the
    defaults is ASCII, so encoding it cannot fail; opening or writing the
    file can ([h_cfg_write_error]: the exception, and the file that is left
    when it had been opened already). *)
Definition write_json (p : pystr) (j : json) : M unit :=
  fun w =>
    match h_cfg_write_error h with
    | Some (e, None) => (Raise e, w)
    | Some (e, Some f) => (Raise e, with_fs (insert p f) w)
    | None => (Ret tt, with_fs (insert p (FJson j)) w)
    end.

(** [Path.unlink(missing_ok=True)]. *)
Definition unlink (p : pystr) : M unit :=
  fun w => (Ret tt, with_fs (delete p) w).

(** The text of a file, as [read_text(errors="replace")] gives it. *)
Definition file_text (f : file) : pystr :=
  match f with
  | FText s => s
  | FWrapper wr => py_wrapper_text h wr
  | FJson j => py_json_dumps h j
  end.

Definition uuid4_hex : M pystr :=
  fun w => (Ret (py_uuid4_hex h (uuids w)),
            mkWorld (fs w) (spawned w) (log w) (bus w) (collab w) (S (uuids w)) (clock w)).

Definition time_time : M Z := fun w => (Ret (clock w), w).

(** [_log_event] (lines 87-93): a failed write is swallowed. *)
Definition _log_event (rec : log_record) : M unit :=
  fun w =>
    (Ret tt,
     if h_log_writable h
     then mkWorld (fs w) (spawned w) (log w ++ [rec]) (bus w) (collab w) (uuids w) (clock w)
     else w).

(** [BUS.publish(topic, payload)] (modules/bus.py): the message is kept in
    the history; a failing subscriber is caught inside [publish]; the
    append to bus.log is taken to succeed. *)
Definition bus_publish (topic : string) (payload : json) : M unit :=
  fun w =>
    (Ret tt,
     mkWorld (fs w) (spawned w) (log w) (bus w ++ [(u topic, payload)])
             (collab w) (uuids w) (clock w)).

(** A call into integration, code_registry or auto_heal. *)
Definition collab_call_ (c : collab_call) : M unit :=
  fun w =>
    let w' := mkWorld (fs w) (spawned w) (log w) (bus w) (collab w ++ [c])
                      (uuids w) (clock w) in
    match h_collab h c with
    | Some e => (Raise e, w')
    | None => (Ret tt, w')
    end.

(** [int(v)]. *)
Definition py_int (v : json) : outcome Z :=
  match v with
  | JInt z => Ret z
  | JBool b => Ret (if b then 1 else 0)%Z
  | JStr s =>
      match py_int_of_str h s with
      | Some z => Ret z
      | None => Raise (ValueError "invalid literal for int() with base 10")
      end
  | JNull | JArr _ | JObj _ =>
      Raise (TypeError "int() argument must be a string or a real number")
  end.

(** ** Loading the configuration (lines 97-115) *)

(** [json.loads(CFG_PATH.read_text(encoding="utf-8"))]; what [json.dumps]
    wrote is read back as the value it was. *)
Definition read_json (p : pystr) : M json :=
  fun w =>
    match fs w !! p with
    | Some (FJson j) => (Ret j, w)
    | Some f =>
        match py_json_loads h (file_text f) with
        | Some j => (Ret j, w)
        | None => (Raise JSONDecodeError, w)
        end
    | None => (Raise (PyExc OtherExceptionClass (u "FileNotFoundError") p), w)
    end.

(** [json.loads(json.dumps(DEFAULT_CFG))] is a fresh copy of [DEFAULT_CFG].
    The test for the file and the writing of the defaults (lines 98-99) are
    outside the [try]: what they raise leaves [_load_cfg]. *)
Definition _load_cfg : M dict :=
  e ← path_exists CFG_PATH;
  if negb e then
    write_json CFG_PATH (JObj DEFAULT_CFG);;
    mret DEFAULT_CFG
  else
    try_except
      (data ← read_json CFG_PATH;
       let merged := DEFAULT_CFG in
       lift (deep_merge_py merged (py_or data (JObj []))))
      (fun _ => mret DEFAULT_CFG).

(** ** The process runner (lines 209-227) *)

Definition TimeoutExpired (timeout : Z) : pyexc :=
  PyExc TimeoutExpiredClass (u "TimeoutExpired")
    (u "Command timed out after " ++ str_of_Z timeout ++ u " seconds").

(** What the child of [python <path> <args>] does: a wrapper file runs the
    wrapper around its target, any other file runs as a plain script. The
    second component is the time the child needs ([None]: it never ends). *)
Definition run_child (sp : spawn) (files : gmap pystr file) : exit_report * option Z :=
  match sp_argv sp with
  | _ :: path :: args =>
      match files !! path with
      | Some (FWrapper wr) =>
          let t := h_program h [w_target wr] (w_blocked wr) (w_calls wr)
                             (child_limits sp) files in
          (wrapper_main (py_wrapper_frames h path wr) wr t,
           match wrapper_setup wr with
           | Ret _ => t_ms t
           | Raise _ => Some 0%Z
           end)
      | Some _ =>
          let t := h_program h (path :: args) [] [] (child_limits sp) files in
          (python_main t, t_ms t)
      | None => (mkExit 2 [] (u "can't open file " ++ path), Some 0%Z)
      end
  | _ =>
      let t := h_program h [] [] [] (child_limits sp) files in
      (python_main t, t_ms t)
  end.

(** Whether a child needing [ms] is still running after [timeout] seconds. *)
Definition exceeds (ms : option Z) (timeout : Z) : bool :=
  match ms with
  | Some t => (timeout * 1000 <? t)%Z
  | None => true
  end.

Definition advance (d : Z) (w : World) : World :=
  mkWorld (fs w) (spawned w) (log w) (bus w) (collab w) (uuids w) (clock w + d)%Z.

(** [subprocess.Popen(...)]: the child is started; what it will do is
    settled by the files it finds. *)
Definition popen (sp : spawn) : M (exit_report * option Z) :=
  fun w =>
    let w1 := mkWorld (fs w) (spawned w ++ [sp]) (log w) (bus w) (collab w)
                      (uuids w) (clock w) in
    match h_spawn_error h sp with
    | Some e => (Raise e, w1)
    | None => (Ret (run_child sp (fs w1)), w1)
    end.

(** [proc.communicate(timeout=timeout)]: the output of a child that ends in
    time, TimeoutExpired otherwise.  (The timeout is taken to be one that
    the clock can hold, and the output one that can be decoded.) *)
Definition communicate (proc : exit_report * option Z) (timeout : Z) : M exit_report :=
  fun w =>
    if exceeds (snd proc) timeout
    then (Raise (TimeoutExpired timeout), advance (timeout * 1000) w)
    else (Ret (fst proc), advance (default 0%Z (snd proc)) w).

(** [proc.kill(); proc.communicate()]: what the child had written. *)
Definition kill_and_collect (proc : exit_report * option Z) : M (pystr * pystr) :=
  mret (x_out (fst proc), x_err (fst proc)).

(** [subprocess.run(argv, stdout=PIPE, stderr=PIPE, text=True,
    timeout=timeout, env=env)]: on expiry the child is killed and
    TimeoutExpired is raised again; the output read so far stays on the
    exception object. *)
Definition subprocess_run (argv : list pystr) (env : gmap pystr pystr) (timeout : Z)
  : M exit_report :=
  proc ← popen (mkSpawn argv (Some env) (Some timeout) true None);
  communicate proc timeout.

Definition _execute_user_code (code_path : pystr) (policy : SecurityPolicy) (timeout : Z)
  : M (Z * pystr * pystr * Z) :=
  let wrap := _wrapper_source code_path policy in
  hex ← uuid4_hex;
  let wp := TMP_DIR ++ u "/wrap_" ++ hex ++ u ".py" in
  write_wrapper wp wrap;;
  t0 ← time_time;
  try_finally
    (try_except_timeout
       (p ← subprocess_run [h_executable h; wp] _minimal_env timeout;
        t1 ← time_time;
        mret (x_rc p, x_out p, x_err p, (t1 - t0)%Z))
       (t1 ← time_time;
        mret (124%Z, [], u "Timeout after " ++ str_of_Z timeout ++ u "s", (t1 - t0)%Z)))
    (unlink wp).

(** ** run_snippet (lines 231-317) *)

Definition opt_str (o : option pystr) : json :=
  match o with
  | Some s => JStr s
  | None => JNull
  end.

Definition nonempty (s : pystr) : bool :=
  match s with
  | [] => false
  | _ => true
  end.

(** Lines 237-251: the prompt analysis may replace the caller's profile. *)
Definition analyse_prompt_phase (code_str : pystr) (prompt : option pystr) (profile : json)
  : M (json * json) :=
  match h_intelligence h, prompt with
  | Some intel, Some (c :: p) =>
      try_except
        (meta ← lift (analyze_prompt intel (c :: p));
         when (h_bus h) (bus_publish "code.intent" meta);;
         when (h_integration h) (swallow (collab_call_ (IntegrationRoute meta code_str)));;
         pr ← lift (py_get meta (JStr (u "profile")) JNull);
         mret (meta, py_or pr profile))
        (fun _ => mret (JObj [], profile))
  | _, _ => mret (JObj [], profile)
  end.

(** Lines 294-300: [result["valid"]] and [result["suggestion"]]. *)
Definition validate_phase (r : result) (err : pystr) : result :=
  match h_intelligence h with
  | Some intel =>
      match validate_result intel r with
      | Ret v =>
          let r1 := mkResult (r_ok r) (r_stdout r) (r_stderr r) (r_returncode r)
                             (r_env r) (r_profile r) (r_duration_ms r) (Some v) None in
          if negb (truthy v) && nonempty err then
            match suggest_fix intel err with
            | Ret s => mkResult (r_ok r) (r_stdout r) (r_stderr r) (r_returncode r)
                                (r_env r) (r_profile r) (r_duration_ms r) (Some v) (Some s)
            | Raise _ => r1
            end
          else r1
      | Raise _ => r
      end
  | None => r
  end.

(** The result of a request stopped before execution (lines 265, 335, 344). *)
Definition rejected (err : pystr) (env : EnvironmentDescriptor) (prof : json) : result :=
  mkResult false [] err 2 env prof 0 None None.

(** Lines 234-254: configuration, environment, profile and policy of a
    snippet request. *)
Definition snippet_request (code_str : pystr) (prompt profile : option pystr)
  : M (dict * json * json * SecurityPolicy) :=
  cfg ← _load_cfg;
  let env := detect_environment in
  '(meta, profile') ← analyse_prompt_phase code_str prompt (opt_str profile);
  let prof := get_profile env profile' cfg in
  policy ← lift (_policy_for_profile prof cfg);
  mret (cfg, meta, prof, policy).

Definition run_snippet (code_str : pystr) (prompt profile : option pystr) : M result :=
  '(cfg, meta, prof, policy) ← snippet_request code_str prompt profile;
  let env := detect_environment in
  when (h_bus h)
    (bus_publish "code.run.start" (JObj [(u "src", JStr (u "snippet")); (u "profile", prof)]));;
  findings ← lift (preflight_check h code_str policy);
  match findings with
  | _ :: _ =>
      let err := join [10] findings in
      _log_event (mkLog (u "snippet") None prof 2 (length err) 0 0);;
      when (h_bus h)
        (bus_publish "code.run.done"
           (JObj [(u "src", JStr (u "snippet")); (u "profile", prof); (u "rc", JInt 2)]));;
      mret (rejected err env prof)
  | [] =>
      hex ← uuid4_hex;
      let code_path := TMP_DIR ++ u "/user_" ++ hex ++ u ".py" in
      write_text code_path code_str;;
      try_finally
        (timeout ← lift (py_int (default (JInt 8) (dict_get cfg (u "exec_timeout_sec"))));
         '(rc, out, err, dur) ← _execute_user_code code_path policy timeout;
         let result := mkResult (rc =? 0)%Z out err rc env prof dur None None in
         _log_event (mkLog (u "snippet") None prof rc (length err) (length out) dur);;
         when (h_code_registry h)
           (swallow (collab_call_ (RegistrySaveArtifact code_str prof)));;
         let result := validate_phase result err in
         when (h_bus h)
           (bus_publish "code.run.done"
              (JObj [(u "src", JStr (u "snippet")); (u "profile", prof); (u "rc", JInt rc)]));;
         when (h_auto_heal h && negb (rc =? 0)%Z)
           (swallow (collab_call_ (AutoHealRecordFailure (u "snippet") code_path err)));;
         mret result)
        (swallow (unlink code_path))
  end.

(** ** run_file (lines 320-385) *)

Definition run_file (path : pystr) (profile : option pystr) : M result :=
  cfg ← _load_cfg;
  let env := detect_environment in
  let prof := get_profile env (opt_str profile) cfg in
  policy ← lift (_policy_for_profile prof cfg);
  when (h_bus h)
    (bus_publish "code.run.start"
       (JObj [(u "src", JStr (u "file")); (u "path", JStr path); (u "profile", prof)]));;
  p ← lift (py_resolve h path);
  e ← path_exists p;
  if negb e then
    let msg := u "File not found: " ++ p in
    _log_event (mkLog (u "file") (Some p) prof 2 (length msg) 0 0);;
    when (h_bus h)
      (bus_publish "code.run.done"
         (JObj [(u "src", JStr (u "file")); (u "profile", prof); (u "rc", JInt 2)]));;
    mret (rejected msg env prof)
  else
    txt ← (fun w => (Ret (default [] (file_text <$> fs w !! p)), w));
    findings ← lift (preflight_check h txt policy);
    match findings with
    | _ :: _ =>
        let err := join [10] findings in
        _log_event (mkLog (u "file") (Some p) prof 2 (length err) 0 0);;
        when (h_bus h)
          (bus_publish "code.run.done"
             (JObj [(u "src", JStr (u "file")); (u "profile", prof); (u "rc", JInt 2)]));;
        mret (rejected err env prof)
    | [] =>
        timeout ← lift (py_int (default (JInt 8) (dict_get cfg (u "exec_timeout_sec"))));
        '(rc, out, err, dur) ← _execute_user_code p policy timeout;
        when (h_auto_heal h && negb (rc =? 0)%Z)
          (collab_call_ (AutoHealRecordFailure (u "file") p err));;
        let result := mkResult (rc =? 0)%Z out err rc env prof dur None None in
        _log_event (mkLog (u "file") (Some p) prof rc (length err) (length out) dur);;
        when (h_code_registry h)
          (swallow (collab_call_ (RegistryRegisterPath p prof)));;
        let result := validate_phase result err in
        when (h_bus h)
          (bus_publish "code.run.done"
             (JObj [(u "src", JStr (u "file")); (u "profile", prof); (u "rc", JInt rc)]);;
           (* line 381 names [code_path], which run_file does not define *)
           when (h_auto_heal h && negb (rc =? 0)%Z)
             (swallow (raise (NameError "name 'code_path' is not defined"))));;
        mret result
    end.

(** ** gpt_chat_v3.py: the fallback runner in capture mode *)

(** [run_python_script] (gpt_chat_v3.py lines 219-253), for the command
    [cmd], the directory [cwd], and the job [job_id] with its directory
    [job_dir], as lines 198-204 computed them. *)
Definition run_python_script_capture (cmd : list pystr) (cwd job_id job_dir : pystr)
  : M script_result :=
  try_except
    (proc ← popen (mkSpawn cmd None None true (Some _preexec_resource_limits));
     r ← try_except_timeout
           (x ← communicate proc PY_TIMEOUT_SEC; mret (inl x))
           ('(out, err) ← kill_and_collect proc;
            mret (inr (mkScript false
                         (u "[PY] Timeout po " ++ str_of_Z PY_TIMEOUT_SEC ++ u "s")
                         (take (Z.to_nat PY_STDOUT_MAX) out)
                         (take (Z.to_nat PY_STDOUT_MAX) err))));
     match r with
     | inr timed_out => mret timed_out
     | inl x =>
         write_text_replace (job_dir ++ u "/stdout.txt") (x_out x);;
         write_text_replace (job_dir ++ u "/stderr.txt") (x_err x);;
         mret (mkScript (x_rc x =? 0)%Z
                 (u "[PY] Exit=" ++ str_of_Z (x_rc x) ++ u ", job=" ++ job_id ++
                  u ", cwd=" ++ cwd)
                 (take (Z.to_nat PY_STDOUT_MAX) (x_out x))
                 (take (Z.to_nat PY_STDOUT_MAX) (x_err x)))
     end)
    (fun e => mret (mkScript false
                      (u "[PY] B" ++ [322; 261] ++ u "d uruchomienia: " ++
                       exc_name e ++ u ": " ++ exc_msg e) [] [])).

End Runner.

(** ** A concrete host, for evaluating the code on examples *)

(** [s.split(sep)] on one character. *)
Fixpoint split_on (sep : N) (cur : pystr) (s : pystr) : list pystr :=
  match s with
  | [] => [rev cur]
  | c :: s' => if c =? sep then rev cur :: split_on sep [] s' else split_on sep (c :: cur) s'
  end.

(** The components that remain when empty, "." and ".." ones are resolved from
    left to right; [acc] is the stack of components, innermost first. *)
Fixpoint normalise (acc : list pystr) (parts : list pystr) : list pystr :=
  match parts with
  | [] => rev acc
  | p :: rest =>
      if bool_decide (p = []) || bool_decide (p = u ".") then normalise acc rest
      else if bool_decide (p = u "..") then normalise (tail acc) rest
      else normalise (p :: acc) rest
  end.

(** [str(Path(path).expanduser().resolve())] on a POSIX host without
    symbolic links, with home directory [home] for "~", working directory
    [cwd], and no other user known. *)
Definition posix_resolve (home cwd : pystr) (path : pystr) : outcome pystr :=
  expanded ←
    match path with
    | 126 :: rest =>
        match rest with
        | [] | 47 :: _ => Ret (home ++ rest)
        | _ => Raise (PyExc OtherExceptionClass (u "RuntimeError")
                        (u "Could not determine home directory."))
        end
    | _ => Ret path
    end;
  let absolute :=
    match expanded with
    | 47 :: _ => expanded
    | _ => cwd ++ u "/" ++ expanded
    end in
  match normalise [] (split_on 47 [] absolute) with
  | [] => Ret (u "/")
  | parts => Ret (concat (map (fun p => 47 :: p) parts))
  end.

(** What a Python program does, given its arguments, the BLOCKED and CALLS
    sets of the wrapper around it (empty without a wrapper), the resource
    limits of its process, and the files. *)
Abbreviation program :=
  (list pystr -> list json -> list json -> rlimits -> gmap pystr file -> target_run).

(** The number of bytes of a text in UTF-8. *)
Definition utf8_length (s : pystr) : N :=
  fold_right (fun c n => (if c <? 128 then 1 else if c <? 2048 then 2
                          else if c <? 65536 then 3 else 4) + n) 0 s.

(** Linux refuses a path of more than 4095 bytes and a name of more than
    255 with ENAMETOOLONG, an error that [Path.exists] lets through. *)
Definition name_too_long (p : pystr) : option pyexc :=
  if (4095 <? utf8_length p) ||
     existsb (fun c => 255 <? utf8_length c) (split_on 47 [] p)
  then Some (PyExc OtherExceptionClass (u "OSError")
               (u "[Errno 36] File name too long: '" ++ p ++ u "'"))
  else None.

(** [str.isalnum] beyond ASCII, on the Latin letters up to U+024F (the
    examples use no other character beyond ASCII). *)
Definition latin_alnum (c : N) : bool :=
  (192 <=? c) && (c <=? 591) && negb (c =? 215) && negb (c =? 247).

(** A Linux host of user "hal": no configuration file yet, the
    configuration directory writable, no optional module importable, every
    Python program behaving as [prog] says. *)
Definition linux_host (prog : program) : Host :=
  {| py_isalnum := latin_alnum;
     py_json_loads := fun _ => None;
     py_json_dumps := fun _ => [];
     py_int_of_str := fun _ => None;
     py_resolve := posix_resolve (u "/home/hal") (u "/srv/hal");
     py_wrapper_text := fun _ => [];
     py_wrapper_frames := fun path wr =>
       u "  File " ++ [34] ++ path ++ [34] ++ u ", line " ++
       match py_set (w_blocked wr) with
       | Raise _ => u "2"
       | Ret _ => u "3"
       end ++ u ", in <module>" ++ [10];
     py_stat_error := name_too_long;
     py_uuid4_hex := fun n => u "9f1c2b7e4a5d4c3e8b6a0d1e2f3a4b5" ++ str_of_nat n;
     h_home := u "/home/hal";
     h_executable := u "/usr/bin/python3";
     h_environ := {[ u "PATH" := u "/usr/bin"; u "HOME" := u "/home/hal";
                     u "OPENAI_API_KEY" := u "sk-secret" ]};
     h_isatty := Some false;
     h_system := u "Linux";
     h_release := u "6.1";
     h_python_version := u "3.11.2";
     h_user := u "hal";
     h_hostname := u "halbox";
     h_log_writable := true;
     h_cfg_write_error := None;
     h_bus := false;
     h_intelligence := None;
     h_integration := false;
     h_code_registry := false;
     h_auto_heal := false;
     h_collab := fun _ => None;
     h_spawn_error := fun _ => None;
     h_program := prog |}.

Definition empty_world : World := mkWorld ∅ [] [] [] [] 0 0.

(** A program that prints "hello" and ends at once. *)
Definition hello_program : program :=
  fun argv blocked calls limits files =>
    mkRun TReturned (u "hello" ++ [10]) [] (Some 40%Z).

(** A program that prints "tick" and then loops forever. *)
Definition looping_program : program :=
  fun argv blocked calls limits files =>
    mkRun TReturned (u "tick" ++ [10]) [] None.

(** The modules that the first line of the wrapper has imported before the
    target starts: an import of one of these is answered from
    [sys.modules], without asking the finder. *)
Definition wrapper_loaded : list pystr :=
  [u "sys"; u "runpy"; u "os"; u "importlib"; u "importlib.abc"].

(** A program that imports the modules [mods] in turn and ends: under a
    wrapper, the first import of a module not loaded before that the finder
    refuses ends it. *)
Definition importing_program (mods : list pystr) : program :=
  fun argv blocked calls limits files =>
    match List.find (fun m => negb (bool_decide (In m wrapper_loaded)) &&
                              str_in (split_root m) blocked) mods with
    | Some m =>
        mkRun (TRaised (blocked_import_error (split_root m))
                 (u "  File snippet.py, line 1, in <module>" ++ [10]))
              [] [] (Some 30%Z)
    | None => mkRun TReturned [] [] (Some 30%Z)
    end.


(** A program that allocates far more memory than the host has: under an
    address-space ceiling the allocation fails with MemoryError, without
    one the kernel ends the process after it has eaten the host's memory. *)
Definition allocating_program : program :=
  fun argv blocked calls limits files =>
    match rl_as limits with
    | Some _ =>
        mkRun (TRaised (PyExc OtherExceptionClass (u "MemoryError") [])
                 (u "  File big.py, line 1, in <module>" ++ [10]))
              [] [] (Some 50%Z)
    | None => mkRun (TKilled 9) [] [] (Some 5000%Z)
    end.

(** ** Vocabulary of the statements *)

(** [needle in hay], as a test. *)
Fixpoint is_infix (needle hay : pystr) : bool :=
  match strip_prefix needle hay with
  | Some _ => true
  | None =>
      match hay with
      | [] => false
      | _ :: hay' => is_infix needle hay'
      end
  end.

(** [p] blocks every import that [q] blocks, and more. *)
Definition stricter_than (p q : SecurityPolicy) : bool :=
  forallb (fun v => str_in (as_str v) (blocked_imports p)) (blocked_imports q) &&
  negb (forallb (fun v => str_in (as_str v) (blocked_imports q)) (blocked_imports p)).

(** The same host reached over SSH. *)
Definition over_ssh (h : Host) : Host :=
  {| py_isalnum := py_isalnum h;
     py_json_loads := py_json_loads h;
     py_json_dumps := py_json_dumps h;
     py_int_of_str := py_int_of_str h;
     py_resolve := py_resolve h;
     py_wrapper_text := py_wrapper_text h;
     py_wrapper_frames := py_wrapper_frames h;
     py_stat_error := py_stat_error h;
     py_uuid4_hex := py_uuid4_hex h;
     h_home := h_home h;
     h_executable := h_executable h;
     h_environ := <[ u "SSH_CONNECTION" := u "10.0.0.7 50022 10.0.0.2 22" ]> (h_environ h);
     h_isatty := h_isatty h;
     h_system := h_system h;
     h_release := h_release h;
     h_python_version := h_python_version h;
     h_user := h_user h;
     h_hostname := h_hostname h;
     h_log_writable := h_log_writable h;
     h_cfg_write_error := h_cfg_write_error h;
     h_bus := h_bus h;
     h_intelligence := h_intelligence h;
     h_integration := h_integration h;
     h_code_registry := h_code_registry h;
     h_auto_heal := h_auto_heal h;
     h_collab := h_collab h;
     h_spawn_error := h_spawn_error h;
     h_program := h_program h |}.

(** The same host with a configuration directory that may not be written:
    opening the configuration file for writing fails. *)
Definition read_only_config (h : Host) : Host :=
  {| py_isalnum := py_isalnum h;
     py_json_loads := py_json_loads h;
     py_json_dumps := py_json_dumps h;
     py_int_of_str := py_int_of_str h;
     py_resolve := py_resolve h;
     py_wrapper_text := py_wrapper_text h;
     py_wrapper_frames := py_wrapper_frames h;
     py_stat_error := py_stat_error h;
     py_uuid4_hex := py_uuid4_hex h;
     h_home := h_home h;
     h_executable := h_executable h;
     h_environ := h_environ h;
     h_isatty := h_isatty h;
     h_system := h_system h;
     h_release := h_release h;
     h_python_version := h_python_version h;
     h_user := h_user h;
     h_hostname := h_hostname h;
     h_log_writable := h_log_writable h;
     h_cfg_write_error :=
       Some (PyExc OtherExceptionClass (u "PermissionError")
               (u "[Errno 13] Permission denied: '" ++ CFG_PATH h ++ u "'"), None);
     h_bus := h_bus h;
     h_intelligence := h_intelligence h;
     h_integration := h_integration h;
     h_code_registry := h_code_registry h;
     h_auto_heal := h_auto_heal h;
     h_collab := h_collab h;
     h_spawn_error := h_spawn_error h;
     h_program := h_program h |}.

(** The policy of a profile, or the empty policy where resolving it raises. *)
Definition policy_of (profile : json) (cfg : dict) : SecurityPolicy :=
  match _policy_for_profile profile cfg with
  | Ret p => p
  | Raise _ => mkPolicy [] []
  end.



(** [isinstance(v, dict)]. *)
Definition is_dict (v : json) : bool :=
  match v with
  | JObj _ => true
  | _ => false
  end.

(** A Python dict has each key once, at every depth. *)
Fixpoint wf_json (j : json) : bool :=
  match j with
  | JObj m =>
      bool_decide (NoDup (map fst m)) &&
      (fix all (m : dict) : bool :=
         match m with
         | [] => true
         | (_, v) :: m' => wf_json v && all m'
         end) m
  | JArr l =>
      (fix all (l : list json) : bool :=
         match l with
         | [] => true
         | v :: l' => wf_json v && all l'
         end) l
  | _ => true
  end.

(** What [deep_merge] leaves under a key that [src] maps to [v], when [dst]
    held [old] there. *)
Definition merged_value (old : option json) (v : json) : json :=
  match v, old with
  | JObj sv, Some (JObj d) => JObj (deep_merge d sv)
  | _, _ => v
  end.

(** [src] holds a value that is no dict on the way to [q], that is, at a
    proper prefix of the path [q]. *)
Fixpoint overrides_above (src : dict) (q : list pystr) : bool :=
  match q with
  | [] => false
  | k :: rest =>
      match rest, dict_get src k with
      | [], _ => false
      | _ :: _, Some (JObj sv) => overrides_above sv rest
      | _ :: _, Some _ => true
      | _ :: _, None => false
      end
  end.

(** [keeps R m]: whatever [m] does and however it ends, the worlds before
    and after are related by [R]. *)
Definition keeps {A} (R : World -> World -> Prop) (m : M A) : Prop :=
  forall w o w', m w = (o, w') -> R w w'.

(** No child process was started between two worlds. *)
Definition same_spawned (w w' : World) : Prop := spawned w' = spawned w.

(** ** Vocabulary of the further statements *)

Section FurtherVocabulary.

Variable h : Host.

(** [msg] is the violation that line [n+1], holding [L], earns under
    [policy]: for a blocked import or for a blocked call. *)
Definition finding_of (policy : SecurityPolicy) (n : nat) (L msg : pystr) : Prop :=
  (exists m, In (JStr m) (blocked_imports policy) /\
             re_search (import_at h m) L = true /\ msg = import_violation m (S n)) \/
  (exists c, In (JStr c) (blocked_calls policy) /\
             re_search (call_at c) L = true /\ msg = call_violation c (S n)).

End FurtherVocabulary.

(** The environment variables that [_minimal_env] copies for the child. *)
Definition passes_to_child (k : pystr) : Prop :=
  k = u "PATH" \/ k = u "HOME" \/ k = u "LANG" \/ is_Some (strip_prefix (u "LC_") k).

(** [returns m]: from every world, [m] ends without an exception. *)
Definition returns {A} (m : M A) : Prop :=
  forall w, exists a w', m w = (Ret a, w').



(** Between two worlds only children satisfying [P] were started. *)
Definition spawns_only (P : spawn -> Prop) (w w' : World) : Prop :=
  exists l, spawned w' = spawned w ++ l /\ Forall P l.

(** A child as the sandbox starts it: the interpreter on a wrapper file of
    TMP_DIR, output captured, a timeout, no [preexec_fn], and an environment
    holding PYTHONUNBUFFERED=1 and the host's values of the variables that
    [passes_to_child] names, nothing else. *)
Definition sandbox_child (h : Host) (sp : spawn) : Prop :=
  (exists hex, sp_argv sp = [h_executable h; TMP_DIR h ++ u "/wrap_" ++ hex ++ u ".py"]) /\
  (exists t, sp_timeout sp = Some t) /\
  sp_capture sp = true /\
  sp_preexec sp = None /\
  exists env,
    sp_env sp = Some env /\
    forall k v, env !! k = Some v <->
      (k = u "PYTHONUNBUFFERED" /\ v = u "1") \/
      (passes_to_child k /\ h_environ h !! k = Some v).

(** ** The command line of modules/code.py (lines 389-413) *)

(** What a command wrote to its two streams, and the argument it gave to
    [sys.exit]. *)
Record cli_outcome := mkCli {
  cli_stdout : pystr;
  cli_stderr : pystr;
  cli_exit : Z
}.

(** [s.endswith("\n")]. *)
Definition ends_with_newline (s : pystr) : bool :=
  match last s with
  | Some c => c =? 10
  | None => false
  end.

(** Lines 391-398: a non-empty text is written, and a newline after it
    unless it ends in one. *)
Definition emit (s : pystr) : pystr :=
  if nonempty s then (if ends_with_newline s then s else s ++ [10]) else [].

(** [out] is [text] as a stream shows it after lines 391-398: nothing for
    an empty text, the text itself when it ends in a newline, and the text
    with a newline after it otherwise. *)
Definition written_as (text out : pystr) : Prop :=
  (text = [] -> out = []) /\
  (last text = Some 10 -> out = text) /\
  (text <> [] -> last text <> Some 10 -> out = text ++ [10]).

(** Line 399: [0 if res.get("ok") else (res.get("returncode") or 1)]. *)
Definition exit_argument (res : result) : Z :=
  if r_ok res then 0%Z
  else if (r_returncode res =? 0)%Z then 1%Z else r_returncode res.

Definition report (res : result) : cli_outcome :=
  mkCli (emit (r_stdout res)) (emit (r_stderr res)) (exit_argument res).

Section CommandLine.

Variable h : Host.

Definition _cmd_run_file (path : pystr) (profile : option pystr) : M cli_outcome :=
  res ← run_file h path profile;
  mret (report res).

(** [stdin] is what [sys.stdin.read()] returns. *)
Definition _cmd_run_stdin (stdin : pystr) (prompt profile : option pystr) : M cli_outcome :=
  res ← run_snippet h stdin prompt profile;
  mret (report res).

End CommandLine.

(** ** modules/intelligence.py *)

Module intelligence.

Section Heuristics.

(** [str.lower], and [datetime.now().isoformat(timespec="seconds")]. *)
Variable lower : pystr -> pystr.
Variable now : pystr.

(** [any(x in p for x in xs)]. *)
Definition any_in (xs : list pystr) (p : pystr) : bool :=
  existsb (fun x => is_infix x p) xs.

(** The heuristics of [analyze_prompt] (lines 28-44). *)
Definition task_type (prompt : pystr) : pystr :=
  let p := lower prompt in
  if any_in [u "csv"; u "xlsx"; u "analiza"; u "wykres"; u "pandas"] p then u "data"
  else if any_in [u "http"; u "url"; u "pobierz"; u "api"; u "network"; u "sie" ++ [263]] p
  then u "network"
  else if any_in [u "mqtt"; u "shelly"; u "sensor"; u "gpio"; u "iot"] p then u "iot"
  else if any_in [u "ascii"; u "tekst"; u "string"; u "markdown"] p then u "text"
  else if any_in [u "matplotlib"; u "plot"; u "image"; u "wykres"] p then u "viz"
  else if any_in [u "system"; u "bash"; u "os.system"] p then u "system"
  else u "text".

(** [choose_profile]: [mapping.get(task_type, "headless")]. *)
Definition choose_profile (task_type : pystr) : pystr :=
  let mapping :=
    [ (u "data", u "analysis"); (u "network", u "headless"); (u "iot", u "iot");
      (u "text", u "headless"); (u "viz", u "headless"); (u "system", u "headless") ] in
  default (u "headless")
          (snd <$> List.find (fun kv => bool_decide (fst kv = task_type)) mapping).

Definition expected_output_for (task_type : pystr) : pystr :=
  if bool_decide (task_type = u "data") then u "plik CSV lub dane liczbowe"
  else if bool_decide (task_type = u "iot")
  then u "potwierdzenie wykonania akcji lub status urz" ++ [261] ++ u "dzenia"
  else if bool_decide (task_type = u "viz") then u "ASCII wykres lub zapisany obraz"
  else if bool_decide (task_type = u "text")
  then u "tekst lub przetworzony ci" ++ [261] ++ u "g znak" ++ [243] ++ u "w"
  else if bool_decide (task_type = u "system") then u "log lub wynik polecenia systemowego"
  else u "tekst lub dane og" ++ [243] ++ u "lne".

Definition analyze_prompt (prompt : pystr) : json :=
  let ty := task_type prompt in
  JObj [ (u "type", JStr ty);
         (u "profile", JStr (choose_profile ty));
         (u "expected_output", JStr (expected_output_for ty));
         (u "ts", JStr now) ].

(** [validate_result] on the dict that code.py passes: it is never empty
    and has no "job" key. *)
Definition validate_result (r : result) : bool :=
  if negb (r_ok r) then false
  else if negb (nonempty (r_stdout r)) && negb (truthy JNull) then false
  else true.

Definition suggest_fix (stderr : pystr) : pystr :=
  if is_infix (u "SyntaxError") stderr
  then u "Sprawd" ++ [378] ++ u " sk" ++ [322] ++ u "adni" ++ [281] ++ u ": mo" ++ [380]
       ++ u "liwe brakuj" ++ [261] ++ u "cy dwukropek lub nawias."
  else if is_infix (u "ModuleNotFoundError") stderr
  then u "Brak biblioteki " ++ [8212] ++ u " sprawd" ++ [378]
       ++ u ", czy import nie jest zablokowany."
  else if is_infix (u "TimeoutExpired") stderr
  then u "Kod wykonywa" ++ [322] ++ u " si" ++ [281] ++ u " zbyt d" ++ [322] ++ u "ugo "
       ++ [8212] ++ u " mo" ++ [380] ++ u "liwa p" ++ [281] ++ u "tla niesko" ++ [324]
       ++ u "czona."
  else u "Nieznany b" ++ [322; 261] ++ u "d " ++ [8212] ++ u " sprawd" ++ [378]
       ++ u " logi sandboxa.".

End Heuristics.

End intelligence.

(** The module as code.py sees it once imported. *)
Definition intelligence_module (lower : pystr -> pystr) (now : pystr) : Intelligence :=
  mkIntelligence
    (fun prompt => Ret (intelligence.analyze_prompt lower now prompt))
    (fun r => Ret (JBool (intelligence.validate_result r)))
    (fun stderr => Ret (JStr (intelligence.suggest_fix stderr))).

(** The host [h] with the intelligence module [i] importable. *)
Definition with_intelligence (i : Intelligence) (h : Host) : Host :=
  {| py_isalnum := py_isalnum h;
     py_json_loads := py_json_loads h;
     py_json_dumps := py_json_dumps h;
     py_int_of_str := py_int_of_str h;
     py_resolve := py_resolve h;
     py_wrapper_text := py_wrapper_text h;
     py_wrapper_frames := py_wrapper_frames h;
     py_stat_error := py_stat_error h;
     py_uuid4_hex := py_uuid4_hex h;
     h_home := h_home h;
     h_executable := h_executable h;
     h_environ := h_environ h;
     h_isatty := h_isatty h;
     h_system := h_system h;
     h_release := h_release h;
     h_python_version := h_python_version h;
     h_user := h_user h;
     h_hostname := h_hostname h;
     h_log_writable := h_log_writable h;
     h_cfg_write_error := h_cfg_write_error h;
     h_bus := h_bus h;
     h_intelligence := Some i;
     h_integration := h_integration h;
     h_code_registry := h_code_registry h;
     h_auto_heal := h_auto_heal h;
     h_collab := h_collab h;
     h_spawn_error := h_spawn_error h;
     h_program := h_program h |}.

(** ASCII lower-casing, as [str.lower] acts on ASCII text. *)
Definition ascii_lower (s : pystr) : pystr :=
  map (fun c => if (65 <=? c) && (c <=? 90) then c + 32 else c) s.

(** ** modules/bus.py *)

(** [l[start:]]. *)
Definition slice_from {A} (start : Z) (l : list A) : list A :=
  let n := Z.of_nat (length l) in
  let s := if (start <? 0)%Z then Z.max 0 (n + start) else Z.min start n in
  drop (Z.to_nat s) l.

Module bus.

(** A subscriber: its [__name__], and whether the call [fn(payload)] raises.
    Subscribers are taken not to use the bus themselves. *)
Record handler := mkHandler {
  fn_name : pystr;
  fn_call : json -> option pyexc
}.

Record message := mkMessage {
  ts : pystr;
  topic : pystr;
  payload : json
}.

(** The [MessageBus] object, with what its methods do to the outside: the
    lines of bus.log, the calls made to subscribers, and what was printed. *)
Record MessageBus := mkBus {
  _subscribers : gmap pystr (list handler);
  _history : list message;
  log_lines : list message;
  calls : list (pystr * json);
  printed : list pystr;
  clock : Z
}.



Section Methods.

(** [time.strftime("%Y-%m-%dT%H:%M:%S")] at a given time, and the error of
    opening bus.log for appending, if any. *)
Variable strftime : Z -> pystr.
Variable log_open_error : option pyexc.




(** [history] (lines 53-55): [self._history[-limit:]]. *)
Definition history (limit : Z) (b : MessageBus) : list message :=
  slice_from (- limit) (_history b).


End Methods.

End bus.

(** ** gpt_chat_v3.py: [run_python_script] as a whole (lines 169-253) *)

Section FallbackRunner.

Variable h : Host.

(** Whether [modules.code] was importable; [_is_path_allowed];
    [os.path.abspath] and [os.path.dirname]; [time.strftime] at a given
    time; the mode switch; and the process id of a child. *)
Variable code_sandbox : bool.
Variable _is_path_allowed : pystr -> bool.
Variable abspath : pystr -> pystr.
Variable dirname : pystr -> pystr.
Variable strftime : Z -> pystr.
Variable GLOBAL_PY_EXEC_MODE : pystr.
Variable pid : spawn -> Z.

Definition PYTHON_VENV : pystr := u "/opt/halbridge/venv/bin/python3".
Definition JOBS_DIR : pystr := h_home h ++ u "/.local/share/halbridge/jobs".

(** Lines 171-191: the sandbox is tried first; whatever it raises is
    dropped.  (The optional result analysis only prints and logs; its
    record in the log is left out.) *)
Definition sandbox_first (script_path : pystr) : M (option script_result) :=
  if code_sandbox then
    try_except
      (res ← run_file h script_path None;
       mret (Some (mkScript (r_ok res)
                     (u "[PY] Exit=" ++ str_of_Z (r_returncode res) ++ u ", job=sandbox")
                     (take (Z.to_nat PY_STDOUT_MAX) (r_stdout res))
                     (take (Z.to_nat PY_STDOUT_MAX) (r_stderr res)))))
      (fun _ => mret None)
  else mret None.

(** Lines 206-217: the child of the interactive mode. *)
Definition run_python_script_interactive (cmd : list pystr) (job_id : pystr)
  : M script_result :=
  try_except
    (let sp := mkSpawn cmd (Some (<[u "PYTHONUNBUFFERED" := u "1"]> (h_environ h)))
                       None false (Some _preexec_resource_limits) in
     proc ← popen h sp;
     mret (mkScript true
             (u "[PY] Uruchomiono interaktywnie (PID=" ++ str_of_Z (pid sp) ++ u "), job="
              ++ job_id) [] []))
    (fun e => mret (mkScript false
                      (u "[PY] B" ++ [322; 261] ++ u "d uruchomienia: " ++
                       exc_name e ++ u ": " ++ exc_msg e) [] [])).

Definition run_python_script (script_path : pystr) (args : list pystr) : M script_result :=
  s ← sandbox_first script_path;
  match s with
  | Some r => mret r
  | None =>
      e ← os_path_exists (abspath script_path);
      if negb e then
        mret (mkScript false (u "[PY] Nie znaleziono pliku: " ++ script_path) [] [])
      else if negb (_is_path_allowed script_path) then
        mret (mkScript false
                (u "[PY] Niedozwolona " ++ [347] ++ u "cie" ++ [380] ++ u "ka: " ++ script_path)
                [] [])
      else
        t ← time_time;
        hex ← uuid4_hex h;
        let job_id := strftime t ++ u "-" ++ take 8 hex in
        let job_dir := JOBS_DIR ++ u "/" ++ job_id in
        venv ← os_path_exists PYTHON_VENV;
        let python_bin := if (venv : bool) then PYTHON_VENV else u "python3" in
        let cmd := [python_bin; script_path] ++ args in
        let cwd := if nonempty (dirname (abspath script_path))
                   then dirname (abspath script_path) else u "/" in
        if bool_decide (GLOBAL_PY_EXEC_MODE = u "interactive")
        then run_python_script_interactive cmd job_id
        else run_python_script_capture h cmd cwd job_id job_dir
  end.

End FallbackRunner.

(** * Properties *)

(** ** Text *)

Lemma strip_prefix_app (p s : pystr) : strip_prefix p (p ++ s) = Some s.
Proof.
  induction p as [|a p IH]; simpl; [reflexivity|].
  rewrite N.eqb_refl. exact IH.
Qed.

Lemma contains_refl (s : pystr) : contains s s.
Proof. exists [], []. rewrite app_nil_r. reflexivity. Qed.

Lemma contains_app_r (a s x : pystr) : contains s x -> contains (a ++ s) x.
Proof.
  intros (pre & post & ->). exists (a ++ pre), post.
  rewrite <- app_assoc. reflexivity.
Qed.

Lemma contains_app_l (s b x : pystr) : contains s x -> contains (s ++ b) x.
Proof.
  intros (pre & post & ->). exists pre, (post ++ b).
  rewrite <- !app_assoc. reflexivity.
Qed.

Lemma join_contains (sep : pystr) (parts : list pystr) (x : pystr) :
  In x parts -> contains (join sep parts) x.
Proof.
  induction parts as [|p rest IH]; intros Hin; [destruct Hin|].
  destruct rest as [|q rest].
  - destruct Hin as [->|[]]. apply contains_refl.
  - change (join sep (p :: q :: rest)) with (p ++ sep ++ join sep (q :: rest)).
    destruct Hin as [->|Hin].
    + apply contains_app_l, contains_refl.
    + apply contains_app_r, contains_app_r, IH, Hin.
Qed.

Lemma contains_is_infix (hay needle : pystr) :
  contains hay needle -> is_infix needle hay = true.
Proof.
  intros (pre & post & ->). induction pre as [|c pre IH].
  - destruct (needle ++ post) eqn:E; simpl; rewrite <- ?E, strip_prefix_app; reflexivity.
  - simpl. destruct (strip_prefix needle (c :: pre ++ needle ++ post)); [reflexivity|exact IH].
Qed.

(** ** The scanner's regular expressions *)

Section ScannerFacts.

Variable h : Host.

Lemma last_after_app (prev : option N) (a b : pystr) :
  last_after prev (a ++ b) = last_after (last_after prev a) b.
Proof. unfold last_after. apply fold_left_app. Qed.

Lemma search_from_app (pat : option N -> pystr -> bool) (pre s : pystr) :
  forall prev,
    pat (last_after prev pre) s = true ->
    search_from pat prev (pre ++ s) = true.
Proof.
  induction pre as [|c pre IH]; intros prev Hpat; simpl in *.
  - destruct s; simpl; rewrite Hpat; reflexivity.
  - rewrite (IH (Some c) Hpat). apply orb_true_r.
Qed.

Lemma spaces_then_literal_app (m ws post : pystr) :
  forall prev,
    ws <> [] ->
    forallb is_space ws = true ->
    at_boundary h (last_after (last_after prev ws) m) post = true ->
    spaces_then_literal h m (ws ++ m ++ post) = true.
Proof.
  induction ws as [|c ws IH]; intros prev Hne Hsp Hb; [congruence|].
  simpl in Hsp. apply andb_true_iff in Hsp as [Hc Hws].
  simpl. rewrite Hc. simpl.
  destruct ws as [|c' ws'].
  - simpl. unfold literal_then_boundary. rewrite strip_prefix_app.
    simpl in Hb. rewrite Hb. reflexivity.
  - rewrite (IH (Some c)); [apply orb_true_r|discriminate|exact Hws|exact Hb].
Qed.

(** Completeness of the import pattern: a line that holds, at a word
    boundary, the keyword, white space, the name [m] and again a word
    boundary, is matched. *)
Lemma import_pattern_complete (m pre kw ws post : pystr) :
  kw = u "import" \/ kw = u "from" ->
  ws <> [] ->
  forallb is_space ws = true ->
  at_boundary h (last_after None pre) (kw ++ ws ++ m ++ post) = true ->
  at_boundary h (last_after (last_after None ws) m) post = true ->
  re_search (import_at h m) (pre ++ kw ++ ws ++ m ++ post) = true.
Proof.
  intros Hkw Hne Hsp Hb1 Hb2.
  unfold re_search. apply search_from_app.
  unfold import_at. rewrite Hb1, andb_true_l.
  assert (Hk : keyword_then h kw m (kw ++ ws ++ m ++ post) = true).
  { unfold keyword_then. rewrite strip_prefix_app.
    apply (spaces_then_literal_app m ws post None); assumption. }
  destruct Hkw as [-> | ->]; rewrite Hk; [reflexivity|apply orb_true_r].
Qed.

Lemma scan_imports_total (L : pystr) (i : nat) (ms : list json) :
  forallb is_str ms = true ->
  exists l, scan_imports h L i ms = Ret l /\
    forall m, In (JStr m) ms -> re_search (import_at h m) L = true ->
              In (import_violation m i) l.
Proof.
  induction ms as [|v ms IH]; intros Hs.
  - exists []. split; [reflexivity|]. intros m [].
  - simpl in Hs. apply andb_true_iff in Hs as [Hv Hms].
    destruct (IH Hms) as (l & Hl & Hin).
    destruct v as [ | | |s| | ]; try discriminate.
    cbn. rewrite Hl. cbn.
    eexists. split; [reflexivity|].
    intros m [Heq|Hm] Hre.
    + injection Heq as ->. rewrite Hre. left. reflexivity.
    + destruct (re_search (import_at h s) L); [right|]; apply Hin; assumption.
Qed.

Lemma scan_calls_total (L : pystr) (i : nat) (cs : list json) :
  forallb is_str cs = true ->
  exists l, scan_calls L i cs = Ret l.
Proof.
  induction cs as [|v cs IH]; intros Hs.
  - exists []. reflexivity.
  - simpl in Hs. apply andb_true_iff in Hs as [Hv Hcs].
    destruct (IH Hcs) as (l & Hl).
    destruct v as [ | | |s| | ]; try discriminate.
    cbn. rewrite Hl. cbn. eexists. reflexivity.
Qed.

Lemma scan_lines_total (lines : list pystr) (policy : SecurityPolicy) :
  forallb is_str (blocked_imports policy) = true ->
  forallb is_str (blocked_calls policy) = true ->
  forall i, exists l, scan_lines h lines i policy = Ret l /\
    forall n L m, nth_error lines n = Some L ->
      In (JStr m) (blocked_imports policy) ->
      re_search (import_at h m) L = true ->
      In (import_violation m (i + n)) l.
Proof.
  intros Hi Hc. induction lines as [|L0 lines IH]; intros i.
  - exists []. split; [reflexivity|]. intros [|n] L m Hn; discriminate.
  - destruct (scan_imports_total L0 i _ Hi) as (a & Ha & Hina).
    destruct (scan_calls_total L0 i _ Hc) as (b & Hb).
    destruct (IH (S i)) as (c & Hcl & Hinc).
    cbn. rewrite Ha. cbn. rewrite Hb. cbn. rewrite Hcl. cbn.
    eexists. split; [reflexivity|].
    intros [|n] L m Hn Hm Hre.
    + injection Hn as ->. rewrite Nat.add_0_r.
      apply in_or_app. left. apply Hina; assumption.
    + apply in_or_app. right. apply in_or_app. right.
      replace (i + S n)%nat with (S i + n)%nat by lia.
      apply (Hinc n L m); assumption.
Qed.

End ScannerFacts.

(** ** Dicts and the deep merge *)

Lemma dict_get_set_eq (d : dict) (k : pystr) (v : json) :
  dict_get (dict_set d k v) k = Some v.
Proof.
  induction d as [|[k' v'] d IH]; simpl.
  - rewrite decide_True by reflexivity. reflexivity.
  - destruct (decide (k' = k)) as [->|Hne]; simpl.
    + rewrite decide_True by reflexivity. reflexivity.
    + rewrite decide_False by exact Hne. exact IH.
Qed.

Lemma dict_get_set_ne (d : dict) (k k' : pystr) (v : json) :
  k <> k' -> dict_get (dict_set d k v) k' = dict_get d k'.
Proof.
  intros Hne. induction d as [|[k0 v0] d IH]; simpl.
  - rewrite decide_False by exact Hne. reflexivity.
  - destruct (decide (k0 = k)) as [->|Hne0]; simpl.
    + rewrite !decide_False by exact Hne. reflexivity.
    + destruct (decide (k0 = k')); [reflexivity|exact IH].
Qed.

Lemma dict_get_not_in (d : dict) (k : pystr) :
  ~ In k (map fst d) -> dict_get d k = None.
Proof.
  induction d as [|[k' v'] d IH]; simpl; intros Hn; [reflexivity|].
  destruct (decide (k' = k)) as [->|Hne]; [tauto|]. apply IH. tauto.
Qed.

Lemma deep_merge_nil (dst : dict) : deep_merge dst [] = dst.
Proof. reflexivity. Qed.

Lemma deep_merge_cons (dst : dict) (k : pystr) (v : json) (m : dict) :
  deep_merge dst ((k, v) :: m) =
  deep_merge (dict_set dst k (merged_value (dict_get dst k) v)) m.
Proof.
  unfold deep_merge, merged_value. cbn [deep_merge_obj].
  destruct v; try reflexivity.
  destruct (dict_get dst k) as [[]|]; reflexivity.
Qed.

(** A key that [src] does not mention keeps its value. *)
Lemma deep_merge_get_other (src : dict) :
  forall (dst : dict) (k : pystr),
    dict_get src k = None ->
    dict_get (deep_merge dst src) k = dict_get dst k.
Proof.
  induction src as [|[k0 v0] src IH]; intros dst k Hk; [reflexivity|].
  rewrite deep_merge_cons. simpl in Hk.
  destruct (decide (k0 = k)) as [->|Hne]; [discriminate|].
  rewrite IH by exact Hk. apply dict_get_set_ne, Hne.
Qed.

(** A key that [src] maps to [v] ends up with the merged value. *)
Lemma deep_merge_get_named (src : dict) :
  forall (dst : dict) (k : pystr) (v : json),
    NoDup (map fst src) ->
    dict_get src k = Some v ->
    dict_get (deep_merge dst src) k = Some (merged_value (dict_get dst k) v).
Proof.
  induction src as [|[k0 v0] src IH]; intros dst k v Hnd Hk; [discriminate|].
  rewrite deep_merge_cons. simpl in Hk, Hnd. apply NoDup_cons in Hnd as [Hnotin Hnd].
  rewrite list_elem_of_In in Hnotin.
  destruct (decide (k0 = k)) as [->|Hne].
  - injection Hk as ->.
    rewrite deep_merge_get_other by (apply dict_get_not_in, Hnotin).
    apply dict_get_set_eq.
  - rewrite (IH _ _ _ Hnd Hk). rewrite dict_get_set_ne by exact Hne. reflexivity.
Qed.

Lemma wf_json_obj (m : dict) :
  wf_json (JObj m) = true ->
  NoDup (map fst m) /\
  forall k v, dict_get m k = Some v -> wf_json v = true.
Proof.
  cbn [wf_json]. intros H. apply andb_true_iff in H as [Hnd Hall].
  apply bool_decide_eq_true in Hnd. split; [exact Hnd|]. clear Hnd.
  induction m as [|[k0 v0] m IH]; intros k v Hk; [discriminate|].
  apply andb_true_iff in Hall as [Hv Hall]. simpl in Hk.
  destruct (decide (k0 = k)); [injection Hk as <-; exact Hv|].
  eapply IH; eassumption.
Qed.

Lemma get_path_cons (d : dict) (k : pystr) (rest : list pystr) :
  get_path d (k :: rest) =
  match rest with
  | [] => dict_get d k
  | _ :: _ =>
      match dict_get d k with
      | Some (JObj d') => get_path d' rest
      | _ => None
      end
  end.
Proof. destruct rest; reflexivity. Qed.

Lemma get_path_dict_inv (d : dict) (k : pystr) (p : list pystr) (m : dict) :
  get_path d (k :: p) = Some (JObj m) ->
  exists sv, dict_get d k = Some (JObj sv) /\ get_path sv p = Some (JObj m).
Proof.
  rewrite get_path_cons. destruct p as [|k' p].
  - intros H. exists m. split; [exact H|reflexivity].
  - destruct (dict_get d k) as [[]|]; try discriminate.
    intros H. eexists. split; [reflexivity|exact H].
Qed.

Lemma get_path_absent (p : list pystr) :
  forall (d m : dict) (k : pystr) (rest : list pystr),
    get_path d p = Some (JObj m) ->
    dict_get m k = None ->
    get_path d (p ++ k :: rest) = None.
Proof.
  induction p as [|k0 p IH]; intros d m k rest Hp Hk.
  - injection Hp as ->. cbn [app]. rewrite get_path_cons, Hk. destruct rest; reflexivity.
  - apply get_path_dict_inv in Hp as (sv & Hd & Hsv).
    cbn [app]. rewrite get_path_cons, Hd.
    destruct (p ++ k :: rest) eqn:E; [destruct p; discriminate|].
    rewrite <- E. eapply IH; eassumption.
Qed.

(** The leaf an override names is replaced. *)
Lemma deep_merge_leaf (q : list pystr) :
  forall (dst src : dict) (v : json),
    wf_json (JObj src) = true ->
    q <> [] ->
    get_path src q = Some v ->
    is_dict v = false ->
    get_path (deep_merge dst src) q = Some v.
Proof.
  induction q as [|k q IH]; intros dst src v Hwf Hne Hq Hv; [congruence|].
  apply wf_json_obj in Hwf as [Hnd Hsub].
  rewrite get_path_cons in Hq |- *.
  destruct q as [|k' q].
  - rewrite (deep_merge_get_named _ _ _ _ Hnd Hq).
    unfold merged_value. destruct v; try reflexivity. discriminate.
  - destruct (dict_get src k) as [[ | | | | |sv]|] eqn:Hk; try discriminate.
    rewrite (deep_merge_get_named _ _ _ _ Hnd Hk). unfold merged_value.
    destruct (dict_get dst k) as [[ | | | | |d]|]; try exact Hq.
    apply IH; [eapply Hsub, Hk|discriminate|exact Hq|exact Hv].
Qed.

(** Whatever lies beside the keys of an override is kept. *)
Lemma deep_merge_sibling (p : list pystr) :
  forall (dst src m : dict) (k : pystr) (rest : list pystr),
    wf_json (JObj src) = true ->
    get_path src p = Some (JObj m) ->
    dict_get m k = None ->
    get_path (deep_merge dst src) (p ++ k :: rest) = get_path dst (p ++ k :: rest).
Proof.
  induction p as [|k0 p IH]; intros dst src m k rest Hwf Hp Hk.
  - injection Hp as ->. cbn [app]. rewrite !get_path_cons.
    rewrite (deep_merge_get_other _ _ _ Hk). reflexivity.
  - apply wf_json_obj in Hwf as [Hnd Hsub].
    apply get_path_dict_inv in Hp as (sv & Hd & Hsv).
    cbn [app]. rewrite !get_path_cons.
    rewrite (deep_merge_get_named _ _ _ _ Hnd Hd). unfold merged_value.
    destruct (p ++ k :: rest) as [|k1 q1] eqn:E; [destruct p; discriminate|].
    rewrite <- E.
    destruct (dict_get dst k0) as [[ | | | | |d]|];
      try (eapply get_path_absent; eassumption).
    eapply IH; [eapply Hsub, Hd|exact Hsv|exact Hk].
Qed.

(** ** Reasoning about effectful code *)

Lemma bind_eq {A B} (m : M A) (k : A -> M B) (w : World) :
  (m ≫= k) w =
  match m w with
  | (Ret a, w') => k a w'
  | (Raise e, w') => (Raise e, w')
  end.
Proof. reflexivity. Qed.

Lemma bind_ret_inv {A B} (m : M A) (k : A -> M B) (w w' : World) (b : B) :
  (m ≫= k) w = (Ret b, w') ->
  exists a w1, m w = (Ret a, w1) /\ k a w1 = (Ret b, w').
Proof.
  rewrite bind_eq. destruct (m w) as [[a|e] w1]; intros H; [|discriminate].
  exists a, w1. split; [reflexivity|exact H].
Qed.

Section Keeps.

Variable R : World -> World -> Prop.
Hypothesis R_refl : forall w, R w w.
Hypothesis R_trans : forall w1 w2 w3, R w1 w2 -> R w2 w3 -> R w1 w3.

Lemma keeps_ret {A} (a : A) : keeps R (mret a).
Proof. intros w o w' H. injection H as _ <-. apply R_refl. Qed.

Lemma keeps_raise {A} (e : pyexc) : keeps R (raise e : M A).
Proof. intros w o w' H. injection H as _ <-. apply R_refl. Qed.

Lemma keeps_lift {A} (o : outcome A) : keeps R (lift o).
Proof. intros w o' w' H. injection H as _ <-. apply R_refl. Qed.

Lemma keeps_bind {A B} (m : M A) (k : A -> M B) :
  keeps R m -> (forall a, keeps R (k a)) -> keeps R (m ≫= k).
Proof.
  intros Hm Hk w o w'. rewrite bind_eq.
  destruct (m w) as [[a|e] w1] eqn:E; intros H.
  - eapply R_trans; [eapply Hm, E|eapply Hk, H].
  - injection H as _ <-. eapply Hm, E.
Qed.

Lemma keeps_try_except {A} (body : M A) (handler : pyexc -> M A) :
  keeps R body -> (forall e, keeps R (handler e)) -> keeps R (try_except body handler).
Proof.
  intros Hb Hh w o w'. unfold try_except.
  destruct (body w) as [[a|e] w1] eqn:E; intros H.
  - injection H as _ <-. eapply Hb, E.
  - eapply R_trans; [eapply Hb, E|eapply Hh, H].
Qed.

Lemma keeps_try_except_timeout {A} (body handler : M A) :
  keeps R body -> keeps R handler -> keeps R (try_except_timeout body handler).
Proof.
  intros Hb Hh w o w'. unfold try_except_timeout.
  destruct (body w) as [[a|e] w1] eqn:E; intros H.
  - injection H as _ <-. eapply Hb, E.
  - destruct (exc_class_of e).
    + injection H as _ <-. eapply Hb, E.
    + eapply R_trans; [eapply Hb, E|eapply Hh, H].
    + injection H as _ <-. eapply Hb, E.
Qed.

Lemma keeps_try_finally {A} (body : M A) (cleanup : M unit) :
  keeps R body -> keeps R cleanup -> keeps R (try_finally body cleanup).
Proof.
  intros Hb Hc w o w'. unfold try_finally.
  destruct (body w) as [o1 w1] eqn:E.
  destruct (cleanup w1) as [[[]|e] w2] eqn:E2; intros H; injection H as _ <-;
    (eapply R_trans; [eapply Hb, E|eapply Hc, E2]).
Qed.

Lemma keeps_swallow (body : M unit) : keeps R body -> keeps R (swallow body).
Proof. intros Hb. apply keeps_try_except; [exact Hb|]. intros e. apply keeps_ret. Qed.

Lemma keeps_when (b : bool) (m : M unit) : keeps R m -> keeps R (when b m).
Proof. intros Hm. destruct b; [exact Hm|apply keeps_ret]. Qed.

End Keeps.

Lemma same_spawned_refl w : same_spawned w w.
Proof. reflexivity. Qed.

Lemma same_spawned_trans w1 w2 w3 :
  same_spawned w1 w2 -> same_spawned w2 w3 -> same_spawned w1 w3.
Proof. unfold same_spawned. congruence. Qed.

(** Every primitive effect but [subprocess_run] leaves [spawned] alone. *)
Ltac keeps_prim :=
  let w := fresh "w" in let o := fresh "o" in let w' := fresh "w'" in
  let H := fresh "H" in
  intros w o w' H; cbv beta delta
    [path_exists write_text write_wrapper write_json unlink uuid4_hex time_time
     _log_event bus_publish collab_call_ read_json with_fs] in H;
  repeat match type of H with
         | context [match ?x with _ => _ end] => destruct x
         | context [if ?x then _ else _] => destruct x
         end;
  injection H as _ <-; reflexivity.

(** One step through the structure of a monadic term, for a relation with
    reflexivity [rfl] and transitivity [trs] whose primitive cases [prim]
    solves. *)
Ltac keeps_with rfl trs prim :=
  first
    [ solve [prim]
    | apply keeps_bind | apply keeps_ret | apply keeps_raise | apply keeps_lift
    | apply keeps_try_except | apply keeps_try_except_timeout
    | apply keeps_try_finally | apply keeps_swallow | apply keeps_when ];
  try exact rfl; try exact trs;
  try match goal with |- forall _, keeps _ _ => intros ? end.

Ltac keeps_step := keeps_with same_spawned_refl same_spawned_trans keeps_prim.

Section RunnerFacts.

Variable h : Host.

Lemma _load_cfg_keeps_spawned : keeps same_spawned (_load_cfg h).
Proof.
  unfold _load_cfg.
  keeps_step; [keeps_step|]. destruct (negb a); repeat keeps_step.
Qed.

Lemma analyse_prompt_phase_keeps_spawned code prompt profile :
  keeps same_spawned (analyse_prompt_phase h code prompt profile).
Proof.
  unfold analyse_prompt_phase.
  destruct (h_intelligence h) as [intel|]; [|repeat keeps_step].
  destruct prompt as [[|c p]|]; repeat keeps_step.
Qed.

Lemma snippet_request_keeps_spawned code prompt profile :
  keeps same_spawned (snippet_request h code prompt profile).
Proof.
  unfold snippet_request.
  keeps_step; [apply _load_cfg_keeps_spawned|].
  keeps_step; [apply analyse_prompt_phase_keeps_spawned|].
  destruct a0 as [meta profile']. repeat keeps_step.
Qed.

End RunnerFacts.

Lemma try_finally_ret_inv {A} (body : M A) (cleanup : M unit) (w w' : World) (a : A) :
  try_finally body cleanup w = (Ret a, w') ->
  exists w1, body w = (Ret a, w1).
Proof.
  unfold try_finally. destruct (body w) as [o w1].
  destruct (cleanup w1) as [[[]|e] w2]; intros H; [|discriminate].
  injection H as -> _. exists w1. reflexivity.
Qed.

(** Peel the binds off a hypothesis [(m >>= k) w = (Ret r, w')]. *)
Ltac inv_bind H :=
  repeat
    (let a := fresh "a" in let w := fresh "w" in let Ha := fresh "Hstep" in
     apply bind_ret_inv in H as (a & w & Ha & H)).

Section ResultFacts.

Variable h : Host.

Lemma validate_phase_ok (r : result) (err : pystr) :
  r_ok (validate_phase h r err) = r_ok r /\
  r_returncode (validate_phase h r err) = r_returncode r /\
  r_stdout (validate_phase h r err) = r_stdout r /\
  r_stderr (validate_phase h r err) = r_stderr r.
Proof.
  unfold validate_phase.
  destruct (h_intelligence h) as [intel|]; [|auto].
  destruct (validate_result intel r) as [v|e]; [|auto].
  destruct (negb (truthy v) && nonempty err); [|auto].
  destruct (suggest_fix intel err); auto.
Qed.

(** The shape of whatever [run_snippet] returns. *)
Lemma run_snippet_ret_inv (code : pystr) (prompt profile : option pystr)
  (w w1 w' : World) (cfg : dict) (meta prof : json) (policy : SecurityPolicy) (r : result) :
  snippet_request h code prompt profile w = (Ret (cfg, meta, prof, policy), w1) ->
  run_snippet h code prompt profile w = (Ret r, w') ->
  exists findings,
    preflight_check h code policy = Ret findings /\
    ((findings <> [] /\
      r = rejected (join [10] findings) (detect_environment h) prof) \/
     (findings = [] /\ exists rc out err dur,
      r = validate_phase h
            (mkResult (rc =? 0)%Z out err rc (detect_environment h) prof dur None None)
            err)).
Proof.
  intros Hreq Hrun. unfold run_snippet in Hrun.
  rewrite bind_eq, Hreq in Hrun.
  apply bind_ret_inv in Hrun as (? & w2 & _ & Hrun).
  apply bind_ret_inv in Hrun as (findings & w3 & Hpre & Hrun).
  unfold lift in Hpre. injection Hpre as Hpre _.
  exists findings. split; [exact Hpre|].
  destruct findings as [|f rest].
  - right. split; [reflexivity|].
    apply bind_ret_inv in Hrun as (hex & w4 & _ & Hrun).
    apply bind_ret_inv in Hrun as (? & w5 & _ & Hrun).
    apply try_finally_ret_inv in Hrun as (w6 & Hrun).
    apply bind_ret_inv in Hrun as (timeout & w7 & _ & Hrun).
    apply bind_ret_inv in Hrun as ([[[rc out] err] dur] & w8 & _ & Hrun).
    inv_bind Hrun. injection Hrun as <- _.
    exists rc, out, err, dur. reflexivity.
  - left. split; [discriminate|].
    inv_bind Hrun. injection Hrun as <- _. reflexivity.
Qed.

(** The shape of whatever [run_file] returns. *)
Lemma run_file_ret_inv (path : pystr) (profile : option pystr) (w w' : World) (r : result) :
  run_file h path profile w = (Ret r, w') ->
  exists cfg w1 policy p,
    let env := detect_environment h in
    let prof := get_profile env (opt_str profile) cfg in
    _load_cfg h w = (Ret cfg, w1) /\
    _policy_for_profile prof cfg = Ret policy /\
    py_resolve h path = Ret p /\
    ((fs w1 !! p = None /\ r = rejected (u "File not found: " ++ p) env prof) \/
     (exists f findings,
        fs w1 !! p = Some f /\
        preflight_check h (file_text h f) policy = Ret findings /\
        ((findings <> [] /\ r = rejected (join [10] findings) env prof) \/
         (findings = [] /\ exists rc out err dur,
            r = validate_phase h
                  (mkResult (rc =? 0)%Z out err rc env prof dur None None) err)))).
Proof.
  intros Hrun. unfold run_file in Hrun.
  apply bind_ret_inv in Hrun as (cfg & w1 & Hcfg & Hrun).
  apply bind_ret_inv in Hrun as (policy & w2 & Hpol & Hrun).
  unfold lift in Hpol. injection Hpol as Hpol <-.
  apply bind_ret_inv in Hrun as (? & w3 & Hbus & Hrun).
  assert (Hfs : fs w3 = fs w1).
  { unfold when in Hbus. destruct (h_bus h); injection Hbus as _ <-; reflexivity. }
  apply bind_ret_inv in Hrun as (p & w4 & Hres & Hrun).
  unfold lift in Hres. injection Hres as Hres <-.
  apply bind_ret_inv in Hrun as (e & w5 & Hex & Hrun).
  unfold path_exists in Hex. rewrite Hfs in Hex.
  exists cfg, w1, policy, p. cbv zeta.
  split; [exact Hcfg|]. split; [exact Hpol|]. split; [exact Hres|].
  destruct (fs w1 !! p) as [f|] eqn:Hf.
  - right. injection Hex as <- <-.
    cbn [negb] in Hrun.
    apply bind_ret_inv in Hrun as (txt & w6 & Htxt & Hrun).
    injection Htxt as <- <-. rewrite Hfs, Hf in Hrun. cbn [fmap option_fmap option_map default] in Hrun.
    apply bind_ret_inv in Hrun as (findings & w7 & Hpre & Hrun).
    unfold lift in Hpre. injection Hpre as Hpre _.
    exists f, findings. split; [reflexivity|]. split; [exact Hpre|].
    destruct findings as [|v rest].
    + right. split; [reflexivity|].
      apply bind_ret_inv in Hrun as (timeout & w8 & _ & Hrun).
      apply bind_ret_inv in Hrun as ([[[rc out] err] dur] & w9 & _ & Hrun).
      inv_bind Hrun. injection Hrun as <- _.
      exists rc, out, err, dur. reflexivity.
    + left. split; [discriminate|].
      inv_bind Hrun. injection Hrun as <- _. reflexivity.
  - left. split; [reflexivity|].
    destruct (py_stat_error h p); [discriminate|]. injection Hex as <- <-.
    cbn [negb] in Hrun.
    inv_bind Hrun. injection Hrun as <- _. reflexivity.
Qed.

End ResultFacts.

(** ** The wrapper's start *)

Lemma json_nested_ind (P : json -> Prop) :
  P JNull -> (forall b, P (JBool b)) -> (forall z, P (JInt z)) -> (forall s, P (JStr s)) ->
  (forall l, Forall P l -> P (JArr l)) ->
  (forall m, Forall (fun kv => P (snd kv)) m -> P (JObj m)) ->
  forall j, P j.
Proof.
  intros Hn Hb Hi Hs Ha Ho. fix IH 1. intros [|b|z|s|l|m].
  - exact Hn.
  - apply Hb.
  - apply Hi.
  - apply Hs.
  - apply Ha. induction l as [|x l IHl]; constructor; [apply IH|exact IHl].
  - apply Ho. induction m as [|[k v] m IHm]; constructor; [apply IH|exact IHm].
Qed.












Lemma wrapper_setup_cases (w : wrapper) :
  wrapper_setup w = Ret tt \/ exists e, wrapper_setup w = Raise e.
Proof. destruct (wrapper_setup w) as [[]|e]; [left; reflexivity|right; eexists; reflexivity]. Qed.






(** ** The claims *)

Section Claims.

Variable h : Host.

(** C1 (as amended). Let a request resolve to a policy whose entries are
    strings, and let line [n+1] of the source text (counting the lines of
    [splitlines] from 1) hold, at a word boundary, the keyword [import] or
    [from], then white space, then a name [m] of [blocked_imports], then a
    word boundary.  Then [run_snippet] returns ok=false and returncode=2,
    its stderr contains the violation naming [m] and line [n+1], and no
    child process is started. *)
Theorem C1_import_line_rejected
  (code : pystr) (prompt profile : option pystr) (w w1 : World)
  (cfg : dict) (meta prof : json) (policy : SecurityPolicy)
  (n : nat) (m pre kw ws post : pystr) :
  snippet_request h code prompt profile w = (Ret (cfg, meta, prof, policy), w1) ->
  forallb is_str (blocked_imports policy) = true ->
  forallb is_str (blocked_calls policy) = true ->
  In (JStr m) (blocked_imports policy) ->
  nth_error (splitlines code) n = Some (pre ++ kw ++ ws ++ m ++ post) ->
  kw = u "import" \/ kw = u "from" ->
  ws <> [] ->
  forallb is_space ws = true ->
  at_boundary h (last_after None pre) (kw ++ ws ++ m ++ post) = true ->
  at_boundary h (last_after (last_after None ws) m) post = true ->
  exists r w',
    run_snippet h code prompt profile w = (Ret r, w') /\
    r_ok r = false /\
    r_returncode r = 2%Z /\
    contains (r_stderr r) (import_violation m (S n)) /\
    spawned w' = spawned w.
Proof.
  intros Hreq Hi Hc Hm Hline Hkw Hne Hsp Hb1 Hb2.
  destruct (scan_lines_total h (splitlines code) policy Hi Hc 1)
    as (findings & Hscan & Hin).
  pose proof (Hin n _ m Hline Hm
                (import_pattern_complete h m pre kw ws post Hkw Hne Hsp Hb1 Hb2)) as Hv.
  pose proof (snippet_request_keeps_spawned h code prompt profile _ _ _ Hreq) as Hsame.
  unfold same_spawned in Hsame.
  destruct findings as [|f rest]; [destruct Hv|].
  unfold run_snippet. rewrite bind_eq, Hreq.
  unfold preflight_check. rewrite bind_eq.
  destruct (h_bus h);
    cbv beta iota zeta delta [when bus_publish mret M_ret mbind M_bind lift
                              _log_event rejected];
    rewrite Hscan;
    (eexists; eexists; split; [reflexivity|]);
    (split; [reflexivity|]); (split; [reflexivity|]);
    (split; [apply join_contains; exact Hv|]);
    destruct (h_log_writable h); exact Hsame.
Qed.

(** C5. Whatever [run_snippet] or [run_file] returns has ok = true if and
    only if returncode = 0 and the preflight violation list of the request
    is empty (a request for a missing file has no violations). *)
Theorem C5_ok_iff_rc0_and_no_violations :
  (forall (code : pystr) (prompt profile : option pystr) (w w1 w' : World)
          (cfg : dict) (meta prof : json) (policy : SecurityPolicy) (r : result),
      snippet_request h code prompt profile w = (Ret (cfg, meta, prof, policy), w1) ->
      run_snippet h code prompt profile w = (Ret r, w') ->
      exists findings,
        preflight_check h code policy = Ret findings /\
        (r_ok r = true <-> r_returncode r = 0%Z /\ findings = [])) /\
  (forall (path : pystr) (profile : option pystr) (w w' : World) (r : result),
      run_file h path profile w = (Ret r, w') ->
      exists cfg w1 policy p findings,
        _load_cfg h w = (Ret cfg, w1) /\
        _policy_for_profile
          (get_profile (detect_environment h) (opt_str profile) cfg) cfg = Ret policy /\
        py_resolve h path = Ret p /\
        match fs w1 !! p with
        | Some f => preflight_check h (file_text h f) policy = Ret findings
        | None => findings = []
        end /\
        (r_ok r = true <-> r_returncode r = 0%Z /\ findings = [])).
Proof.
  assert (Hexec : forall rc out err env prof dur,
    let r := validate_phase h (mkResult (rc =? 0)%Z out err rc env prof dur None None) err in
    r_ok r = true <-> r_returncode r = 0%Z /\ @nil pystr = []).
  { intros rc out err env prof dur r.
    destruct (validate_phase_ok h
                (mkResult (rc =? 0)%Z out err rc env prof dur None None) err)
      as (Hok & Hrc & _).
    subst r. rewrite Hok, Hrc. cbn [r_ok r_returncode].
    rewrite Z.eqb_eq. tauto. }
  split.
  - intros code prompt profile w w1 w' cfg meta prof policy r Hreq Hrun.
    destruct (run_snippet_ret_inv h _ _ _ _ _ _ _ _ _ _ _ Hreq Hrun)
      as (findings & Hpre & [[Hne ->]|[-> (rc & out & err & dur & ->)]]);
      exists findings || exists (@nil pystr); (split; [exact Hpre|]).
    + cbn. split; [discriminate|]. intros [H _]. discriminate.
    + apply Hexec.
  - intros path profile w w' r Hrun.
    destruct (run_file_ret_inv h _ _ _ _ _ Hrun)
      as (cfg & w1 & policy & p & Hcfg & Hpol & Hres & Hcases).
    destruct Hcases as [[Hf ->]|(f & findings & Hf & Hpre & Hc)].
    + exists cfg, w1, policy, p, []. rewrite Hf.
      repeat (split; [assumption || reflexivity|]).
      cbn. split; [discriminate|]. intros [H _]. discriminate.
    + exists cfg, w1, policy, p, findings. rewrite Hf.
      repeat (split; [assumption|]).
      destruct Hc as [[Hne ->]|[-> (rc & out & err & dur & ->)]].
      * cbn. split; [discriminate|]. intros [H _]. discriminate.
      * apply Hexec.
Qed.


Lemma read_json_ret_inv (p : pystr) (w w1 : World) (j : json) :
  read_json h p w = (Ret j, w1) -> w1 = w /\ is_Some (fs w !! p).
Proof.
  unfold read_json. destruct (fs w !! p) as [f|]; [|discriminate].
  intros H. split; [|eexists; reflexivity].
  destruct f; try destruct (py_json_loads h _); congruence.
Qed.

Lemma read_json_world (p : pystr) (w w1 : World) (o : outcome json) :
  read_json h p w = (o, w1) -> w1 = w.
Proof.
  unfold read_json. destruct (fs w !! p) as [f|]; [|congruence].
  destruct f; try destruct (py_json_loads h _); congruence.
Qed.

Lemma _load_cfg_present (w : World) :
  is_Some (fs w !! CFG_PATH h) ->
  _load_cfg h w =
  match read_json h (CFG_PATH h) w with
  | (Ret data, _) =>
      match deep_merge_py DEFAULT_CFG (py_or data (JObj [])) with
      | Ret merged => (Ret merged, w)
      | Raise _ => (Ret DEFAULT_CFG, w)
      end
  | (Raise _, _) => (Ret DEFAULT_CFG, w)
  end.
Proof.
  intros [f Hf]. unfold _load_cfg, path_exists. rewrite bind_eq, Hf. cbn [negb].
  unfold try_except. rewrite bind_eq.
  destruct (read_json h (CFG_PATH h) w) as [[data|e] w1] eqn:E;
    apply read_json_world in E as ->; [|reflexivity].
  unfold lift. destruct (deep_merge_py _ _); reflexivity.
Qed.

Lemma _load_cfg_missing (w : World) :
  fs w !! CFG_PATH h = None ->
  _load_cfg h w =
  match py_stat_error h (CFG_PATH h) with
  | Some e => (Raise e, w)
  | None =>
      match h_cfg_write_error h with
      | Some (e, None) => (Raise e, w)
      | Some (e, Some f) => (Raise e, with_fs (insert (CFG_PATH h) f) w)
      | None =>
          (Ret DEFAULT_CFG, with_fs (insert (CFG_PATH h) (FJson (JObj DEFAULT_CFG))) w)
      end
  end.
Proof.
  intros Hf. unfold _load_cfg, path_exists, write_json. rewrite bind_eq, Hf.
  destruct (py_stat_error h (CFG_PATH h)); [reflexivity|]. cbn [negb].
  rewrite bind_eq.
  destruct (h_cfg_write_error h) as [[e [f|]]|]; reflexivity.
Qed.

(** C8. A configuration file holding a JSON object is merged over the
    defaults; in a merge, a leaf named by the override replaces the value at
    that path, and every path beside the override's keys keeps what [dst]
    had; a missing file is created from the defaults, which are returned,
    when the file can be written; a file that is not JSON, or not a JSON
    object, gives the defaults; and loading never raises when the file is
    there.  (The test for the file and the writing of the defaults are
    outside the [try]: what they raise for a missing file reaches the
    caller.) *)
Theorem C8_config_loading :
  (forall (w w1 : World) (data : dict),
      read_json h (CFG_PATH h) w = (Ret (JObj data), w1) ->
      _load_cfg h w = (Ret (deep_merge DEFAULT_CFG data), w)) /\
  (forall (dst src : dict) (q : list pystr) (v : json),
      wf_json (JObj src) = true -> q <> [] ->
      get_path src q = Some v -> is_dict v = false ->
      get_path (deep_merge dst src) q = Some v) /\
  (forall (dst src m : dict) (p : list pystr) (k : pystr) (rest : list pystr),
      wf_json (JObj src) = true ->
      get_path src p = Some (JObj m) -> dict_get m k = None ->
      get_path (deep_merge dst src) (p ++ k :: rest) = get_path dst (p ++ k :: rest)) /\
  (forall (w : World),
      fs w !! CFG_PATH h = None ->
      py_stat_error h (CFG_PATH h) = None ->
      h_cfg_write_error h = None ->
      _load_cfg h w =
      (Ret DEFAULT_CFG, with_fs (insert (CFG_PATH h) (FJson (JObj DEFAULT_CFG))) w)) /\
  (forall (w w1 : World) (e : pyexc),
      is_Some (fs w !! CFG_PATH h) ->
      read_json h (CFG_PATH h) w = (Raise e, w1) ->
      _load_cfg h w = (Ret DEFAULT_CFG, w)) /\
  (forall (w w1 : World) (j : json),
      read_json h (CFG_PATH h) w = (Ret j, w1) -> is_dict j = false ->
      _load_cfg h w = (Ret DEFAULT_CFG, w)) /\
  (forall (w : World),
      is_Some (fs w !! CFG_PATH h) ->
      exists cfg, _load_cfg h w = (Ret cfg, w)) /\
  (forall (w : World) (e : pyexc) (left : option file),
      fs w !! CFG_PATH h = None ->
      py_stat_error h (CFG_PATH h) = None ->
      h_cfg_write_error h = Some (e, left) ->
      exists w', _load_cfg h w = (Raise e, w')) /\
  (forall (w : World) (e : pyexc),
      fs w !! CFG_PATH h = None ->
      py_stat_error h (CFG_PATH h) = Some e ->
      _load_cfg h w = (Raise e, w)).
Proof.
  repeat split.
  - intros w w1 data Hread.
    destruct (read_json_ret_inv _ _ _ _ Hread) as [-> Hex].
    rewrite (_load_cfg_present w Hex), Hread.
    destruct data; reflexivity.
  - intros dst src q v. apply deep_merge_leaf.
  - intros dst src m p k rest. apply deep_merge_sibling.
  - intros w Hf Hstat Hwr. rewrite (_load_cfg_missing w Hf), Hstat, Hwr. reflexivity.
  - intros w w1 e Hex Hread. rewrite (_load_cfg_present w Hex), Hread. reflexivity.
  - intros w w1 j Hread Hj.
    destruct (read_json_ret_inv _ _ _ _ Hread) as [-> Hex].
    rewrite (_load_cfg_present w Hex), Hread.
    destruct j as [ |[]|z|[]|[]|m]; try reflexivity; try discriminate.
    unfold py_or. cbn [truthy]. destruct (negb (z =? 0)%Z); reflexivity.
  - intros w Hex. rewrite (_load_cfg_present w Hex).
    destruct (read_json h (CFG_PATH h) w) as [[data|e] w1]; [|eauto].
    destruct (deep_merge_py _ _); eauto.
  - intros w e left Hf Hstat Hwr. rewrite (_load_cfg_missing w Hf), Hstat, Hwr.
    destruct left; eauto.
  - intros w e Hf Hstat. rewrite (_load_cfg_missing w Hf), Hstat. reflexivity.
Qed.

(** C9 (as amended). [get_profile] returns the caller's profile name
    whenever one is given (a non-empty string, known or not); without one
    it returns the "profile" entry of the configuration, "headless" if
    there is none; the environment descriptor has no influence. *)
Theorem C9_profile_from_caller_or_config :
  (forall (env : EnvironmentDescriptor) (c : N) (name : pystr) (cfg : dict),
      get_profile env (opt_str (Some (c :: name))) cfg = JStr (c :: name)) /\
  (forall (env : EnvironmentDescriptor) (cfg : dict),
      get_profile env (opt_str None) cfg =
      default (JStr (u "headless")) (dict_get cfg (u "profile"))) /\
  (forall (env1 env2 : EnvironmentDescriptor) (override : json) (cfg : dict),
      get_profile env1 override cfg = get_profile env2 override cfg).
Proof. repeat split. Qed.

Lemma scan_lines_empty_policy (lines : list pystr) :
  forall i, scan_lines h lines i (mkPolicy [] []) = Ret [].
Proof.
  induction lines as [|L lines IH]; intros i; [reflexivity|].
  cbn. rewrite IH. reflexivity.
Qed.

(** C10. A profile name that the policy_overrides table of the
    configuration does not hold is kept as the profile of the request and
    resolves to the policy with no blocked imports and no blocked calls:
    preflight finds nothing in any source text, the wrapper's finder raises
    for no module, and [os.system] is not replaced. *)
Theorem C10_unknown_profile_blocks_nothing (cfg tbl : dict) (c : N) (name : pystr) :
  default (JObj []) (dict_get cfg (u "policy_overrides")) = JObj tbl ->
  dict_get tbl (c :: name) = None ->
  (forall env, get_profile env (opt_str (Some (c :: name))) cfg = JStr (c :: name)) /\
  _policy_for_profile (JStr (c :: name)) cfg = Ret (mkPolicy [] []) /\
  (forall code, preflight_check h code (mkPolicy [] []) = Ret []) /\
  (forall path fullname,
      find_spec (_wrapper_source path (mkPolicy [] [])) fullname = Ret tt) /\
  (forall path, os_system_replaced (_wrapper_source path (mkPolicy [] [])) = false).
Proof.
  intros Htbl Hname. repeat split.
  - unfold _policy_for_profile. rewrite Htbl. cbn. rewrite Hname. reflexivity.
  - intros code. apply scan_lines_empty_policy.
Qed.


End Claims.

(** ** The claims on concrete requests *)

(** Whatever [_execute_user_code] does, it starts exactly one child, and
    with no [preexec_fn]: the child's resource limits are not touched. *)
Lemma _execute_user_code_no_preexec (h : Host) (code_path : pystr)
  (policy : SecurityPolicy) (timeout : Z) (w w' : World)
  (o : outcome (Z * pystr * pystr * Z)) :
  _execute_user_code h code_path policy timeout w = (o, w') ->
  exists sp, spawned w' = spawned w ++ [sp] /\
             sp_preexec sp = None /\ child_limits sp = no_limits.
Proof.
  unfold _execute_user_code, try_finally, try_except_timeout.
  rewrite !bind_eq.
  cbv beta iota zeta delta [uuid4_hex write_wrapper time_time unlink with_fs
                            subprocess_run popen communicate
                            mbind M_bind mret M_ret advance
                            fs spawned log bus collab uuids clock].
  destruct (h_spawn_error h _) as [e|].
  - destruct (exc_class_of e); intros H; injection H as _ <-;
      eexists; (split; [reflexivity|split; reflexivity]).
  - destruct (exceeds _ timeout); cbv beta iota; intros H; injection H as _ <-;
      eexists; (split; [reflexivity|split; reflexivity]).
Qed.

(** C1 as the specification words it does not hold: "import os, socket"
    imports the blocked module socket, yet under the default (headless)
    policy the snippet passes preflight and a child process is started; on
    this host the import is stopped by the finder of the wrapper, in the
    child, and the message that comes back names no line. *)
Lemma C1_multi_import_counterexample :
  let host := linux_host (importing_program [u "os"; u "socket"]) in
  let code := u "import os, socket" in
  exists cfg meta prof policy w1 r w',
    snippet_request host code None None empty_world
      = (Ret (cfg, meta, prof, policy), w1) /\
    In (JStr (u "socket")) (blocked_imports policy) /\
    preflight_check host code policy = Ret [] /\
    run_snippet host code None None empty_world = (Ret r, w') /\
    length (spawned w') = 1%nat /\
    r_stderr r = u "SandboxViolation: blocked import 'socket'" ++ [10] /\
    ~ contains (r_stderr r) (import_violation (u "socket") 1).
Proof.
  cbv zeta. do 7 eexists.
  split; [vm_compute; reflexivity|].
  split; [vm_compute; tauto|].
  split; [vm_compute; reflexivity|].
  split; [vm_compute; reflexivity|].
  split; [reflexivity|].
  split; [reflexivity|].
  intros Hc. apply contains_is_infix in Hc. vm_compute in Hc. discriminate.
Qed.

Lemma C1_import_line_rejected_witness :
  let host := linux_host hello_program in
  let code := u "x = 1" ++ [10] ++ u "import socket" in
  exists r w',
    run_snippet host code None None empty_world = (Ret r, w') /\
    r_ok r = false /\
    r_returncode r = 2%Z /\
    contains (r_stderr r) (import_violation (u "socket") 2) /\
    spawned w' = spawned empty_world.
Proof.
  cbv zeta.
  eapply (C1_import_line_rejected (linux_host hello_program)
            (u "x = 1" ++ [10] ++ u "import socket") None None empty_world
            _ _ _ _ _ 1 (u "socket") [] (u "import") (u " ") []).
  - vm_compute. reflexivity.
  - vm_compute. reflexivity.
  - vm_compute. reflexivity.
  - vm_compute. tauto.
  - vm_compute. reflexivity.
  - left. reflexivity.
  - discriminate.
  - vm_compute. reflexivity.
  - vm_compute. reflexivity.
  - vm_compute. reflexivity.
Defined.


(** C2, at a snippet that allocates without bound: the only child that
    [run_snippet] starts has no [preexec_fn], so neither RLIMIT_AS nor
    RLIMIT_CPU is set, and the child ends only when the kernel kills it; the
    fallback runner of gpt_chat_v3.py starts the child of the same text
    under 256 MiB and 30 s, where the allocation fails at once. *)
Theorem C2_sandbox_child_has_no_ceilings :
  let host := linux_host allocating_program in
  let code := u "x = bytearray(10 ** 11)" in
  let script := u "/opt/halbridge/scripts/big.py" in
  let stored := with_fs (insert script (FText code)) empty_world in
  exists r w' sp s w2 sp2,
    run_snippet host code None None empty_world = (Ret r, w') /\
    spawned w' = [sp] /\
    child_limits sp = no_limits /\
    run_python_script_capture host [u "python3"; script] (u "/opt/halbridge/scripts")
      (u "job-1") (u "/home/hal/.local/share/halbridge/jobs/job-1") stored
      = (Ret s, w2) /\
    spawned w2 = [sp2] /\
    child_limits sp2 = mkLimits (Some 268435456%Z) (Some 30%Z) /\
    r_returncode r = (-9)%Z /\
    s_msg s = u "[PY] Exit=1, job=job-1, cwd=/opt/halbridge/scripts".
Proof.
  cbv zeta. do 6 eexists.
  split; [vm_compute; reflexivity|].
  split; [reflexivity|].
  split; [reflexivity|].
  split; [vm_compute; reflexivity|].
  repeat split.
Qed.

(** C3, at a snippet that prints and then loops: the result has return
    code 124 and the Timeout marker, but stdout is empty and stderr holds
    the marker only, although the child had written "tick"; the fallback
    runner of gpt_chat_v3.py returns that output after its timeout. *)
Theorem C3_timeout_drops_partial_output :
  let host := linux_host looping_program in
  let code := u "print('tick')" ++ [10] ++ u "while True: pass" in
  let script := u "/opt/halbridge/scripts/loop.py" in
  let stored := with_fs (insert script (FText code)) empty_world in
  exists r w' s w2,
    run_snippet host code None None empty_world = (Ret r, w') /\
    r_returncode r = 124%Z /\
    r_stderr r = u "Timeout after 8s" /\
    r_stdout r = [] /\
    is_infix (u "tick") (r_stdout r ++ r_stderr r) = false /\
    run_python_script_capture host [u "python3"; script] (u "/opt/halbridge/scripts")
      (u "job-1") (u "/home/hal/.local/share/halbridge/jobs/job-1") stored
      = (Ret s, w2) /\
    s_stdout s = u "tick" ++ [10].
Proof.
  cbv zeta. do 4 eexists.
  split; [vm_compute; reflexivity|].
  do 4 (split; [reflexivity|]).
  split; [vm_compute; reflexivity|].
  reflexivity.
Qed.



Lemma C5_ok_iff_rc0_and_no_violations_witness :
  let host := linux_host hello_program in
  (exists policy r w',
     run_snippet host (u "print('hello')") None None empty_world = (Ret r, w') /\
     exists findings,
       preflight_check host (u "print('hello')") policy = Ret findings /\
       (r_ok r = true <-> r_returncode r = 0%Z /\ findings = [])) /\
  (exists r w' findings,
     run_file host (u "/srv/hal/missing.py") None empty_world = (Ret r, w') /\
     (r_ok r = true <-> r_returncode r = 0%Z /\ findings = @nil pystr)).
Proof.
  cbv zeta. split.
  - do 3 eexists. split; [vm_compute; reflexivity|].
    eapply (proj1 (C5_ok_iff_rc0_and_no_violations (linux_host hello_program))
              (u "print('hello')") None None empty_world).
    + vm_compute. reflexivity.
    + vm_compute. reflexivity.
  - destruct (proj2 (C5_ok_iff_rc0_and_no_violations (linux_host hello_program))
                (u "/srv/hal/missing.py") None empty_world _ _ eq_refl)
      as (cfg & w1 & policy & p & findings & _ & _ & _ & _ & Hiff).
    eexists _, _, findings. split; [vm_compute; reflexivity|exact Hiff].
Defined.

(** C6, at a snippet holding a lone surrogate (a well-formed [str]):
    writing the copy of the snippet creates the file and then fails to
    encode the text, before the try/finally that would remove it; the
    exception reaches the caller and the file stays in TMP_DIR. *)
Theorem C6_snippet_copy_left_behind :
  let host := linux_host hello_program in
  let code := u "x = '" ++ [55296] ++ u "'" in
  let code_path := TMP_DIR host ++ u "/user_" ++ py_uuid4_hex host 0 ++ u ".py" in
  exists w',
    run_snippet host code None None empty_world = (Raise UnicodeEncodeError, w') /\
    fs empty_world !! code_path = None /\
    fs w' !! code_path = Some (FText []).
Proof.
  cbv zeta. eexists.
  split; [vm_compute; reflexivity|].
  split; vm_compute; reflexivity.
Qed.



Lemma C8_config_loading_witness :
  let host := linux_host hello_program in
  let override :=
    [(u "policy_overrides",
      JObj [(u "headless", JObj [(u "blocked_calls", JArr [])])])] in
  let stored := with_fs (insert (CFG_PATH host) (FJson (JObj override))) empty_world in
  let broken := with_fs (insert (CFG_PATH host) (FText (u "{not json"))) empty_world in
  _load_cfg host stored = (Ret (deep_merge DEFAULT_CFG override), stored) /\
  get_path (deep_merge DEFAULT_CFG override)
    [u "policy_overrides"; u "headless"; u "blocked_calls"] = Some (JArr []) /\
  get_path (deep_merge DEFAULT_CFG override)
    ([u "policy_overrides"; u "headless"] ++ [u "blocked_imports"])
    = get_path DEFAULT_CFG ([u "policy_overrides"; u "headless"] ++ [u "blocked_imports"]) /\
  _load_cfg host empty_world =
    (Ret DEFAULT_CFG,
     with_fs (insert (CFG_PATH host) (FJson (JObj DEFAULT_CFG))) empty_world) /\
  _load_cfg host broken = (Ret DEFAULT_CFG, broken) /\
  (exists e w',
     _load_cfg (read_only_config host) empty_world = (Raise e, w') /\
     exc_name e = u "PermissionError").
Proof.
  cbv zeta.
  destruct (C8_config_loading (linux_host hello_program))
    as (Hmerge & Hleaf & Hsibling & Hmissing & Hbroken & _).
  destruct (C8_config_loading (read_only_config (linux_host hello_program)))
    as (_ & _ & _ & _ & _ & _ & _ & Hwrite & _).
  split; [|split; [|split; [|split; [|split]]]].
  - eapply Hmerge. vm_compute. reflexivity.
  - apply Hleaf.
    + vm_compute. reflexivity.
    + discriminate.
    + vm_compute. reflexivity.
    + reflexivity.
  - eapply Hsibling.
    + vm_compute. reflexivity.
    + vm_compute. reflexivity.
    + vm_compute. reflexivity.
  - apply Hmissing; vm_compute; reflexivity.
  - eapply Hbroken.
    + vm_compute. eexists. reflexivity.
    + vm_compute. reflexivity.
  - edestruct (Hwrite empty_world) as (w' & Hrun);
      [vm_compute; reflexivity|vm_compute; reflexivity|reflexivity|].
    eexists. exists w'. split; [exact Hrun|reflexivity].
Defined.

(** C9 as the specification words it does not hold: with no profile
    given, a host reached over SSH and the same host used locally resolve
    to the same profile, so the former's policy is not stricter than the
    latter's. *)
Lemma C9_environment_ignored_counterexample :
  let remote := detect_environment (over_ssh (linux_host hello_program)) in
  let local := detect_environment (linux_host hello_program) in
  env_is_ssh remote = true /\
  env_is_ssh local = false /\
  get_profile remote (opt_str None) DEFAULT_CFG = JStr (u "headless") /\
  get_profile local (opt_str None) DEFAULT_CFG = JStr (u "headless") /\
  stricter_than (policy_of (get_profile remote (opt_str None) DEFAULT_CFG) DEFAULT_CFG)
                (policy_of (get_profile local (opt_str None) DEFAULT_CFG) DEFAULT_CFG)
    = false.
Proof. cbv zeta. repeat split; vm_compute; reflexivity. Qed.

Lemma C10_unknown_profile_blocks_nothing_witness :
  let host := linux_host hello_program in
  (forall env, get_profile env (opt_str (Some (u "headles"))) DEFAULT_CFG
               = JStr (u "headles")) /\
  _policy_for_profile (JStr (u "headles")) DEFAULT_CFG = Ret (mkPolicy [] []) /\
  (forall code, preflight_check host code (mkPolicy [] []) = Ret []) /\
  (forall path fullname,
      find_spec (_wrapper_source path (mkPolicy [] [])) fullname = Ret tt) /\
  (forall path, os_system_replaced (_wrapper_source path (mkPolicy [] [])) = false).
Proof.
  cbv zeta.
  eapply (C10_unknown_profile_blocks_nothing (linux_host hello_program) DEFAULT_CFG
            _ 104 (u "eadles")).
  - vm_compute. reflexivity.
  - vm_compute. reflexivity.
Defined.

(** * Further properties of the code *)

(** ** The scanner, exactly *)

Lemma strip_prefix_Some (p s rest : pystr) :
  strip_prefix p s = Some rest -> s = p ++ rest.
Proof.
  revert s. induction p as [|a p IH]; intros s H; simpl in H.
  - injection H as ->. reflexivity.
  - destruct s as [|b s]; [discriminate|].
    destruct (N.eqb_spec a b) as [->|]; [|discriminate].
    simpl. f_equal. apply IH, H.
Qed.

Lemma search_from_inv (pat : option N -> pystr -> bool) (s : pystr) :
  forall prev,
    search_from pat prev s = true ->
    exists pre rest, s = pre ++ rest /\ pat (last_after prev pre) rest = true.
Proof.
  induction s as [|c s IH]; intros prev H; simpl in H.
  - rewrite orb_false_r in H. exists [], []. split; [reflexivity|exact H].
  - apply orb_true_iff in H as [H|H].
    + exists [], (c :: s). split; [reflexivity|exact H].
    + destruct (IH _ H) as (pre & rest & -> & Hp).
      exists (c :: pre), rest. split; [reflexivity|exact Hp].
Qed.

Lemma last_after_nonempty (ws : pystr) (p q : option N) :
  ws <> [] -> last_after p ws = last_after q ws.
Proof.
  destruct ws as [|c ws]; [congruence|]. intros _. reflexivity.
Qed.

Section ScannerExact.

Variable h : Host.

Lemma spaces_then_literal_inv (m : pystr) (s : pystr) :
  spaces_then_literal h m s = true ->
  exists ws post,
    s = ws ++ m ++ post /\ ws <> [] /\ forallb is_space ws = true /\
    at_boundary h (last_after (last_after None ws) m) post = true.
Proof.
  induction s as [|c s IH]; intros H; simpl in H; [discriminate|].
  apply andb_true_iff in H as [Hc H].
  apply orb_true_iff in H as [H|H].
  - unfold literal_then_boundary in H.
    destruct (strip_prefix m s) as [post|] eqn:E; [|discriminate].
    apply strip_prefix_Some in E as ->.
    exists [c], post. repeat split; [discriminate|simpl; rewrite Hc; reflexivity|exact H].
  - destruct (IH H) as (ws & post & -> & Hne & Hsp & Hb).
    exists (c :: ws), post. repeat split.
    + discriminate.
    + simpl. rewrite Hc. exact Hsp.
    + change (last_after None (c :: ws)) with (last_after (Some c) ws).
      rewrite (last_after_nonempty ws (Some c) None Hne). exact Hb.
Qed.

(** X1. The pattern for a blocked import, [\b(import|from)\s+m\b], is found in
    a line exactly when the line reads [pre], then the keyword import or
    from, then a non-empty run of white space, then [m], then [post], with a
    word boundary before the keyword and another after [m]. *)
Theorem import_pattern_exact (m L : pystr) :
  re_search (import_at h m) L = true <->
  exists pre kw ws post,
    L = pre ++ kw ++ ws ++ m ++ post /\
    (kw = u "import" \/ kw = u "from") /\
    ws <> [] /\
    forallb is_space ws = true /\
    at_boundary h (last_after None pre) (kw ++ ws ++ m ++ post) = true /\
    at_boundary h (last_after (last_after None ws) m) post = true.
Proof.
  split.
  - intros H. apply search_from_inv in H as (pre & rest & -> & H).
    unfold import_at in H. apply andb_true_iff in H as [Hb H].
    assert (Hk : exists kw, (kw = u "import" \/ kw = u "from") /\
                            keyword_then h kw m rest = true).
    { apply orb_true_iff in H as [H|H]; eexists; (split; [|exact H]); auto. }
    destruct Hk as (kw & Hkw & Hk). unfold keyword_then in Hk.
    destruct (strip_prefix kw rest) as [r|] eqn:E; [|discriminate].
    apply strip_prefix_Some in E as ->.
    apply spaces_then_literal_inv in Hk as (ws & post & -> & Hne & Hsp & Hb2).
    exists pre, kw, ws, post. repeat split; assumption.
  - intros (pre & kw & ws & post & -> & Hkw & Hne & Hsp & Hb1 & Hb2).
    apply import_pattern_complete; assumption.
Qed.

Lemma spaces_then_paren_inv (s : pystr) :
  spaces_then_paren s = true ->
  exists ws post, s = ws ++ [40] ++ post /\ forallb is_space ws = true.
Proof.
  induction s as [|c s IH]; intros H; simpl in H; [discriminate|].
  apply orb_true_iff in H as [H|H].
  - apply N.eqb_eq in H as ->. exists [], s. split; reflexivity.
  - apply andb_true_iff in H as [Hc H].
    destruct (IH H) as (ws & post & -> & Hsp).
    exists (c :: ws), post. split; [reflexivity|]. simpl. rewrite Hc. exact Hsp.
Qed.

Lemma spaces_then_paren_app (ws post : pystr) :
  forallb is_space ws = true -> spaces_then_paren (ws ++ [40] ++ post) = true.
Proof.
  induction ws as [|c ws IH]; intros H; simpl in *.
  - reflexivity.
  - apply andb_true_iff in H as [Hc H]. rewrite Hc, (IH H). apply orb_true_r.
Qed.

(** X2. The pattern for a blocked call, [c\s*\(], is found in a line exactly
    when the line holds [c], then a run of white space (possibly none), then
    an opening parenthesis, wherever in the line that is. *)
Theorem call_pattern_exact (c L : pystr) :
  re_search (call_at c) L = true <->
  exists pre ws post,
    L = pre ++ c ++ ws ++ [40] ++ post /\ forallb is_space ws = true.
Proof.
  split.
  - intros H. apply search_from_inv in H as (pre & rest & -> & H).
    unfold call_at in H.
    destruct (strip_prefix c rest) as [r|] eqn:E; [|discriminate].
    apply strip_prefix_Some in E as ->.
    apply spaces_then_paren_inv in H as (ws & post & -> & Hsp).
    exists pre, ws, post. split; [reflexivity|exact Hsp].
  - intros (pre & ws & post & -> & Hsp).
    unfold re_search. apply search_from_app. unfold call_at.
    rewrite strip_prefix_app. apply spaces_then_paren_app, Hsp.
Qed.

Lemma scan_imports_exact (L : pystr) (i : nat) (ms : list json) :
  forallb is_str ms = true ->
  exists l, scan_imports h L i ms = Ret l /\
    forall msg, In msg l <->
      exists m, In (JStr m) ms /\ re_search (import_at h m) L = true /\
                msg = import_violation m i.
Proof.
  induction ms as [|v ms IH]; intros Hs.
  - exists []. split; [reflexivity|]. intros msg. split; [intros []|intros (m & [] & _)].
  - simpl in Hs. apply andb_true_iff in Hs as [Hv Hms].
    destruct (IH Hms) as (l & Hl & Hin).
    destruct v as [ | | |s| | ]; try discriminate.
    cbn. rewrite Hl. cbn. eexists. split; [reflexivity|].
    intros msg. destruct (re_search (import_at h s) L) eqn:Hre.
    + split.
      * intros [<-|Hm]; [exists s; auto|].
        apply Hin in Hm as (m & Hm & Hr & ->). exists m. auto.
      * intros (m & [Heq|Hm] & Hr & ->).
        -- injection Heq as ->. left. reflexivity.
        -- right. apply Hin. exists m. auto.
    + rewrite Hin. split.
      * intros (m & Hm & Hr & ->). exists m. auto.
      * intros (m & [Heq|Hm] & Hr & ->); [injection Heq as ->; congruence|].
        exists m. auto.
Qed.

Lemma scan_calls_exact (L : pystr) (i : nat) (cs : list json) :
  forallb is_str cs = true ->
  exists l, scan_calls L i cs = Ret l /\
    forall msg, In msg l <->
      exists c, In (JStr c) cs /\ re_search (call_at c) L = true /\
                msg = call_violation c i.
Proof.
  induction cs as [|v cs IH]; intros Hs.
  - exists []. split; [reflexivity|]. intros msg. split; [intros []|intros (m & [] & _)].
  - simpl in Hs. apply andb_true_iff in Hs as [Hv Hcs].
    destruct (IH Hcs) as (l & Hl & Hin).
    destruct v as [ | | |s| | ]; try discriminate.
    cbn. rewrite Hl. cbn. eexists. split; [reflexivity|].
    intros msg. destruct (re_search (call_at s) L) eqn:Hre.
    + split.
      * intros [<-|Hm]; [exists s; auto|].
        apply Hin in Hm as (m & Hm & Hr & ->). exists m. auto.
      * intros (m & [Heq|Hm] & Hr & ->).
        -- injection Heq as ->. left. reflexivity.
        -- right. apply Hin. exists m. auto.
    + rewrite Hin. split.
      * intros (m & Hm & Hr & ->). exists m. auto.
      * intros (m & [Heq|Hm] & Hr & ->); [injection Heq as ->; congruence|].
        exists m. auto.
Qed.

Lemma scan_lines_exact (lines : list pystr) (policy : SecurityPolicy) :
  forallb is_str (blocked_imports policy) = true ->
  forallb is_str (blocked_calls policy) = true ->
  forall i, exists l, scan_lines h lines (S i) policy = Ret l /\
    forall msg, In msg l <->
      exists n L, nth_error lines n = Some L /\ finding_of h policy (i + n) L msg.
Proof.
  intros Hi Hc. induction lines as [|L0 lines IH]; intros i.
  - exists []. split; [reflexivity|]. intros msg.
    split; [intros []|intros ([|n] & L & Hn & _); discriminate].
  - destruct (scan_imports_exact L0 (S i) _ Hi) as (a & Ha & Hina).
    destruct (scan_calls_exact L0 (S i) _ Hc) as (b & Hb & Hinb).
    destruct (IH (S i)) as (c & Hcl & Hinc).
    cbn. rewrite Ha. cbn. rewrite Hb. cbn. rewrite Hcl. cbn.
    eexists. split; [reflexivity|].
    intros msg. rewrite !in_app_iff, Hina, Hinb, Hinc. split.
    + intros [Him|[Hca|(n & L & Hn & Hf)]].
      * exists 0%nat, L0. split; [reflexivity|]. rewrite Nat.add_0_r. left. exact Him.
      * exists 0%nat, L0. split; [reflexivity|]. rewrite Nat.add_0_r. right. exact Hca.
      * exists (S n), L. split; [exact Hn|].
        replace (i + S n)%nat with (S i + n)%nat by lia. exact Hf.
    + intros ([|n] & L & Hn & Hf).
      * injection Hn as ->. rewrite Nat.add_0_r in Hf. destruct Hf; auto.
      * right. right. exists n, L. split; [exact Hn|].
        replace (S i + n)%nat with (i + S n)%nat by lia. exact Hf.
Qed.

(** X3. For a policy whose entries are strings [preflight_check] returns, and
    its findings are exactly the violations of [finding_of]: one for each
    line [n+1] and each blocked import or call whose pattern is found in
    that line. *)
Theorem preflight_findings_exact (code : pystr) (policy : SecurityPolicy) :
  forallb is_str (blocked_imports policy) = true ->
  forallb is_str (blocked_calls policy) = true ->
  exists findings,
    preflight_check h code policy = Ret findings /\
    forall msg, In msg findings <->
      exists n L, nth_error (splitlines code) n = Some L /\ finding_of h policy n L msg.
Proof.
  intros Hi Hc. destruct (scan_lines_exact (splitlines code) policy Hi Hc 0) as (l & Hl & Hin).
  exists l. split; [exact Hl|exact Hin].
Qed.

Lemma splitlines_from_nonempty (s : pystr) :
  forall cur, cur <> [] -> splitlines_from cur s <> [].
Proof.
  induction s as [|c s IH]; intros cur Hne; simpl.
  - destruct cur; [congruence|discriminate].
  - destruct (is_linebreak c); [discriminate|]. apply IH. discriminate.
Qed.

Lemma splitlines_nil (s : pystr) : splitlines s = [] <-> s = [].
Proof.
  split; [|intros ->; reflexivity].
  destruct s as [|c s]; [reflexivity|]. unfold splitlines. simpl.
  destruct (is_linebreak c); [discriminate|].
  intros H. exfalso. revert H. apply splitlines_from_nonempty. discriminate.
Qed.

Lemma scan_imports_raises (L : pystr) (i : nat) (ms : list json) :
  forallb is_str ms = false ->
  exists e, scan_imports h L i ms = Raise e /\ exc_name e = u "TypeError".
Proof.
  induction ms as [|v ms IH]; intros Hs; [discriminate|].
  simpl in Hs. destruct v as [ | | |s| | ]; try (eexists; split; reflexivity).
  destruct (IH Hs) as (e & He & Hn). cbn. rewrite He. exists e. split; [reflexivity|exact Hn].
Qed.

Lemma scan_calls_raises (L : pystr) (i : nat) (cs : list json) :
  forallb is_str cs = false ->
  exists e, scan_calls L i cs = Raise e /\ exc_name e = u "TypeError".
Proof.
  induction cs as [|v cs IH]; intros Hs; [discriminate|].
  simpl in Hs. destruct v as [ | | |s| | ]; try (eexists; split; reflexivity).
  destruct (IH Hs) as (e & He & Hn). cbn. rewrite He. exists e. split; [reflexivity|exact Hn].
Qed.

End ScannerExact.

(** ** The environment: what is detected, what the child gets *)

Lemma passes_not_unbuffered (k : pystr) :
  passes_to_child k -> k <> u "PYTHONUNBUFFERED".
Proof.
  intros [->|[->|[->|[r Hr]]]]; try discriminate.
  intros ->. vm_compute in Hr. discriminate.
Qed.

Section EnvironmentFacts.

Variable h : Host.

Lemma _minimal_env_lookup (k v : pystr) :
  _minimal_env h !! k = Some v <->
  (k = u "PYTHONUNBUFFERED" /\ v = u "1") \/
  (passes_to_child k /\ h_environ h !! k = Some v).
Proof.
  unfold _minimal_env. destruct (decide (k = u "PYTHONUNBUFFERED")) as [->|Hne].
  - rewrite lookup_insert_eq. split.
    + intros [= <-]. left. split; reflexivity.
    + intros [[_ ->]|[Hp _]]; [reflexivity|].
      apply passes_not_unbuffered in Hp. contradiction.
  - rewrite lookup_insert_ne by (intros Heq; apply Hne; symmetry; exact Heq).
    rewrite map_lookup_filter_Some. cbn [fst]. split.
    + intros [Hl Hp]. right. split; assumption.
    + intros [[-> _]|[Hp Hl]]; [contradiction|]. split; assumption.
Qed.

Lemma environ_get_truthy (k : string) :
  truthy (environ_get h k) = true <->
  exists v, h_environ h !! u k = Some v /\ v <> [].
Proof.
  unfold environ_get. destruct (h_environ h !! u k) as [v|]; cbn.
  - destruct v; split; try discriminate.
    + intros (v & [= <-] & Hn). contradiction.
    + intros _. eexists. split; [reflexivity|discriminate].
    + reflexivity.
  - split; [discriminate|]. intros (v & Hv & _). discriminate.
Qed.

Lemma py_or_truthy (a b : json) :
  truthy (py_or a b) = truthy a || truthy b.
Proof. unfold py_or. destruct (truthy a) eqn:Ha; [rewrite Ha|]; reflexivity. Qed.

(** X5. In the descriptor of [detect_environment], has_gui holds exactly when
    display is not empty, which is when DISPLAY or WAYLAND_DISPLAY has a
    non-empty value; a non-empty DISPLAY is the display, and WAYLAND_DISPLAY
    is when DISPLAY is unset or empty; is_ssh holds exactly when
    SSH_CONNECTION or SSH_CLIENT has a non-empty value; and is_tty is False
    when [isatty] raises. *)
Theorem detect_environment_consistent :
  let e := detect_environment h in
  (env_has_gui e = true <-> env_display e <> []) /\
  (env_has_gui e = true <->
     exists k v, (k = u "DISPLAY" \/ k = u "WAYLAND_DISPLAY") /\
                 h_environ h !! k = Some v /\ v <> []) /\
  (forall d, h_environ h !! u "DISPLAY" = Some d -> d <> [] -> env_display e = d) /\
  (forall d, default [] (h_environ h !! u "DISPLAY") = [] ->
             h_environ h !! u "WAYLAND_DISPLAY" = Some d -> env_display e = d) /\
  (env_is_ssh e = true <->
     exists k v, (k = u "SSH_CONNECTION" \/ k = u "SSH_CLIENT") /\
                 h_environ h !! k = Some v /\ v <> []) /\
  (h_isatty h = None -> env_is_tty e = false).
Proof.
  cbv zeta. unfold detect_environment. cbn [env_has_gui env_display env_is_ssh env_is_tty].
  split; [|split; [|split; [|split; [|split]]]].
  - unfold py_or, environ_get.
    destruct (h_environ h !! u "DISPLAY") as [[|c d]|];
      destruct (h_environ h !! u "WAYLAND_DISPLAY") as [[|c' d']|]; cbn;
      split; congruence.
  - rewrite py_or_truthy, orb_true_iff, !environ_get_truthy. split.
    + intros [(v & Hv & Hn)|(v & Hv & Hn)]; eexists _, v; eauto.
    + intros (k & v & [->| ->] & Hv & Hn); [left|right]; eauto.
  - intros d Hd Hn. unfold py_or, environ_get. rewrite Hd.
    destruct d; [contradiction|]. reflexivity.
  - intros d Hd Hw. unfold py_or, environ_get. rewrite Hw.
    destruct (h_environ h !! u "DISPLAY") as [[|c x]|]; cbn in Hd; try discriminate;
      destruct d; reflexivity.
  - rewrite py_or_truthy, orb_true_iff, !environ_get_truthy. split.
    + intros [(v & Hv & Hn)|(v & Hv & Hn)]; eexists _, v; eauto.
    + intros (k & v & [->| ->] & Hv & Hn); [left|right]; eauto.
  - intros ->. reflexivity.
Qed.

End EnvironmentFacts.

(** ** The configuration: what a merge keeps *)

Lemma dict_set_keys_prefix (d : dict) (k : pystr) (v : json) :
  exists extra, map fst (dict_set d k v) = map fst d ++ extra.
Proof.
  induction d as [|[k' v'] d IH]; cbn.
  - exists [k]. reflexivity.
  - destruct (decide (k' = k)) as [->|Hne]; cbn.
    + exists []. rewrite app_nil_r. reflexivity.
    + destruct IH as [e He]. exists e. rewrite He. reflexivity.
Qed.

Lemma dict_set_keys_In (d : dict) (k : pystr) (v : json) (x : pystr) :
  In x (map fst (dict_set d k v)) <-> In x (map fst d) \/ x = k.
Proof.
  induction d as [|[k' v'] d IH]; cbn.
  - intuition congruence.
  - destruct (decide (k' = k)) as [->|Hne]; cbn.
    + intuition congruence.
    + rewrite IH. intuition congruence.
Qed.

Lemma dict_set_keys_NoDup (d : dict) (k : pystr) (v : json) :
  NoDup (map fst d) -> NoDup (map fst (dict_set d k v)).
Proof.
  induction d as [|[k' v'] d IH]; cbn; intros Hnd.
  - apply NoDup_singleton.
  - apply NoDup_cons in Hnd as [Hnin Hnd].
    destruct (decide (k' = k)) as [->|Hne]; cbn.
    + apply NoDup_cons. split; assumption.
    + apply NoDup_cons. split; [|apply IH, Hnd].
      rewrite list_elem_of_In, dict_set_keys_In. rewrite list_elem_of_In in Hnin.
      intros [H|H]; [contradiction|]. apply Hne. exact H.
Qed.

Lemma dict_get_is_Some (d : dict) (k : pystr) :
  is_Some (dict_get d k) <-> In k (map fst d).
Proof.
  induction d as [|[k' v'] d IH]; cbn.
  - split; [intros [x Hx]; discriminate|intros []].
  - destruct (decide (k' = k)) as [->|Hne].
    + split; [intros _; left; reflexivity|intros _; eexists; reflexivity].
    + rewrite IH. split; [intros H; right; exact H|].
      intros [Heq|H]; [contradiction|exact H].
Qed.

Lemma deep_merge_keys_In (src : dict) :
  forall (dst : dict) (x : pystr),
    In x (map fst (deep_merge dst src)) <-> In x (map fst dst) \/ In x (map fst src).
Proof.
  induction src as [|[k v] src IH]; intros dst x.
  - rewrite deep_merge_nil. cbn. tauto.
  - rewrite deep_merge_cons, IH, dict_set_keys_In. cbn. intuition congruence.
Qed.

Lemma deep_merge_keys_NoDup (src : dict) :
  forall dst : dict, NoDup (map fst dst) -> NoDup (map fst (deep_merge dst src)).
Proof.
  induction src as [|[k v] src IH]; intros dst Hnd.
  - rewrite deep_merge_nil. exact Hnd.
  - rewrite deep_merge_cons. apply IH, dict_set_keys_NoDup, Hnd.
Qed.

Lemma deep_merge_keys_prefix (src : dict) :
  forall dst : dict, exists extra, map fst (deep_merge dst src) = map fst dst ++ extra.
Proof.
  induction src as [|[k v] src IH]; intros dst.
  - rewrite deep_merge_nil. exists []. rewrite app_nil_r. reflexivity.
  - rewrite deep_merge_cons.
    destruct (IH (dict_set dst k (merged_value (dict_get dst k) v))) as [e1 He1].
    destruct (dict_set_keys_prefix dst k (merged_value (dict_get dst k) v)) as [e2 He2].
    exists (e2 ++ e1). rewrite He1, He2, app_assoc. reflexivity.
Qed.

Section ConfigFacts.

Variable h : Host.

Lemma _load_cfg_cases (w w' : World) (cfg : dict) :
  _load_cfg h w = (Ret cfg, w') ->
  cfg = DEFAULT_CFG \/ exists data, cfg = deep_merge DEFAULT_CFG data.
Proof.
  destruct (fs w !! CFG_PATH h) as [f|] eqn:Hf.
  - rewrite _load_cfg_present by (rewrite Hf; eexists; reflexivity).
    destruct (read_json h (CFG_PATH h) w) as [[data|e] w1].
    + unfold deep_merge_py.
      destruct (py_or data (JObj [])) as [| | | | |m]; intros [= <- _];
        try (left; reflexivity).
      right. eexists. reflexivity.
    + intros [= <- _]. left. reflexivity.
  - rewrite (_load_cfg_missing h w Hf).
    destruct (py_stat_error h (CFG_PATH h)); [discriminate|].
    destruct (h_cfg_write_error h) as [[e [f|]]|]; try discriminate.
    intros [= <- _]. left. reflexivity.
Qed.

End ConfigFacts.

Lemma wf_json_obj_iff (m : dict) :
  wf_json (JObj m) = true <->
  NoDup (map fst m) /\ Forall (fun kv => wf_json (snd kv) = true) m.
Proof.
  cbn [wf_json]. rewrite andb_true_iff, bool_decide_eq_true.
  apply and_iff_compat_l.
  induction m as [|[k v] m IH].
  - split; [constructor|reflexivity].
  - rewrite andb_true_iff, IH. split.
    + intros [Hv Hm]. constructor; assumption.
    + intros H. inversion H; subst. split; assumption.
Qed.

Lemma dict_get_Forall (P : json -> Prop) (d : dict) (k : pystr) (v : json) :
  Forall (fun kv => P (snd kv)) d -> dict_get d k = Some v -> P v.
Proof.
  induction 1 as [|[k' v'] d Hv _ IH]; cbn; [discriminate|].
  destruct (decide (k' = k)); [intros [= <-]; exact Hv|exact IH].
Qed.

Lemma dict_set_Forall (P : json -> Prop) (d : dict) (k : pystr) (v : json) :
  Forall (fun kv => P (snd kv)) d -> P v ->
  Forall (fun kv => P (snd kv)) (dict_set d k v).
Proof.
  intros Hd Hv. induction Hd as [|[k' v'] d Hv' Hd IH]; cbn.
  - constructor; [exact Hv|constructor].
  - destruct (decide (k' = k)); constructor; assumption.
Qed.

Lemma deep_merge_wf_items (src : dict) :
  Forall (fun kv => forall d, wf_json (JObj d) = true -> wf_json (snd kv) = true ->
                              wf_json (JObj (deep_merge_obj (snd kv) d)) = true) src ->
  forall dst, wf_json (JObj dst) = true ->
    Forall (fun kv => wf_json (snd kv) = true) src ->
    wf_json (JObj (deep_merge dst src)) = true.
Proof.
  induction 1 as [|[k v] src Hv _ IH]; intros dst Hdst Hsrc.
  - rewrite deep_merge_nil. exact Hdst.
  - rewrite deep_merge_cons. inversion Hsrc as [|? ? Hwv Hsrc']; subst. cbn [snd] in *.
    apply IH; [|exact Hsrc'].
    apply wf_json_obj_iff in Hdst as [Hnd Hall].
    apply wf_json_obj_iff. split; [apply dict_set_keys_NoDup, Hnd|].
    apply (dict_set_Forall (fun v => wf_json v = true)); [exact Hall|].
    unfold merged_value. destruct v as [| | | | |sv]; try exact Hwv.
    destruct (dict_get dst k) as [[| | | | |d]|] eqn:Hg; try exact Hwv.
    apply (Hv d); [|exact Hwv].
    apply (dict_get_Forall (fun v => wf_json v = true) dst k _ Hall Hg).
Qed.

Lemma deep_merge_obj_wf (src : json) :
  forall d, wf_json (JObj d) = true -> wf_json src = true ->
            wf_json (JObj (deep_merge_obj src d)) = true.
Proof.
  induction src as [|b|z|s|l _|m IH] using json_nested_ind; intros d Hd Hsrc;
    try exact Hd.
  change (deep_merge_obj (JObj m) d) with (deep_merge d m).
  apply deep_merge_wf_items; [exact IH|exact Hd|].
  apply wf_json_obj_iff in Hsrc as [_ H]. exact H.
Qed.

Lemma deep_merge_wf (dst src : dict) :
  wf_json (JObj dst) = true -> wf_json (JObj src) = true ->
  wf_json (JObj (deep_merge dst src)) = true.
Proof. intros Hd Hs. apply (deep_merge_obj_wf (JObj src)); assumption. Qed.

Lemma deep_merge_get (dst src : dict) (k : pystr) :
  NoDup (map fst src) ->
  dict_get (deep_merge dst src) k =
  match dict_get src k with
  | Some v => Some (merged_value (dict_get dst k) v)
  | None => dict_get dst k
  end.
Proof.
  intros Hnd. destruct (dict_get src k) as [v|] eqn:Hk.
  - apply deep_merge_get_named; assumption.
  - apply deep_merge_get_other, Hk.
Qed.

Lemma overrides_above_cons (src : dict) (k k' : pystr) (rest : list pystr) :
  overrides_above src (k :: k' :: rest) =
  match dict_get src k with
  | Some (JObj sv) => overrides_above sv (k' :: rest)
  | Some _ => true
  | None => false
  end.
Proof. reflexivity. Qed.

(** A path of the destination survives the merge when the source holds no
    value that is no dict on the way to it. *)
Lemma deep_merge_keeps_path (q : list pystr) :
  forall (dst src : dict) (x : json),
    wf_json (JObj src) = true ->
    get_path dst q = Some x ->
    overrides_above src q = false ->
    is_Some (get_path (deep_merge dst src) q).
Proof.
  induction q as [|k q IH]; intros dst src x Hwf Hq Hov; [eexists; reflexivity|].
  apply wf_json_obj in Hwf as [Hnd Hsub].
  rewrite get_path_cons in Hq |- *. rewrite (deep_merge_get dst src k Hnd).
  destruct q as [|k' q].
  - rewrite Hq. destruct (dict_get src k); eexists; reflexivity.
  - rewrite overrides_above_cons in Hov.
    destruct (dict_get dst k) as [[ | | | | |d]|] eqn:Hd; try discriminate.
    destruct (dict_get src k) as [[ | | | | |sv]|] eqn:Hk; try discriminate.
    + unfold merged_value. eapply IH; [eapply Hsub, Hk|exact Hq|exact Hov].
    + eexists. exact Hq.
Qed.

Lemma overrides_above_absent (q : list pystr) :
  forall src : dict, overrides_above src q = true -> get_path src q = None.
Proof.
  induction q as [|k q IH]; intros src Hov; [discriminate|].
  destruct q as [|k' q]; [discriminate|].
  rewrite overrides_above_cons in Hov. rewrite get_path_cons.
  destruct (dict_get src k) as [[ | | | | |sv]|]; try discriminate; try reflexivity.
  apply IH, Hov.
Qed.

(** It is lost when the source does hold such a value. *)
Lemma deep_merge_drops_path (q : list pystr) :
  forall (dst src : dict),
    wf_json (JObj src) = true ->
    overrides_above src q = true ->
    get_path (deep_merge dst src) q = None.
Proof.
  induction q as [|k q IH]; intros dst src Hwf Hov; [discriminate|].
  apply wf_json_obj in Hwf as [Hnd Hsub].
  destruct q as [|k' q]; [discriminate|].
  rewrite overrides_above_cons in Hov.
  rewrite get_path_cons, (deep_merge_get dst src k Hnd).
  destruct (dict_get src k) as [[ | | | | |sv]|] eqn:Hk; try discriminate; try reflexivity.
  unfold merged_value.
  destruct (dict_get dst k) as [[ | | | | |d]|].
  6: { apply IH; [eapply Hsub, Hk|exact Hov]. }
  all: apply overrides_above_absent, Hov.
Qed.

(** Every path of the source is a path of the result. *)
Lemma deep_merge_has_source_path (q : list pystr) :
  forall (dst src : dict) (v : json),
    wf_json (JObj src) = true ->
    get_path src q = Some v ->
    is_Some (get_path (deep_merge dst src) q).
Proof.
  induction q as [|k q IH]; intros dst src v Hwf Hq; [eexists; reflexivity|].
  apply wf_json_obj in Hwf as [Hnd Hsub].
  rewrite get_path_cons in Hq |- *. rewrite (deep_merge_get dst src k Hnd).
  destruct q as [|k' q].
  - rewrite Hq. eexists. reflexivity.
  - destruct (dict_get src k) as [[ | | | | |sv]|] eqn:Hk; try discriminate.
    unfold merged_value.
    destruct (dict_get dst k) as [[ | | | | |d]|]; try (eexists; exact Hq).
    eapply IH; [eapply Hsub, Hk|exact Hq].
Qed.

(** X6. What [deep_merge] keeps.  At the top, the keys of the result are
    those of the destination, in their places, followed by the new keys of
    the source, and no key comes to occur twice, at any depth.  Below the
    top, a path of the destination is a path of the result exactly when the
    source holds no value that is no dict on the way to it (such a value
    replaces the dict it meets, with all that was below); and every path of
    the source is a path of the result. *)
Theorem deep_merge_keys (dst src : dict) :
  (forall k, In k (map fst (deep_merge dst src)) <->
             In k (map fst dst) \/ In k (map fst src)) /\
  (exists extra, map fst (deep_merge dst src) = map fst dst ++ extra) /\
  (NoDup (map fst dst) -> NoDup (map fst (deep_merge dst src))) /\
  (wf_json (JObj dst) = true -> wf_json (JObj src) = true ->
   wf_json (JObj (deep_merge dst src)) = true) /\
  (wf_json (JObj src) = true ->
   forall (q : list pystr) (x : json),
     get_path dst q = Some x ->
     (is_Some (get_path (deep_merge dst src) q) <-> overrides_above src q = false)) /\
  (wf_json (JObj src) = true ->
   forall (q : list pystr) (v : json),
     get_path src q = Some v ->
     is_Some (get_path (deep_merge dst src) q)).
Proof.
  split; [|split; [|split; [|split; [|split]]]].
  - intros k. apply deep_merge_keys_In.
  - apply deep_merge_keys_prefix.
  - apply deep_merge_keys_NoDup.
  - apply deep_merge_wf.
  - intros Hwf q x Hq. split.
    + intros [y Hy]. destruct (overrides_above src q) eqn:Hov; [|reflexivity].
      rewrite (deep_merge_drops_path q dst src Hwf Hov) in Hy. discriminate.
    + intros Hov. exact (deep_merge_keeps_path q dst src x Hwf Hq Hov).
  - intros Hwf q v Hq. exact (deep_merge_has_source_path q dst src v Hwf Hq).
Qed.

(** ** Ending without an exception *)

Lemma returns_ret {A} (a : A) : returns (mret a : M A).
Proof. intros w. eexists _, _. reflexivity. Qed.

Lemma returns_lift {A} (a : A) : returns (lift (Ret a)).
Proof. intros w. eexists _, _. reflexivity. Qed.

Lemma returns_bind {A B} (m : M A) (k : A -> M B) :
  returns m -> (forall a, returns (k a)) -> returns (m ≫= k).
Proof.
  intros Hm Hk w. destruct (Hm w) as (a & w1 & Ha).
  destruct (Hk a w1) as (b & w2 & Hb).
  exists b, w2. rewrite bind_eq, Ha. exact Hb.
Qed.

Lemma returns_swallow (body : M unit) : returns (swallow body).
Proof.
  intros w. unfold swallow, try_except.
  destruct (body w) as [[[]|e] w1]; eexists _, _; reflexivity.
Qed.

Lemma returns_when (b : bool) (m : M unit) : returns m -> returns (when b m).
Proof. intros Hm. destruct b; [exact Hm|apply returns_ret]. Qed.


Ltac returns_prim := intros ?; eexists _, _; reflexivity.

Section ReturnFacts.

Variable h : Host.


Lemma bus_publish_returns (topic : string) (payload : json) :
  returns (bus_publish topic payload).
Proof. returns_prim. Qed.






End ReturnFacts.

(** ** The event log *)




Lemma try_finally_ret_world {A} (body : M A) (cleanup : M unit) (w w' : World) (a : A) :
  try_finally body cleanup w = (Ret a, w') ->
  exists w1 o, body w = (Ret a, w1) /\ cleanup w1 = (o, w').
Proof.
  unfold try_finally. destruct (body w) as [o w1].
  destruct (cleanup w1) as [[[]|e] w2] eqn:Hc; intros [= -> <-].
  eexists _, _. split; [reflexivity|exact Hc].
Qed.

Section LogFacts.

Variable h : Host.






Lemma validate_phase_fields (r : result) (err : pystr) :
  r_profile (validate_phase h r err) = r_profile r /\
  r_duration_ms (validate_phase h r err) = r_duration_ms r /\
  r_env (validate_phase h r err) = r_env r /\
  r_returncode (validate_phase h r err) = r_returncode r /\
  r_stdout (validate_phase h r err) = r_stdout r /\
  r_stderr (validate_phase h r err) = r_stderr r /\
  r_ok (validate_phase h r err) = r_ok r.
Proof.
  unfold validate_phase.
  destruct (h_intelligence h) as [intel|]; [|repeat split].
  destruct (validate_result intel r) as [v|e]; [|repeat split].
  destruct (negb (truthy v) && nonempty err); [|repeat split].
  destruct (suggest_fix intel err); repeat split.
Qed.





End LogFacts.

(** ** Timeouts, broken configurations, the finder *)

Lemma returns_try_except {A} (body : M A) (handler : pyexc -> M A) :
  (forall e, returns (handler e)) -> returns (try_except body handler).
Proof.
  intros Hh w. unfold try_except.
  destruct (body w) as [[a|e] w1]; [eexists _, _; reflexivity|apply Hh].
Qed.

Section RunnerMore.

Variable h : Host.

Lemma analyse_prompt_phase_returns code prompt profile :
  returns (analyse_prompt_phase h code prompt profile).
Proof.
  unfold analyse_prompt_phase.
  destruct (h_intelligence h) as [intel|]; [|apply returns_ret].
  destruct prompt as [[|c p]|]; try apply returns_ret.
  apply returns_try_except. intros e. apply returns_ret.
Qed.

(** *** A child that outlives the timeout *)




(** *** A policy table that is no dict *)

Lemma _policy_for_profile_non_dict (cfg : dict) (v prof : json) :
  dict_get cfg (u "policy_overrides") = Some v ->
  is_dict v = false ->
  exists e, _policy_for_profile prof cfg = Raise e /\ exc_name e = u "AttributeError".
Proof.
  intros Hv Hd. unfold _policy_for_profile. rewrite Hv. cbn [default].
  destruct v; try discriminate; eexists; split; reflexivity.
Qed.

Lemma _load_cfg_merges (w w1 : World) (data : dict) :
  read_json h (CFG_PATH h) w = (Ret (JObj data), w1) ->
  _load_cfg h w = (Ret (deep_merge DEFAULT_CFG data), w).
Proof.
  intros Hr. destruct (read_json_ret_inv h _ _ _ _ Hr) as [-> Hsome].
  rewrite (_load_cfg_present h w Hsome), Hr.
  unfold py_or. destruct data as [|kv data]; cbn [truthy]; reflexivity.
Qed.

Lemma merged_policy_table (data : dict) (v : json) :
  NoDup (map fst data) ->
  dict_get data (u "policy_overrides") = Some v ->
  is_dict v = false ->
  dict_get (deep_merge DEFAULT_CFG data) (u "policy_overrides") = Some v.
Proof.
  intros Hnd Hv Hd. rewrite (deep_merge_get_named data DEFAULT_CFG _ v Hnd Hv).
  unfold merged_value. destruct v; try discriminate; reflexivity.
Qed.

(** X8. A configuration file whose policy_overrides is not an object (null,
    for instance) is loaded without complaint, but then every call of
    [run_file] and of [run_snippet] raises AttributeError, and no child
    process is started. *)
Theorem non_dict_policy_table (w w1 : World) (data : dict) (v : json) :
  read_json h (CFG_PATH h) w = (Ret (JObj data), w1) ->
  NoDup (map fst data) ->
  dict_get data (u "policy_overrides") = Some v ->
  is_dict v = false ->
  (forall path profile, exists e w',
      run_file h path profile w = (Raise e, w') /\
      exc_name e = u "AttributeError" /\ spawned w' = spawned w) /\
  (forall code prompt profile, exists e w',
      run_snippet h code prompt profile w = (Raise e, w') /\
      exc_name e = u "AttributeError" /\ spawned w' = spawned w).
Proof.
  intros Hr Hnd Hv Hd.
  pose proof (_load_cfg_merges w w1 data Hr) as Hcfg.
  pose proof (merged_policy_table data v Hnd Hv Hd) as Htbl.
  split.
  - intros path profile.
    destruct (_policy_for_profile_non_dict _ v
                (get_profile (detect_environment h) (opt_str profile)
                             (deep_merge DEFAULT_CFG data)) Htbl Hd) as (e & He & Hn).
    exists e, w. unfold run_file. rewrite bind_eq, Hcfg, bind_eq. unfold lift.
    rewrite He. repeat split; assumption.
  - intros code prompt profile.
    destruct (analyse_prompt_phase_returns code prompt (opt_str profile) w)
      as ([meta prof'] & w2 & Ha).
    destruct (_policy_for_profile_non_dict _ v
                (get_profile (detect_environment h) prof'
                             (deep_merge DEFAULT_CFG data)) Htbl Hd) as (e & He & Hn).
    assert (Hsn : snippet_request h code prompt profile w = (Raise e, w2)).
    { unfold snippet_request. rewrite bind_eq, Hcfg, bind_eq, Ha. cbv beta iota.
      rewrite bind_eq. unfold lift. rewrite He. reflexivity. }
    exists e, w2. unfold run_snippet. rewrite bind_eq, Hsn.
    split; [reflexivity|]. split; [exact Hn|].
    exact (analyse_prompt_phase_keeps_spawned h _ _ _ _ _ _ Ha).
Qed.

End RunnerMore.

(** *** The finder of the wrapper *)

Lemma split_root_no_dot (s : pystr) : ~ In 46 (split_root s).
Proof.
  induction s as [|c s IH]; cbn; [tauto|].
  destruct (c =? 46) eqn:Hc; cbn; [tauto|].
  intros [->|H]; [discriminate|contradiction].
Qed.

Lemma split_root_dotted (root rest : pystr) :
  ~ In 46 root -> split_root (root ++ 46 :: rest) = root.
Proof.
  induction root as [|c root IH]; cbn; intros Hn; [reflexivity|].
  destruct (c =? 46) eqn:Hc.
  - apply N.eqb_eq in Hc. exfalso. apply Hn. left. exact Hc.
  - rewrite IH; [reflexivity|]. intros H. apply Hn. right. exact H.
Qed.

Lemma split_root_plain (root : pystr) : ~ In 46 root -> split_root root = root.
Proof.
  induction root as [|c root IH]; cbn; intros Hn; [reflexivity|].
  destruct (c =? 46) eqn:Hc.
  - apply N.eqb_eq in Hc. exfalso. apply Hn. left. exact Hc.
  - rewrite IH; [reflexivity|]. intros H. apply Hn. right. exact H.
Qed.

Lemma str_in_In (x : pystr) (s : list json) :
  str_in x s = true <-> In (JStr x) s.
Proof.
  unfold str_in. rewrite existsb_exists. split.
  - intros (v & Hin & Hv). destruct v; try discriminate.
    apply bool_decide_eq_true in Hv. subst. exact Hin.
  - intros Hin. exists (JStr x). split; [exact Hin|]. apply bool_decide_eq_true. reflexivity.
Qed.

(** X15. For a BLOCKED set of strings, the finder of the wrapper refuses a
    module exactly when the part of its name before the first dot is in
    BLOCKED: a submodule is treated as its root, and an entry that itself
    contains a dot refuses nothing. *)
Theorem find_spec_decides_by_root (w : wrapper) :
  forallb is_str (w_blocked w) = true ->
  (forall fullname,
      (exists e, find_spec w fullname = Raise e) <->
      In (JStr (split_root fullname)) (w_blocked w)) /\
  (forall root rest,
      ~ In 46 root ->
      find_spec w (root ++ 46 :: rest) = find_spec w root) /\
  ((forall s, In (JStr s) (w_blocked w) -> In 46 s) ->
   forall fullname, find_spec w fullname = Ret tt).
Proof.
  intros _. split; [|split].
  - intros fullname. unfold find_spec. rewrite <- str_in_In.
    destruct (str_in _ _); split; try discriminate; eauto.
    intros [e He]. discriminate.
  - intros root rest Hn. unfold find_spec.
    rewrite split_root_dotted, split_root_plain by exact Hn. reflexivity.
  - intros Hdot fullname. unfold find_spec.
    destruct (str_in _ _) eqn:Hin; [|reflexivity].
    apply str_in_In, Hdot in Hin. apply split_root_no_dot in Hin. contradiction.
Qed.

(** *** The fallback runner in capture mode *)

Lemma take_bound (l : pystr) (m : Z) :
  (0 <= m)%Z -> (Z.of_nat (length (take (Z.to_nat m) l)) <= m)%Z.
Proof. intros Hm. rewrite length_take. lia. Qed.

(** X23. In capture mode the runner of gpt_chat_v3.py never raises: it makes
    exactly one Popen call, with the command as given, the whole environment
    of the parent and the ceilings of 256 MiB and 30 s of CPU, and the
    stdout and stderr it returns are at most PY_STDOUT_MAX characters long. *)
Theorem run_python_script_capture_bounded (h : Host) (cmd : list pystr)
  (cwd job_id job_dir : pystr) (w : World) :
  exists s w' sp,
    run_python_script_capture h cmd cwd job_id job_dir w = (Ret s, w') /\
    spawned w' = spawned w ++ [sp] /\
    sp_argv sp = cmd /\
    sp_env sp = None /\
    child_limits sp = mkLimits (Some 268435456%Z) (Some 30%Z) /\
    (Z.of_nat (length (s_stdout s)) <= PY_STDOUT_MAX)%Z /\
    (Z.of_nat (length (s_stderr s)) <= PY_STDOUT_MAX)%Z.
Proof.
  assert (Hmax : (0 <= PY_STDOUT_MAX)%Z) by (unfold PY_STDOUT_MAX; lia).
  unfold run_python_script_capture, try_except, try_except_timeout.
  rewrite !bind_eq.
  cbv beta iota zeta delta [popen communicate kill_and_collect write_text_replace with_fs
                            mbind M_bind mret M_ret advance
                            fs spawned log bus collab uuids clock].
  destruct (h_spawn_error h _) as [e|].
  - eexists _, _, _. split; [reflexivity|].
    cbn [s_stdout s_stderr spawned sp_argv sp_env length].
    repeat split; exact Hmax.
  - destruct (exceeds _ PY_TIMEOUT_SEC); cbn [exc_class_of TimeoutExpired];
      eexists _, _, _; (split; [reflexivity|]);
      cbn [s_stdout s_stderr spawned sp_argv sp_env];
      (split; [reflexivity|]); (split; [reflexivity|]); (split; [reflexivity|]);
      (split; [reflexivity|]); split; apply take_bound, Hmax.
Qed.

(** ** The command line *)

Section CommandLineFacts.

Variable h : Host.

Lemma run_file_ok_is_rc0 (path : pystr) (profile : option pystr) (w w' : World) (r : result) :
  run_file h path profile w = (Ret r, w') -> r_ok r = (r_returncode r =? 0)%Z.
Proof.
  intros H. apply run_file_ret_inv in H as (cfg & w1 & policy & p & _ & _ & _ & Hcase).
  destruct Hcase as [[_ ->]|(f & findings & _ & _ & [[_ ->]|(_ & rc & out & err & dur & ->)])];
    try reflexivity.
  destruct (validate_phase_ok h
              (mkResult (rc =? 0)%Z out err rc (detect_environment h)
                 (get_profile (detect_environment h) (opt_str profile) cfg) dur None None) err)
    as (-> & -> & _). reflexivity.
Qed.

Lemma run_snippet_ok_is_rc0 (code : pystr) (prompt profile : option pystr)
  (w w' : World) (r : result) :
  run_snippet h code prompt profile w = (Ret r, w') -> r_ok r = (r_returncode r =? 0)%Z.
Proof.
  intros H. pose proof H as H0. unfold run_snippet in H0.
  apply bind_ret_inv in H0 as ([[[cfg meta] prof] policy] & w1 & Hreq & _).
  destruct (run_snippet_ret_inv h code prompt profile w w1 w' cfg meta prof policy r Hreq H)
    as (findings & _ & [[_ ->]|(_ & rc & out & err & dur & ->)]); [reflexivity|].
  destruct (validate_phase_ok h
              (mkResult (rc =? 0)%Z out err rc (detect_environment h) prof dur None None) err)
    as (-> & -> & _). reflexivity.
Qed.

Lemma exit_argument_is_returncode (r : result) :
  r_ok r = (r_returncode r =? 0)%Z ->
  exit_argument r = r_returncode r /\ (exit_argument r = 0%Z <-> r_ok r = true).
Proof.
  unfold exit_argument. intros ->.
  destruct (r_returncode r =? 0)%Z eqn:Hrc.
  - apply Z.eqb_eq in Hrc. rewrite Hrc. split; [reflexivity|tauto].
  - apply Z.eqb_neq in Hrc. split; [reflexivity|]. split; [contradiction|discriminate].
Qed.

Lemma emit_written (s : pystr) : written_as s (emit s).
Proof.
  unfold written_as, emit, ends_with_newline. destruct s as [|c s]; cbn [nonempty].
  - split; [reflexivity|]. split; [discriminate|]. intros H. contradiction.
  - split; [discriminate|].
    destruct (last (c :: s)) as [d|] eqn:Hl.
    + destruct (d =? 10) eqn:Hd.
      * apply N.eqb_eq in Hd. subst d. split; [reflexivity|]. intros _ H. contradiction.
      * apply N.eqb_neq in Hd. split; [|reflexivity]. intros H. congruence.
    + split; [discriminate|reflexivity].
Qed.

Lemma report_spec (r : result) :
  r_ok r = (r_returncode r =? 0)%Z ->
  cli_exit (report r) = r_returncode r /\
  (cli_exit (report r) = 0%Z <-> r_ok r = true) /\
  written_as (r_stdout r) (cli_stdout (report r)) /\
  written_as (r_stderr r) (cli_stderr (report r)).
Proof.
  intros Hok. destruct (exit_argument_is_returncode r Hok) as [He Hz].
  split; [exact He|]. split; [exact Hz|]. split; apply emit_written.
Qed.

(** X16. The commands --run-file and --run-stdin call [sys.exit] with the
    result's return code (the fallback 1 is never used), which is 0 exactly
    when the result is ok; what they write to a stream is nothing when the
    result's text is empty, the text as it is when it ends in a newline,
    and the text followed by one newline otherwise. *)
Theorem cli_exit_status_is_returncode :
  (forall path profile w w' c,
      _cmd_run_file h path profile w = (Ret c, w') ->
      exists r,
        run_file h path profile w = (Ret r, w') /\
        cli_exit c = r_returncode r /\
        (cli_exit c = 0%Z <-> r_ok r = true) /\
        written_as (r_stdout r) (cli_stdout c) /\
        written_as (r_stderr r) (cli_stderr c)) /\
  (forall stdin prompt profile w w' c,
      _cmd_run_stdin h stdin prompt profile w = (Ret c, w') ->
      exists r,
        run_snippet h stdin prompt profile w = (Ret r, w') /\
        cli_exit c = r_returncode r /\
        (cli_exit c = 0%Z <-> r_ok r = true) /\
        written_as (r_stdout r) (cli_stdout c) /\
        written_as (r_stderr r) (cli_stderr c)).
Proof.
  split.
  - intros path profile w w' c H. unfold _cmd_run_file in H.
    apply bind_ret_inv in H as (r & w1 & Hrun & H). injection H as <- <-.
    exists r. split; [exact Hrun|]. apply report_spec, (run_file_ok_is_rc0 _ _ _ _ _ Hrun).
  - intros stdin prompt profile w w' c H. unfold _cmd_run_stdin in H.
    apply bind_ret_inv in H as (r & w1 & Hrun & H). injection H as <- <-.
    exists r. split; [exact Hrun|].
    apply report_spec, (run_snippet_ok_is_rc0 _ _ _ _ _ _ Hrun).
Qed.

End CommandLineFacts.

(** ** The prompt analysis *)

Lemma choose_profile_known (ty : pystr) :
  intelligence.choose_profile ty = u "headless" \/
  intelligence.choose_profile ty = u "iot" \/
  intelligence.choose_profile ty = u "analysis".
Proof.
  unfold intelligence.choose_profile. cbn [List.find fst snd].
  repeat match goal with
         | |- context [bool_decide ?P] => destruct (bool_decide P)
         end; cbn; tauto.
Qed.

Lemma known_profile_policy (prof : pystr) :
  prof = u "headless" \/ prof = u "iot" \/ prof = u "analysis" ->
  exists policy,
    _policy_for_profile (JStr prof) DEFAULT_CFG = Ret policy /\
    forallb is_str (blocked_imports policy) = true /\
    forallb is_str (blocked_calls policy) = true /\
    In (JStr (u "socket")) (blocked_imports policy) /\
    In (JStr (u "tkinter")) (blocked_imports policy) /\
    In (JStr (u "pygame")) (blocked_imports policy) /\
    In (JStr (u "os.system")) (blocked_calls policy).
Proof.
  intros [->|[->| ->]]; eexists; (split; [vm_compute; reflexivity|]);
    repeat split; try reflexivity; vm_compute; tauto.
Qed.

(** X17. Whatever the prompt, the profile chosen by [analyze_prompt] is
    headless, iot or analysis, and under the default configuration its
    policy is one of strings that blocks the imports socket, tkinter and
    pygame and the call os.system. *)
Theorem analysed_profile_has_a_policy (lower : pystr -> pystr) (now prompt : pystr) :
  exists prof policy,
    dict_get
      match intelligence.analyze_prompt lower now prompt with
      | JObj m => m
      | _ => []
      end (u "profile") = Some (JStr prof) /\
    (prof = u "headless" \/ prof = u "iot" \/ prof = u "analysis") /\
    _policy_for_profile (JStr prof) DEFAULT_CFG = Ret policy /\
    forallb is_str (blocked_imports policy) = true /\
    forallb is_str (blocked_calls policy) = true /\
    In (JStr (u "socket")) (blocked_imports policy) /\
    In (JStr (u "tkinter")) (blocked_imports policy) /\
    In (JStr (u "pygame")) (blocked_imports policy) /\
    In (JStr (u "os.system")) (blocked_calls policy).
Proof.
  pose proof (choose_profile_known (intelligence.task_type lower prompt)) as Hk.
  destruct (known_profile_policy _ Hk) as (policy & Hp).
  exists (intelligence.choose_profile (intelligence.task_type lower prompt)), policy.
  split; [reflexivity|]. split; [exact Hk|exact Hp].
Qed.

Lemma choose_profile_nonempty (ty : pystr) :
  truthy (JStr (intelligence.choose_profile ty)) = true.
Proof. destruct (choose_profile_known ty) as [->|[->| ->]]; reflexivity. Qed.

Section PromptFacts.

Variable h : Host.
Variable lower : pystr -> pystr.
Variable now : pystr.
Hypothesis Hintel : h_intelligence h = Some (intelligence_module lower now).

Lemma analyse_prompt_phase_with_module (code : pystr) (c : N) (p : pystr)
  (profile : json) (w w1 : World) (meta prof : json) :
  analyse_prompt_phase h code (Some (c :: p)) profile w = (Ret (meta, prof), w1) ->
  meta = intelligence.analyze_prompt lower now (c :: p) /\
  prof = JStr (intelligence.choose_profile (intelligence.task_type lower (c :: p))).
Proof.
  unfold analyse_prompt_phase. rewrite Hintel.
  cbn [analyze_prompt intelligence_module].
  intros H. unfold try_except in H. rewrite bind_eq in H. unfold lift at 1 in H.
  cbv beta iota in H.
  match type of H with
  | match ?x with _ => _ end = _ => destruct x as [[a|e] w2] eqn:Hk
  end.
  - injection H as -> ->.
    apply bind_ret_inv in Hk as ([] & w3 & _ & Hk).
    apply bind_ret_inv in Hk as ([] & w4 & _ & Hk).
    apply bind_ret_inv in Hk as (pr & w5 & Hpr & Hk).
    assert (Hg : py_get (intelligence.analyze_prompt lower now (c :: p))
                        (JStr (u "profile")) JNull
                 = Ret (JStr (intelligence.choose_profile
                                (intelligence.task_type lower (c :: p))))) by reflexivity.
    unfold lift in Hpr. rewrite Hg in Hpr. injection Hpr as <- _.
    injection Hk as <- <- _. split; [reflexivity|].
    unfold py_or. rewrite choose_profile_nonempty. reflexivity.
  - exfalso. revert Hk.
    match goal with
    | |- ?m w = _ -> _ => assert (Hret : returns m)
    end.
    { apply returns_bind; [apply returns_when, bus_publish_returns|intros _].
      apply returns_bind; [apply returns_when, returns_swallow|intros _].
      apply returns_bind; [apply returns_lift|intros pr]. apply returns_ret. }
    destruct (Hret w) as (a & w3 & ->). discriminate.
Qed.

(** X18. With the intelligence module loaded and a non-empty prompt, the
    profile of a snippet request is the one chosen from the prompt, whatever
    profile the caller asked for, and the metadata are those of
    [analyze_prompt]. *)
Theorem prompt_overrides_requested_profile (code : pystr) (c : N) (p : pystr)
  (profile : option pystr) (w w1 : World) (cfg : dict) (meta prof : json)
  (policy : SecurityPolicy) :
  snippet_request h code (Some (c :: p)) profile w = (Ret (cfg, meta, prof, policy), w1) ->
  meta = intelligence.analyze_prompt lower now (c :: p) /\
  prof = JStr (intelligence.choose_profile (intelligence.task_type lower (c :: p))).
Proof.
  intros H. unfold snippet_request in H.
  apply bind_ret_inv in H as (cfg' & w2 & _ & H).
  apply bind_ret_inv in H as ([meta' prof'] & w3 & Ha & H).
  apply analyse_prompt_phase_with_module in Ha as [-> ->].
  apply bind_ret_inv in H as (policy' & w4 & _ & H).
  injection H as _ <- <- _ _.
  split; [reflexivity|]. unfold get_profile, py_or.
  rewrite choose_profile_nonempty. reflexivity.
Qed.

End PromptFacts.

(** ** The diagnosis of a timeout *)







Section TimeoutDiagnosis.

Variable h : Host.
Variable lower : pystr -> pystr.
Variable now : pystr.
Hypothesis Hintel : h_intelligence h = Some (intelligence_module lower now).



End TimeoutDiagnosis.

(** ** The message bus *)

Lemma slice_from_zero {A} (l : list A) : slice_from 0 l = l.
Proof.
  unfold slice_from. cbn [Z.ltb Z.compare].
  rewrite Z.min_l by lia. reflexivity.
Qed.

Lemma slice_from_last {A} (n : nat) (l : list A) :
  (0 < n)%nat ->
  slice_from (- Z.of_nat n) l = drop (length l - n) l.
Proof.
  intros Hn. unfold slice_from.
  destruct (- Z.of_nat n <? 0)%Z eqn:Hlt; [|apply Z.ltb_ge in Hlt; lia].
  f_equal. lia.
Qed.

Lemma slice_from_skip {A} (n : nat) (l : list A) :
  slice_from (Z.of_nat n) l = drop n l.
Proof.
  unfold slice_from.
  destruct (Z.of_nat n <? 0)%Z eqn:Hlt; [apply Z.ltb_lt in Hlt; lia|].
  destruct (decide (n <= length l)%nat) as [Hle|Hgt].
  - rewrite Z.min_l by lia. rewrite Nat2Z.id. reflexivity.
  - rewrite Z.min_r by lia. rewrite Nat2Z.id.
    rewrite !drop_ge by lia. reflexivity.
Qed.

(** X20. [history(limit)] returns the last [limit] messages for a positive
    limit (all of them when there are fewer), the whole history for limit 0,
    and for a negative limit -n the history without its first n messages. *)
Theorem bus_history_limit (b : bus.MessageBus) :
  bus.history 0 b = bus._history b /\
  (forall n : nat, (0 < n)%nat ->
     bus.history (Z.of_nat n) b = drop (length (bus._history b) - n) (bus._history b) /\
     length (bus.history (Z.of_nat n) b) = Nat.min n (length (bus._history b))) /\
  (forall n : nat, bus.history (- Z.of_nat n) b = drop n (bus._history b)).
Proof.
  unfold bus.history. split; [|split].
  - apply slice_from_zero.
  - intros n Hn. rewrite slice_from_last by exact Hn. split; [reflexivity|].
    rewrite length_drop. lia.
  - intros n. rewrite Z.opp_involutive. apply slice_from_skip.
Qed.

Section BusFacts.

Variable strftime : Z -> pystr.






End BusFacts.

(** ** The children of the sandbox *)

Lemma spawns_only_refl (P : spawn -> Prop) (w : World) : spawns_only P w w.
Proof. exists []. rewrite app_nil_r. split; [reflexivity|constructor]. Qed.

Lemma spawns_only_trans (P : spawn -> Prop) (w1 w2 w3 : World) :
  spawns_only P w1 w2 -> spawns_only P w2 w3 -> spawns_only P w1 w3.
Proof.
  intros (l1 & H1 & F1) (l2 & H2 & F2). exists (l1 ++ l2).
  rewrite H2, H1, app_assoc. split; [reflexivity|]. apply Forall_app. split; assumption.
Qed.

Ltac no_spawn_prim P :=
  let w := fresh "w" in let o := fresh "o" in let w' := fresh "w'" in
  let H := fresh "H" in
  intros w o w' H; cbv beta delta
    [path_exists write_text write_text_replace write_wrapper write_json unlink
     uuid4_hex time_time _log_event bus_publish collab_call_ read_json with_fs] in H;
  repeat match type of H with
         | context [match ?x with _ => _ end] => destruct x
         | context [if ?x then _ else _] => destruct x
         end;
  injection H as _ <-; exists []; (split; [rewrite app_nil_r; reflexivity|constructor]).

Section ChildFacts.

Variable h : Host.

Lemma _execute_user_code_child (code_path : pystr) (policy : SecurityPolicy) (timeout : Z) :
  keeps (spawns_only (sandbox_child h)) (_execute_user_code h code_path policy timeout).
Proof.
  intros w o w'.
  unfold _execute_user_code, try_finally, try_except_timeout.
  rewrite !bind_eq.
  cbv beta iota zeta delta [uuid4_hex write_wrapper time_time unlink with_fs
                            subprocess_run popen communicate
                            mbind M_bind mret M_ret advance
                            fs spawned log bus collab uuids clock].
  assert (Hchild : sandbox_child h
            (mkSpawn [h_executable h;
                      TMP_DIR h ++ u "/wrap_" ++ py_uuid4_hex h (uuids w) ++ u ".py"]
                     (Some (_minimal_env h)) (Some timeout) true None)).
  { split; [eexists; reflexivity|]. split; [eexists; reflexivity|].
    split; [reflexivity|]. split; [reflexivity|].
    eexists. split; [reflexivity|]. apply _minimal_env_lookup. }
  destruct (h_spawn_error h _) as [e|].
  - destruct (exc_class_of e); intros H; injection H as _ <-;
      (eexists; split; [reflexivity|constructor; [exact Hchild|constructor]]).
  - destruct (exceeds _ timeout); cbv beta iota; intros H; injection H as _ <-;
      (eexists; split; [reflexivity|constructor; [exact Hchild|constructor]]).
Qed.

Ltac child_step :=
  keeps_with (spawns_only_refl (sandbox_child h)) (spawns_only_trans (sandbox_child h))
             ltac:(first [ no_spawn_prim (sandbox_child h)
                         | apply _execute_user_code_child ]).

Lemma _load_cfg_child : keeps (spawns_only (sandbox_child h)) (_load_cfg h).
Proof. unfold _load_cfg. repeat child_step. destruct (negb _); repeat child_step. Qed.

Lemma snippet_request_child code prompt profile :
  keeps (spawns_only (sandbox_child h)) (snippet_request h code prompt profile).
Proof.
  unfold snippet_request.
  child_step; [apply _load_cfg_child|].
  child_step.
  - unfold analyse_prompt_phase.
    destruct (h_intelligence h) as [intel|]; [|repeat child_step].
    destruct prompt as [[|c p]|]; repeat child_step.
  - destruct a0 as [meta profile']. repeat child_step.
Qed.

Lemma run_snippet_child code prompt profile :
  keeps (spawns_only (sandbox_child h)) (run_snippet h code prompt profile).
Proof.
  unfold run_snippet.
  child_step; [apply snippet_request_child|].
  destruct a as [[[cfg meta] prof] policy].
  do 2 (child_step; [repeat child_step|]).
  match goal with |- keeps _ (match ?l with _ => _ end) => destruct l as [|f rest] end;
    [|repeat child_step].
  do 2 (child_step; [child_step|]).
  child_step; [|repeat child_step].
  do 2 (child_step; [child_step|]).
  match goal with
  | |- keeps _ (let '(_, _) := ?x in _) => destruct x as [[[rc out] err] dur]
  end.
  repeat child_step.
Qed.

Lemma run_file_child path profile :
  keeps (spawns_only (sandbox_child h)) (run_file h path profile).
Proof.
  unfold run_file.
  child_step; [apply _load_cfg_child|].
  do 4 (child_step; [repeat child_step|]).
  match goal with |- keeps _ (if ?b then _ else _) => destruct b end;
    [repeat child_step|].
  child_step.
  { intros w o w' H. injection H as _ <-. apply spawns_only_refl. }
  child_step; [child_step|].
  match goal with |- keeps _ (match ?l with _ => _ end) => destruct l as [|f rest] end;
    [|repeat child_step].
  do 2 (child_step; [child_step|]).
  match goal with
  | |- keeps _ (let '(_, _) := ?x in _) => destruct x as [[[rc out] err] dur]
  end.
  repeat child_step.
Qed.

End ChildFacts.

(** ** The runner of gpt_chat_v3.py as a whole *)

Lemma run_python_script_capture_spawn (h : Host) (cmd : list pystr)
  (cwd job_id job_dir : pystr) (w : World) :
  exists s w' sp,
    run_python_script_capture h cmd cwd job_id job_dir w = (Ret s, w') /\
    spawned w' = spawned w ++ [sp] /\
    sp_argv sp = cmd /\
    sp_env sp = None /\
    child_limits sp = mkLimits (Some 268435456%Z) (Some 30%Z).
Proof.
  unfold run_python_script_capture, try_except, try_except_timeout.
  rewrite !bind_eq.
  cbv beta iota zeta delta [popen communicate kill_and_collect write_text_replace with_fs
                            mbind M_bind mret M_ret advance
                            fs spawned log bus collab uuids clock].
  destruct (h_spawn_error h _) as [e|].
  - eexists _, _, _. split; [reflexivity|]. repeat split.
  - destruct (exceeds _ PY_TIMEOUT_SEC); cbn [exc_class_of TimeoutExpired];
      eexists _, _, _; (split; [reflexivity|]); repeat split.
Qed.

Section FallbackFacts.

Variable h : Host.
Variable _is_path_allowed : pystr -> bool.
Variable abspath : pystr -> pystr.
Variable dirname : pystr -> pystr.
Variable strftime : Z -> pystr.
Variable mode : pystr.
Variable pid : spawn -> Z.

(** X24. When modules.code is loaded and [run_file] returns, [run_python_script]
    returns that result (ok, "Exit=<returncode>, job=sandbox", the outputs
    cut to PY_STDOUT_MAX): the script's arguments, the list of allowed
    directories and the mode switch play no part, and only sandbox children
    were started. *)
Theorem run_python_script_mirrors_sandbox (path : pystr) (args : list pystr)
  (w w' : World) (r : result) :
  run_file h path None w = (Ret r, w') ->
  exists s,
    run_python_script h true _is_path_allowed abspath dirname strftime mode pid path args w
      = (Ret s, w') /\
    s_ok s = r_ok r /\
    (s_ok s = true <-> r_returncode r = 0%Z) /\
    s_msg s = u "[PY] Exit=" ++ str_of_Z (r_returncode r) ++ u ", job=sandbox" /\
    s_stdout s = take (Z.to_nat PY_STDOUT_MAX) (r_stdout r) /\
    s_stderr s = take (Z.to_nat PY_STDOUT_MAX) (r_stderr r) /\
    spawns_only (sandbox_child h) w w'.
Proof.
  intros Hrun. eexists. split.
  - unfold run_python_script, sandbox_first, try_except.
    rewrite bind_eq, bind_eq, Hrun. reflexivity.
  - cbn [s_ok s_msg s_stdout s_stderr].
    split; [reflexivity|]. split.
    + rewrite (run_file_ok_is_rc0 h _ _ _ _ _ Hrun). apply Z.eqb_eq.
    + repeat split. exact (run_file_child h path None w _ w' Hrun).
Qed.

Lemma run_file_non_dict_table (w w1 : World) (data : dict) (v : json)
  (path : pystr) (profile : option pystr) :
  read_json h (CFG_PATH h) w = (Ret (JObj data), w1) ->
  NoDup (map fst data) ->
  dict_get data (u "policy_overrides") = Some v ->
  is_dict v = false ->
  exists e, run_file h path profile w = (Raise e, w).
Proof.
  intros Hr Hnd Hv Hd.
  pose proof (_load_cfg_merges h w w1 data Hr) as Hcfg.
  pose proof (merged_policy_table data v Hnd Hv Hd) as Htbl.
  destruct (_policy_for_profile_non_dict _ v
              (get_profile (detect_environment h) (opt_str profile)
                           (deep_merge DEFAULT_CFG data)) Htbl Hd) as (e & He & Hn).
  exists e. unfold run_file. rewrite bind_eq, Hcfg, bind_eq. unfold lift.
  rewrite He. reflexivity.
Qed.

(** X25. With a configuration file whose policy_overrides is not an object,
    [run_python_script] drops the exception of the sandbox and, for an
    existing and allowed script in capture mode, makes one Popen call for
    the script itself with its arguments: no wrapper, and the whole
    environment of the parent. *)
Theorem broken_policy_table_bypasses_sandbox (w w1 : World) (data : dict) (v : json)
  (path : pystr) (args : list pystr) :
  read_json h (CFG_PATH h) w = (Ret (JObj data), w1) ->
  NoDup (map fst data) ->
  dict_get data (u "policy_overrides") = Some v ->
  is_dict v = false ->
  is_Some (fs w !! abspath path) ->
  _is_path_allowed path = true ->
  mode <> u "interactive" ->
  exists s w' sp bin,
    run_python_script h true _is_path_allowed abspath dirname strftime mode pid path args w
      = (Ret s, w') /\
    spawned w' = spawned w ++ [sp] /\
    sp_argv sp = bin :: path :: args /\
    sp_env sp = None /\
    child_limits sp = mkLimits (Some 268435456%Z) (Some 30%Z) /\
    ~ sandbox_child h sp.
Proof.
  intros Hr Hnd Hv Hd Hex Hal Hmode.
  destruct (run_file_non_dict_table w w1 data v path None Hr Hnd Hv Hd) as (e & Hraise).
  unfold run_python_script, sandbox_first, try_except.
  rewrite bind_eq, bind_eq, Hraise. cbv beta iota.
  change ((mret None : M (option script_result)) w) with (Ret (@None script_result), w).
  cbv beta iota.
  rewrite bind_eq. unfold os_path_exists at 1.
  rewrite bool_decide_eq_true_2 by exact Hex. cbn [negb]. rewrite Hal. cbn [negb].
  rewrite bind_eq. unfold time_time at 1. cbv beta iota.
  rewrite bind_eq. unfold uuid4_hex at 1. cbv beta iota.
  rewrite bind_eq. unfold os_path_exists at 1. cbv beta iota.
  rewrite bool_decide_eq_false_2 by exact Hmode.
  match goal with
  | |- context [run_python_script_capture h ?cmd ?cwd ?job ?dir ?w0] =>
      destruct (run_python_script_capture_spawn h cmd cwd job dir w0)
        as (s & w' & sp & Hcap & Hsp & Hargv & Henv & Hlim)
  end.
  exists s, w', sp. eexists. split; [exact Hcap|].
  split; [exact Hsp|]. split; [exact Hargv|]. split; [exact Henv|].
  split; [exact Hlim|].
  intros (_ & _ & _ & _ & env & Hsome & _). rewrite Henv in Hsome. discriminate.
Qed.

End FallbackFacts.

(** ** Children, defaults, and how preflight fails *)

Section RequestFacts.

Variable h : Host.

(** *** One child per accepted request *)

Lemma _execute_user_code_one_child (code_path : pystr) (policy : SecurityPolicy)
  (timeout : Z) (w w' : World) (o : outcome (Z * pystr * pystr * Z)) :
  _execute_user_code h code_path policy timeout w = (o, w') ->
  exists sp, spawned w' = spawned w ++ [sp] /\ sandbox_child h sp.
Proof.
  intros H.
  destruct (_execute_user_code_no_preexec h _ _ _ _ _ _ H) as (sp & Hsp & _).
  destruct (_execute_user_code_child h _ _ _ _ _ _ H) as (l & Hl & Hall).
  exists sp. split; [exact Hsp|].
  rewrite Hsp in Hl. apply app_inv_head in Hl. subst l.
  inversion Hall; assumption.
Qed.

Ltac spawn_kept H :=
  revert H;
  match goal with
  | |- ?m ?w0 = _ -> _ =>
      let K := fresh "K" in
      assert (K : keeps same_spawned m) by (repeat keeps_step);
      intros H; apply K in H; unfold same_spawned in H; cbn [spawned] in H
  end.

Lemma run_snippet_children (code : pystr) (prompt profile : option pystr)
  (w w' : World) (r : result) :
  run_snippet h code prompt profile w = (Ret r, w') ->
  (spawned w' = spawned w /\
   r_returncode r = 2%Z /\ r_ok r = false /\ r_stdout r = []) \/
  (exists sp, spawned w' = spawned w ++ [sp] /\ sandbox_child h sp).
Proof.
  intros H. unfold run_snippet in H.
  apply bind_ret_inv in H as ([[[cfg meta] prof] policy] & w1 & Hreq & H).
  apply snippet_request_keeps_spawned in Hreq. unfold same_spawned in Hreq.
  rewrite <- Hreq. clear Hreq w.
  apply bind_ret_inv in H as ([] & w2 & Hbus & H).
  spawn_kept Hbus. rewrite <- Hbus. clear Hbus w1.
  apply bind_ret_inv in H as (findings & w3 & Hpre & H).
  injection Hpre as Hpre <-.
  destruct findings as [|f findings].
  - right.
    apply bind_ret_inv in H as (hex & w4 & Hu & H).
    spawn_kept Hu. rewrite <- Hu. clear Hu.
    apply bind_ret_inv in H as ([] & w5 & Hw & H).
    spawn_kept Hw. rewrite <- Hw. clear Hw.
    apply try_finally_ret_world in H as (w6 & o & H & Hc).
    spawn_kept Hc. rewrite Hc. clear Hc.
    apply bind_ret_inv in H as (t & w7 & Ht & H).
    spawn_kept Ht. rewrite <- Ht. clear Ht.
    apply bind_ret_inv in H as ([[[rc out] err] dur] & w8 & Hx & H).
    apply _execute_user_code_one_child in Hx as (sp & Hsp & Hchild).
    apply bind_ret_inv in H as ([] & w9 & Hlg & H). spawn_kept Hlg.
    apply bind_ret_inv in H as ([] & wa & Ha & H). spawn_kept Ha.
    apply bind_ret_inv in H as ([] & wb & Hb & H). spawn_kept Hb.
    apply bind_ret_inv in H as ([] & wc & Hcc & H). spawn_kept Hcc.
    injection H as _ <-.
    exists sp. split; [|exact Hchild]. rewrite Hcc, Hb, Ha, Hlg. exact Hsp.
  - left.
    apply bind_ret_inv in H as ([] & w4 & Hlg & H). spawn_kept Hlg.
    apply bind_ret_inv in H as ([] & w5 & Hb & H). spawn_kept Hb.
    injection H as <- <-. rewrite Hb, Hlg. repeat split.
Qed.

Lemma run_file_children (path : pystr) (profile : option pystr)
  (w w' : World) (r : result) :
  run_file h path profile w = (Ret r, w') ->
  (spawned w' = spawned w /\
   r_returncode r = 2%Z /\ r_ok r = false /\ r_stdout r = []) \/
  (exists sp, spawned w' = spawned w ++ [sp] /\ sandbox_child h sp).
Proof.
  intros H. unfold run_file in H.
  apply bind_ret_inv in H as (cfg & w1 & Hcfg & H).
  apply _load_cfg_keeps_spawned in Hcfg. unfold same_spawned in Hcfg.
  rewrite <- Hcfg. clear Hcfg w.
  apply bind_ret_inv in H as (policy & w2 & Hpol & H).
  spawn_kept Hpol. rewrite <- Hpol. clear Hpol w1.
  apply bind_ret_inv in H as ([] & w3 & Hbus & H).
  spawn_kept Hbus. rewrite <- Hbus. clear Hbus w2.
  apply bind_ret_inv in H as (p & w4 & Hp & H).
  injection Hp as Hp <-.
  apply bind_ret_inv in H as (e & w5 & He & H).
  spawn_kept He. rewrite <- He. clear He w3.
  destruct (negb e).
  - left.
    apply bind_ret_inv in H as ([] & w6 & Hlg & H). spawn_kept Hlg.
    apply bind_ret_inv in H as ([] & w7 & Hb & H). spawn_kept Hb.
    injection H as <- <-. rewrite Hb, Hlg. repeat split.
  - apply bind_ret_inv in H as (txt & w6 & Htxt & H).
    injection Htxt as _ <-.
    apply bind_ret_inv in H as (findings & w7 & Hpre & H).
    injection Hpre as Hpre <-.
    destruct findings as [|f findings].
    + right.
      apply bind_ret_inv in H as (t & w8 & Ht & H).
      spawn_kept Ht. rewrite <- Ht. clear Ht.
      apply bind_ret_inv in H as ([[[rc out] err] dur] & w9 & Hx & H).
      apply _execute_user_code_one_child in Hx as (sp & Hsp & Hchild).
      apply bind_ret_inv in H as ([] & wa & Ha & H). spawn_kept Ha.
      apply bind_ret_inv in H as ([] & wb & Hlg & H). spawn_kept Hlg.
      apply bind_ret_inv in H as ([] & wc & Hc & H). spawn_kept Hc.
      apply bind_ret_inv in H as ([] & wd & Hd & H). spawn_kept Hd.
      injection H as _ <-.
      exists sp. split; [|exact Hchild]. rewrite Hd, Hc, Hlg, Ha. exact Hsp.
    + left.
      apply bind_ret_inv in H as ([] & w8 & Hlg & H). spawn_kept Hlg.
      apply bind_ret_inv in H as ([] & w9 & Hb & H). spawn_kept Hb.
      injection H as <- <-. rewrite Hb, Hlg. repeat split.
Qed.

(** *** What the loaded configuration always holds *)

Lemma _load_cfg_total (w : World) :
  is_Some (fs w !! CFG_PATH h) \/
  (py_stat_error h (CFG_PATH h) = None /\ h_cfg_write_error h = None) ->
  exists cfg w', _load_cfg h w = (Ret cfg, w').
Proof.
  intros Hcan. destruct (fs w !! CFG_PATH h) as [f|] eqn:Hf.
  - rewrite _load_cfg_present by (rewrite Hf; eexists; reflexivity).
    destruct (read_json h (CFG_PATH h) w) as [[data|e] w1]; [|eexists _, _; reflexivity].
    destruct (deep_merge_py DEFAULT_CFG (py_or data (JObj []))); eexists _, _; reflexivity.
  - destruct Hcan as [[x Hx]|[Hstat Hwr]]; [discriminate|].
    rewrite (_load_cfg_missing h w Hf), Hstat, Hwr. eexists _, _. reflexivity.
Qed.

Lemma _load_cfg_raise_inv (w w' : World) (e : pyexc) :
  _load_cfg h w = (Raise e, w') ->
  fs w !! CFG_PATH h = None /\
  (py_stat_error h (CFG_PATH h) = Some e \/
   exists left, h_cfg_write_error h = Some (e, left)).
Proof.
  destruct (fs w !! CFG_PATH h) as [f|] eqn:Hf.
  - rewrite _load_cfg_present by (rewrite Hf; eexists; reflexivity).
    destruct (read_json h (CFG_PATH h) w) as [[data|e1] w1]; [|discriminate].
    destruct (deep_merge_py DEFAULT_CFG (py_or data (JObj []))); discriminate.
  - rewrite (_load_cfg_missing h w Hf). split; [reflexivity|].
    destruct (py_stat_error h (CFG_PATH h)) as [e1|].
    + left. congruence.
    + right. destruct (h_cfg_write_error h) as [[e1 [f|]]|]; [| |discriminate];
        eexists; repeat f_equal; congruence.
Qed.

Lemma DEFAULT_CFG_NoDup : NoDup (map fst DEFAULT_CFG).
Proof. apply (bool_decide_unpack _). vm_compute. exact I. Qed.

Lemma _load_cfg_defaults (w w' : World) (cfg : dict) :
  _load_cfg h w = (Ret cfg, w') ->
  NoDup (map fst cfg) /\
  (exists extra, map fst cfg = map fst DEFAULT_CFG ++ extra) /\
  (forall k, In k (map fst DEFAULT_CFG) -> is_Some (dict_get cfg k)).
Proof.
  intros Hcfg.
  destruct (_load_cfg_cases h w w' cfg Hcfg) as [->|[data ->]].
  - split; [exact DEFAULT_CFG_NoDup|]. split.
    + exists []. rewrite app_nil_r. reflexivity.
    + intros k Hk. apply dict_get_is_Some, Hk.
  - split; [apply deep_merge_keys_NoDup, DEFAULT_CFG_NoDup|].
    split; [apply deep_merge_keys_prefix|].
    intros k Hk. apply dict_get_is_Some, deep_merge_keys_In. left. exact Hk.
Qed.

(** *** Preflight: how it can fail *)

Lemma preflight_outcome (code : pystr) (policy : SecurityPolicy) :
  if bool_decide (code = []) ||
     (forallb is_str (blocked_imports policy) && forallb is_str (blocked_calls policy))
  then exists l, preflight_check h code policy = Ret l
  else exists e, preflight_check h code policy = Raise e /\ exc_name e = u "TypeError".
Proof.
  unfold preflight_check.
  destruct (bool_decide (code = [])) eqn:Hc.
  - apply bool_decide_eq_true in Hc. subst code. exists []. reflexivity.
  - apply bool_decide_eq_false in Hc. cbn [orb].
    destruct (splitlines code) as [|L lines] eqn:Hs.
    { exfalso. apply Hc. apply splitlines_nil. exact Hs. }
    destruct (forallb is_str (blocked_imports policy)) eqn:Hi.
    + destruct (forallb is_str (blocked_calls policy)) eqn:Hcs; cbn [andb].
      * destruct (scan_lines_total h (L :: lines) policy Hi Hcs 1%nat) as (l & Hl & _).
        exists l. exact Hl.
      * destruct (scan_imports_total h L 1 _ Hi) as (a & Ha & _).
        destruct (scan_calls_raises L 1 _ Hcs) as (e & He & Hn).
        exists e. split; [|exact Hn]. cbn. rewrite Ha. cbn. rewrite He. reflexivity.
    + cbn [andb]. destruct (scan_imports_raises h L 1 _ Hi) as (e & He & Hn).
      exists e. split; [|exact Hn]. cbn. rewrite He. reflexivity.
Qed.

End RequestFacts.

(** ** Properties of the entry points *)

Section FurtherProperties.

Variable h : Host.

(** X4. [preflight_check] raises exactly when the source text is not empty
    and some entry of the policy is not a string, and what it raises is a
    TypeError; on an empty text no entry is looked at. *)
Theorem preflight_raises_iff (code : pystr) (policy : SecurityPolicy) :
  ((exists e, preflight_check h code policy = Raise e) <->
   code <> [] /\
   forallb is_str (blocked_imports policy) && forallb is_str (blocked_calls policy) = false) /\
  (forall e, preflight_check h code policy = Raise e -> exc_name e = u "TypeError").
Proof.
  pose proof (preflight_outcome h code policy) as Ho.
  destruct (bool_decide (code = [])) eqn:Hc.
  - apply bool_decide_eq_true in Hc. cbn [orb] in Ho. destruct Ho as [l Hl].
    rewrite Hl. split; [|discriminate].
    split; [intros [e He]; discriminate|intros [Hne _]; contradiction].
  - apply bool_decide_eq_false in Hc. cbn [orb] in Ho.
    destruct (forallb is_str (blocked_imports policy) && forallb is_str (blocked_calls policy)).
    + destruct Ho as [l Hl]. rewrite Hl. split; [|discriminate].
      split; [intros [e He]; discriminate|intros [_ Hf]; discriminate].
    + destruct Ho as (e & He & Hn). rewrite He. split.
      * split; [intros _; split; [exact Hc|reflexivity]|intros _; exists e; reflexivity].
      * intros e' [= <-]. exact Hn.
Qed.

(** X7. Whatever the configuration file holds, a configuration that
    [_load_cfg] returns has every key of DEFAULT_CFG, the default keys first
    and in their order, and no key twice.  [_load_cfg] returns one whenever
    the file is there (readable or not, an object or not), and for a
    missing file whenever the defaults can be written; it raises only for a
    missing file, with the error of the test for the file or of the write. *)
Theorem loaded_config_has_defaults (w : World) :
  (forall cfg w',
      _load_cfg h w = (Ret cfg, w') ->
      NoDup (map fst cfg) /\
      (exists extra, map fst cfg = map fst DEFAULT_CFG ++ extra) /\
      (forall k, In k (map fst DEFAULT_CFG) -> is_Some (dict_get cfg k))) /\
  (is_Some (fs w !! CFG_PATH h) \/
   (py_stat_error h (CFG_PATH h) = None /\ h_cfg_write_error h = None) ->
   exists cfg w', _load_cfg h w = (Ret cfg, w')) /\
  (forall e w',
      _load_cfg h w = (Raise e, w') ->
      fs w !! CFG_PATH h = None /\
      (py_stat_error h (CFG_PATH h) = Some e \/
       exists left, h_cfg_write_error h = Some (e, left))).
Proof.
  split; [|split].
  - intros cfg w'. apply _load_cfg_defaults.
  - apply _load_cfg_total.
  - intros e w'. apply _load_cfg_raise_inv.
Qed.

(** X9. Whatever [run_snippet] or [run_file] returns has
    ok = (returncode == 0) and carries the profile that the request
    resolved to and the environment that was detected. *)
Theorem sandbox_result_fields :
  (forall code prompt profile w w1 w' cfg meta prof policy r,
      snippet_request h code prompt profile w = (Ret (cfg, meta, prof, policy), w1) ->
      run_snippet h code prompt profile w = (Ret r, w') ->
      r_ok r = (r_returncode r =? 0)%Z /\
      r_profile r = prof /\
      r_env r = detect_environment h) /\
  (forall path profile w w' r,
      run_file h path profile w = (Ret r, w') ->
      exists cfg w1,
        _load_cfg h w = (Ret cfg, w1) /\
        r_ok r = (r_returncode r =? 0)%Z /\
        r_profile r = get_profile (detect_environment h) (opt_str profile) cfg /\
        r_env r = detect_environment h).
Proof.
  split.
  - intros code prompt profile w w1 w' cfg meta prof policy r Hreq Hrun.
    split; [exact (run_snippet_ok_is_rc0 h _ _ _ _ _ _ Hrun)|].
    destruct (run_snippet_ret_inv h code prompt profile w w1 w' cfg meta prof policy r
                Hreq Hrun)
      as (findings & _ & [[_ ->]|(_ & rc & out & err & dur & ->)]).
    + split; reflexivity.
    + match goal with
      | |- context [validate_phase h ?r0 ?e] =>
          destruct (validate_phase_fields h r0 e) as (-> & _ & -> & _)
      end.
      split; reflexivity.
  - intros path profile w w' r Hrun.
    pose proof (run_file_ok_is_rc0 h _ _ _ _ _ Hrun) as Hok.
    apply run_file_ret_inv in Hrun as (cfg & w1 & policy & p & Hcfg & _ & _ & Hcase).
    exists cfg, w1. split; [exact Hcfg|]. split; [exact Hok|].
    destruct Hcase as [[_ ->]|(f & findings & _ & _ & [[_ ->]|(_ & rc & out & err & dur & ->)])];
      try (split; reflexivity).
    match goal with
    | |- context [validate_phase h ?r0 ?e] =>
        destruct (validate_phase_fields h r0 e) as (-> & _ & -> & _)
    end.
    split; reflexivity.
Qed.


(** X12. However [run_snippet] or [run_file] ends, every child process
    started meanwhile is a [sandbox_child]: the interpreter on a wrapper file
    of TMP_DIR, with captured output, a timeout, no preexec_fn, and an
    environment that holds PYTHONUNBUFFERED=1 and the parent's PATH, HOME,
    LANG and LC_* variables, nothing else. *)
Theorem sandbox_starts_only_guarded_children :
  (forall code prompt profile w o w',
      run_snippet h code prompt profile w = (o, w') ->
      spawns_only (sandbox_child h) w w') /\
  (forall path profile w o w',
      run_file h path profile w = (o, w') ->
      spawns_only (sandbox_child h) w w').
Proof.
  split.
  - intros code prompt profile w o w' Hrun. exact (run_snippet_child h _ _ _ _ _ _ Hrun).
  - intros path profile w o w' Hrun. exact (run_file_child h _ _ _ _ _ Hrun).
Qed.

(** X13. A result of [run_snippet] or [run_file] either comes with exactly one
    child process, a sandbox child, or it is a rejection (returncode 2,
    ok=False, empty stdout) for which no child was started. *)
Theorem one_child_per_executed_request :
  (forall code prompt profile w w' r,
      run_snippet h code prompt profile w = (Ret r, w') ->
      (spawned w' = spawned w /\
       r_returncode r = 2%Z /\ r_ok r = false /\ r_stdout r = []) \/
      (exists sp, spawned w' = spawned w ++ [sp] /\ sandbox_child h sp)) /\
  (forall path profile w w' r,
      run_file h path profile w = (Ret r, w') ->
      (spawned w' = spawned w /\
       r_returncode r = 2%Z /\ r_ok r = false /\ r_stdout r = []) \/
      (exists sp, spawned w' = spawned w ++ [sp] /\ sandbox_child h sp)).
Proof.
  split.
  - intros code prompt profile w w' r Hrun. exact (run_snippet_children h _ _ _ _ _ _ Hrun).
  - intros path profile w w' r Hrun. exact (run_file_children h _ _ _ _ _ Hrun).
Qed.

End FurtherProperties.

(** ** The properties at examples *)

Lemma preflight_findings_exact_witness :
  let host := linux_host hello_program in
  let code := u "import os" ++ [10] ++ u "import socket" in
  let policy := policy_of (JStr (u "headless")) DEFAULT_CFG in
  exists findings,
    preflight_check host code policy = Ret findings /\
    forall msg, In msg findings <->
      exists n L, nth_error (splitlines code) n = Some L /\ finding_of host policy n L msg.
Proof.
  cbv zeta.
  apply (preflight_findings_exact (linux_host hello_program)
           (u "import os" ++ [10] ++ u "import socket")
           (policy_of (JStr (u "headless")) DEFAULT_CFG)).
  - vm_compute. reflexivity.
  - vm_compute. reflexivity.
Defined.

Lemma deep_merge_keys_witness :
  let override :=
    [(u "exec_timeout_sec", JInt 3); (u "editor", JStr (u "vi"));
     (u "policy_overrides",
      JObj [(u "headless", JObj [(u "blocked_calls", JArr [])]); (u "iot", JNull)])] in
  NoDup (map fst (deep_merge DEFAULT_CFG override)) /\
  wf_json (JObj (deep_merge DEFAULT_CFG override)) = true /\
  is_Some (get_path (deep_merge DEFAULT_CFG override)
             [u "policy_overrides"; u "headless"; u "blocked_imports"]) /\
  ~ is_Some (get_path (deep_merge DEFAULT_CFG override)
               [u "policy_overrides"; u "iot"; u "blocked_imports"]) /\
  is_Some (get_path (deep_merge DEFAULT_CFG override) [u "editor"]).
Proof.
  cbv zeta.
  destruct (deep_merge_keys DEFAULT_CFG
              [(u "exec_timeout_sec", JInt 3); (u "editor", JStr (u "vi"));
               (u "policy_overrides",
                JObj [(u "headless", JObj [(u "blocked_calls", JArr [])]);
                      (u "iot", JNull)])])
    as (_ & _ & Hnd & Hwf & Hdst & Hsrc).
  split; [|split; [|split; [|split]]].
  - apply Hnd. apply (bool_decide_unpack _). vm_compute. exact I.
  - apply Hwf; vm_compute; reflexivity.
  - eapply Hdst; vm_compute; reflexivity.
  - intros H. eapply Hdst in H; [vm_compute in H; discriminate|..]; vm_compute; reflexivity.
  - eapply Hsrc; vm_compute; reflexivity.
Defined.

Lemma loaded_config_has_defaults_witness :
  let host := linux_host hello_program in
  exists cfg w',
    _load_cfg host empty_world = (Ret cfg, w') /\
    NoDup (map fst cfg) /\
    (forall k, In k (map fst DEFAULT_CFG) -> is_Some (dict_get cfg k)).
Proof.
  cbv zeta.
  destruct (loaded_config_has_defaults (linux_host hello_program) empty_world)
    as (Hdef & Hret & _).
  destruct Hret as (cfg & w' & Hcfg); [right; split; reflexivity|].
  exists cfg, w'. split; [exact Hcfg|].
  destruct (Hdef cfg w' Hcfg) as (Hnd & _ & Hall). split; assumption.
Defined.

Lemma non_dict_policy_table_witness :
  let host := linux_host hello_program in
  let stored :=
    with_fs (insert (CFG_PATH host) (FJson (JObj [(u "policy_overrides", JNull)])))
            empty_world in
  (forall path profile, exists e w',
      run_file host path profile stored = (Raise e, w') /\
      exc_name e = u "AttributeError" /\ spawned w' = spawned stored) /\
  (forall code prompt profile, exists e w',
      run_snippet host code prompt profile stored = (Raise e, w') /\
      exc_name e = u "AttributeError" /\ spawned w' = spawned stored).
Proof.
  cbv zeta.
  eapply (non_dict_policy_table (linux_host hello_program) _ _
            [(u "policy_overrides", JNull)] JNull).
  - vm_compute. reflexivity.
  - apply (bool_decide_unpack _). vm_compute. exact I.
  - vm_compute. reflexivity.
  - reflexivity.
Defined.

Lemma sandbox_result_fields_witness :
  let host := linux_host hello_program in
  exists r w',
    run_snippet host (u "print('hello')") None None empty_world = (Ret r, w') /\
    r_ok r = (r_returncode r =? 0)%Z /\
    r_profile r = JStr (u "headless") /\
    r_env r = detect_environment host.
Proof.
  cbv zeta. eexists _, _. split; [vm_compute; reflexivity|].
  eapply (proj1 (sandbox_result_fields (linux_host hello_program))
            (u "print('hello')") None None empty_world).
  - vm_compute. reflexivity.
  - vm_compute. reflexivity.
Defined.



Lemma sandbox_starts_only_guarded_children_witness :
  let host := linux_host hello_program in
  exists o w',
    run_snippet host (u "print('hello')") None None empty_world = (o, w') /\
    spawns_only (sandbox_child host) empty_world w'.
Proof.
  cbv zeta. eexists _, _. split; [vm_compute; reflexivity|].
  eapply (proj1 (sandbox_starts_only_guarded_children (linux_host hello_program))
            (u "print('hello')") None None empty_world).
  vm_compute. reflexivity.
Defined.

Lemma one_child_per_executed_request_witness :
  let host := linux_host hello_program in
  exists r w',
    run_snippet host (u "print('hello')") None None empty_world = (Ret r, w') /\
    ((spawned w' = spawned empty_world /\
      r_returncode r = 2%Z /\ r_ok r = false /\ r_stdout r = []) \/
     (exists sp, spawned w' = spawned empty_world ++ [sp] /\ sandbox_child host sp)).
Proof.
  cbv zeta. eexists _, _. split; [vm_compute; reflexivity|].
  eapply (proj1 (one_child_per_executed_request (linux_host hello_program))
            (u "print('hello')") None None empty_world).
  vm_compute. reflexivity.
Defined.

Lemma find_spec_decides_by_root_witness :
  let w := mkWrapper [JStr (u "os.path"); JStr (u "socket")] [] (u "/tmp/t.py") in
  (forall fullname,
      (exists e, find_spec w fullname = Raise e) <->
      In (JStr (split_root fullname)) (w_blocked w)) /\
  (forall root rest,
      ~ In 46 root ->
      find_spec w (root ++ 46 :: rest) = find_spec w root) /\
  ((forall s, In (JStr s) (w_blocked w) -> In 46 s) ->
   forall fullname, find_spec w fullname = Ret tt).
Proof.
  cbv zeta.
  apply (find_spec_decides_by_root
           (mkWrapper [JStr (u "os.path"); JStr (u "socket")] [] (u "/tmp/t.py"))).
  reflexivity.
Defined.

Lemma cli_exit_status_is_returncode_witness :
  let host := linux_host hello_program in
  exists c w' r,
    _cmd_run_file host (u "/srv/hal/missing.py") None empty_world = (Ret c, w') /\
    run_file host (u "/srv/hal/missing.py") None empty_world = (Ret r, w') /\
    cli_exit c = r_returncode r /\
    cli_exit c = 2%Z /\
    cli_stdout c = [] /\
    cli_stderr c = u "File not found: /srv/hal/missing.py" ++ [10].
Proof.
  cbv zeta.
  destruct (proj1 (cli_exit_status_is_returncode (linux_host hello_program))
              (u "/srv/hal/missing.py") None empty_world _ _ eq_refl)
    as (r & Hrun & Hexit & _ & Hout & Herr).
  eexists _, _, r. split; [reflexivity|]. split; [exact Hrun|]. split; [exact Hexit|].
  split; [vm_compute; reflexivity|].
  split; vm_compute; reflexivity.
Defined.

Lemma prompt_overrides_requested_profile_witness :
  let host := with_intelligence (intelligence_module ascii_lower (u "2025-01-01T00:00:00"))
                                (linux_host hello_program) in
  exists cfg meta prof policy w1,
    snippet_request host (u "print('hello')") (Some (u "Analiza CSV")) (Some (u "iot")) empty_world
      = (Ret (cfg, meta, prof, policy), w1) /\
    prof = JStr (u "analysis").
Proof.
  cbv zeta. eexists _, _, _, _, _. split; [vm_compute; reflexivity|].
  refine (proj2 (prompt_overrides_requested_profile
            (with_intelligence (intelligence_module ascii_lower (u "2025-01-01T00:00:00"))
                               (linux_host hello_program))
            ascii_lower (u "2025-01-01T00:00:00") eq_refl
            (u "print('hello')") 65 (u "naliza CSV") (Some (u "iot")) empty_world _ _ _ _ _ _)).
  vm_compute. reflexivity.
Defined.


Lemma run_python_script_mirrors_sandbox_witness :
  let host := linux_host hello_program in
  let script := u "/etc/cron.d/job.py" in
  let stored := with_fs (insert script (FText (u "print('hello')"))) empty_world in
  exists r w',
    run_file host script None stored = (Ret r, w') /\
    exists s,
      run_python_script host true (fun _ => false) (fun p => p) (fun _ => u "/etc/cron.d")
        (fun _ => u "20250101-000000") (u "capture") (fun _ => 4242%Z)
        script [u "--fast"] stored = (Ret s, w') /\
      s_ok s = r_ok r /\
      (s_ok s = true <-> r_returncode r = 0%Z) /\
      s_msg s = u "[PY] Exit=" ++ str_of_Z (r_returncode r) ++ u ", job=sandbox" /\
      s_stdout s = take (Z.to_nat PY_STDOUT_MAX) (r_stdout r) /\
      s_stderr s = take (Z.to_nat PY_STDOUT_MAX) (r_stderr r) /\
      spawns_only (sandbox_child host) stored w'.
Proof.
  cbv zeta. eexists _, _. split; [vm_compute; reflexivity|].
  apply (run_python_script_mirrors_sandbox (linux_host hello_program)
           (fun _ => false) (fun p => p) (fun _ => u "/etc/cron.d")
           (fun _ => u "20250101-000000") (u "capture") (fun _ => 4242%Z)
           (u "/etc/cron.d/job.py") [u "--fast"]
           (with_fs (insert (u "/etc/cron.d/job.py") (FText (u "print('hello')")))
                    empty_world)).
  vm_compute. reflexivity.
Defined.

Lemma broken_policy_table_bypasses_sandbox_witness :
  let host := linux_host hello_program in
  let script := u "/opt/halbridge/scripts/job.py" in
  let stored :=
    with_fs (insert script (FText (u "print('hello')")))
      (with_fs (insert (CFG_PATH host) (FJson (JObj [(u "policy_overrides", JNull)])))
               empty_world) in
  exists s w' sp bin,
    run_python_script host true (fun _ => true) (fun p => p)
      (fun _ => u "/opt/halbridge/scripts") (fun _ => u "20250101-000000") (u "capture")
      (fun _ => 4242%Z) script [u "--fast"] stored = (Ret s, w') /\
    spawned w' = spawned stored ++ [sp] /\
    sp_argv sp = bin :: script :: [u "--fast"] /\
    sp_env sp = None /\
    child_limits sp = mkLimits (Some 268435456%Z) (Some 30%Z) /\
    ~ sandbox_child host sp.
Proof.
  cbv zeta.
  eapply (broken_policy_table_bypasses_sandbox (linux_host hello_program)
            (fun _ => true) (fun p => p) (fun _ => u "/opt/halbridge/scripts")
            (fun _ => u "20250101-000000") (u "capture") (fun _ => 4242%Z)
            _ _ [(u "policy_overrides", JNull)] JNull).
  - vm_compute. reflexivity.
  - apply (bool_decide_unpack _). vm_compute. exact I.
  - vm_compute. reflexivity.
  - reflexivity.
  - vm_compute. eexists. reflexivity.
  - reflexivity.
  - vm_compute. discriminate.
Defined.
